(** * NBT static connection handover: a shallow embedding

    The development follows the C sources of the example application:
    - [main.c]: the connection handover message, the three field update
      callbacks, the button task, the configuration of the tag and the
      start-up task;
    - [bluetooth-handling.c]: the in-RAM bonding record, the CCCD mirror,
      [ble_gatt_send_hid_update], [ble_clear_bonding_info], [gatt_callback]
      (its read-by-type case apart, as [gatt_read_by_type]) and
      [ble_callback];
    - [data-storage.c]: the block device under the key-value store and its
      set-up.

    Bytes are integers in [0, 256), arrays are lists, [uintN_t] arithmetic is
    written with its wrap-around.  The vendor libraries (tag transport,
    key-value store, Bluetooth stack, mbedTLS) are not part of the sources:
    every call into them is recorded in a trace, and what they answer is an
    input of the handler that calls them. *)

From Stdlib Require Import ZArith Lia.
From stdpp Require Import base list strings gmap.

Local Open Scope Z_scope.

(** ** Bytes and fixed-width integers *)

Definition byte_ok (b : Z) : Prop := 0 <= b < 256.
Definition bytes_ok (l : list Z) : Prop := Forall byte_ok l.

Definition to_uint8 (z : Z) : Z := z mod 2 ^ 8.
Definition to_uint16 (z : Z) : Z := z mod 2 ^ 16.
Definition to_uint32 (z : Z) : Z := z mod 2 ^ 32.

(** [a[i]] for a byte array; an index past the end reads as 0 here (the C
    program would read foreign memory, no caller of the model does). *)
Definition byte_at (a : list Z) (i : nat) : Z := default 0 (a !! i).

(** [memcpy(dst + off, src, length src)]: byte by byte, in place. *)
Fixpoint store_bytes (dst : list Z) (off : nat) (src : list Z) : list Z :=
  match src with
  | [] => dst
  | b :: src' => store_bytes (<[off := b]> dst) (S off) src'
  end.

Definition memcpy (dst : list Z) (off : nat) (src : list Z) (n : nat) : list Z :=
  store_bytes dst off (take n src).

(** [memset(p, 0x00, sizeof *p)] on a fixed-size object. *)
Definition memset_zero (obj : list Z) : list Z := (λ _, 0) <$> obj.

(** The bytes [a[off] .. a[off + n - 1]]. *)
Definition slice (a : list Z) (off n : nat) : list Z := take n (drop off a).

(** ** [main.c]: the connection handover message *)

Definition CONNECTION_HANDOVER_MESSAGE_init : list Z :=
  (* NDEF message length *)
  [0x00; 0x23 + 0x4E]
  (* NDEF record header, record type length, payload length *)
  ++ [0xD2; 0x20; 0x4E]
  (* record type name: application/vnd.bluetooth.le.oob *)
  ++ [0x61; 0x70; 0x70; 0x6C; 0x69; 0x63; 0x61; 0x74; 0x69; 0x6F; 0x6E; 0x2F; 0x76; 0x6E; 0x64; 0x2E;
      0x62; 0x6C; 0x75; 0x65; 0x74; 0x6F; 0x6F; 0x74; 0x68; 0x2E; 0x6C; 0x65; 0x2E; 0x6F; 0x6F; 0x62]
  (* BLE device address: length, data type, 6 address bytes, address type *)
  ++ [0x08; 0x1B] ++ replicate 6 0xFF ++ [0x00]
  (* BLE role: peripheral *)
  ++ [0x02; 0x1C; 0x00]
  (* BLE local name: NBT *)
  ++ [0x04; 0x09; 0x4E; 0x42; 0x54]
  (* appearance: HID mouse *)
  ++ [0x03; 0x19; 0xC2; 0x03]
  (* security manager TK: length, data type, 16 key bytes *)
  ++ [0x11; 0x10] ++ replicate 16 0x00
  (* LE secure connection confirmation value: length, data type, 16 bytes *)
  ++ [0x11; 0x22] ++ replicate 16 0xFF
  (* LE secure connection random value: length, data type, 16 bytes *)
  ++ [0x11; 0x23] ++ replicate 16 0xFF
  (* LE OOB flags *)
  ++ [0x02; 0x01; 0x06].

Definition CONNECTION_HANDOVER_MESSAGE_MAC_OFFSET : nat := 39.
Definition CONNECTION_HANDOVER_MESSAGE_CONFIRMATION_OFFSET : nat := 78.
Definition CONNECTION_HANDOVER_MESSAGE_RANDOM_OFFSET : nat := 96.

(** [sizeof(wiced_bt_device_address_t)] *)
Definition BD_ADDR_LEN : nat := 6.

Definition PERIOD_LENGTH_MS : Z := 100.

(** ** Status codes of the vendor libraries

    Only the values the program compares against are named; any other code is
    kept as a number. *)

Inductive ifx_status_t := IFX_SUCCESS | IFX_ERROR (code : Z).

Definition ifx_error_check (s : ifx_status_t) : bool :=
  match s with IFX_SUCCESS => false | IFX_ERROR _ => true end.

Inductive cy_rslt_t := CY_RSLT_SUCCESS | CY_RSLT_ERROR (code : Z).

Inductive wiced_result_t := WICED_BT_SUCCESS | WICED_BT_ERROR | WICED_BT_RESULT (code : Z).

Inductive wiced_bt_gatt_status_t :=
| WICED_BT_GATT_SUCCESS
| WICED_BT_GATT_INVALID_HANDLE
| WICED_BT_GATT_INVALID_OFFSET
| WICED_BT_GATT_INVALID_ATTR_LEN
| WICED_BT_GATT_ERROR
| WICED_BT_GATT_STATUS (code : Z)
| WICED_BT_GATT_RESULT (r : wiced_result_t).

Inductive wiced_bt_ble_advert_mode_t :=
| BTM_BLE_ADVERT_OFF
| BTM_BLE_ADVERT_UNDIRECTED_HIGH
| BTM_BLE_ADVERT_MODE (code : Z).

Global Instance ifx_status_eq_dec : EqDecision ifx_status_t.
Proof. solve_decision. Defined.
Global Instance cy_rslt_eq_dec : EqDecision cy_rslt_t.
Proof. solve_decision. Defined.
Global Instance wiced_result_eq_dec : EqDecision wiced_result_t.
Proof. solve_decision. Defined.
Global Instance wiced_bt_gatt_status_eq_dec : EqDecision wiced_bt_gatt_status_t.
Proof. solve_decision. Defined.
Global Instance wiced_bt_ble_advert_mode_eq_dec : EqDecision wiced_bt_ble_advert_mode_t.
Proof. solve_decision. Defined.

(** [gatt_callback] returns the result of [wiced_bt_start_advertisements]
    through its own status type: the number is kept, success is 0 in both. *)
Definition gatt_status_of_result (r : wiced_result_t) : wiced_bt_gatt_status_t :=
  match r with
  | WICED_BT_SUCCESS => WICED_BT_GATT_SUCCESS
  | _ => WICED_BT_GATT_RESULT r
  end.

(** ** Data of [bluetooth-handling.c] *)

(** [wiced_bt_device_link_keys_t]: the peer address and the key material that
    follows it in the structure. *)
Record wiced_bt_device_link_keys_t := {
  bd_addr : list Z;
  key_data : list Z
}.

Global Instance wiced_bt_device_link_keys_eq_dec : EqDecision wiced_bt_device_link_keys_t.
Proof. solve_decision. Defined.

Record bonding_info_t := {
  device_link_keys : wiced_bt_device_link_keys_t;
  bonded : bool
}.

Global Instance bonding_info_eq_dec : EqDecision bonding_info_t.
Proof. solve_decision. Defined.

(** [memset(&bonding_info.device_link_keys, 0x00, sizeof(...))] *)
Definition zero_link_keys (k : wiced_bt_device_link_keys_t) : wiced_bt_device_link_keys_t :=
  {| bd_addr := memset_zero (bd_addr k); key_data := memset_zero (key_data k) |}.

(** The byte image [(uint8_t * ) (&bonding_info)] handed to the key-value
    store: address, key material, flag (padding left out). *)
Definition bonding_info_bytes (b : bonding_info_t) : list Z :=
  bd_addr (device_link_keys b) ++ key_data (device_link_keys b)
    ++ [if bonded b then 1 else 0].

(** Reading such an image back into [bonding_info]. *)
Definition bonding_info_of_bytes (l : list Z) : option bonding_info_t :=
  match reverse (drop BD_ADDR_LEN l) with
  | flag :: rev_keys =>
      Some {| device_link_keys := {| bd_addr := take BD_ADDR_LEN l;
                                     key_data := reverse rev_keys |};
              bonded := negb (flag =? 0) |}
  | [] => None
  end.

(** [cccd] as the two bytes found at [&cccd] (little-endian target). *)
Definition cccd_bytes (c : Z) : list Z := [c mod 256; (c / 256) mod 256].
Definition cccd_of_bytes (l : list Z) : Z := byte_at l 0 + 256 * byte_at l 1.

(** One row of the generated attribute table: [p_data] names the array the
    row points to. *)
Record gatt_db_lookup_table_t := {
  handle : Z;
  max_len : Z;
  cur_len : Z;
  p_data : nat
}.

(** The two arrays of the generated database the program names directly. *)
Definition app_hids_report : nat := 0%nat.
Definition app_hids_report_client_char_config : nat := 1%nat.

(** Constants of the generated configuration and of the vendor headers. *)
Record platform := {
  HDLD_HIDS_REPORT_CLIENT_CHAR_CONFIG : Z;
  HDLC_HIDS_REPORT_VALUE : Z;
  GATT_CLIENT_CONFIG_NOTIFICATION : Z;
  app_hids_report_len : Z;
  CY_BT_MTU_SIZE : Z;
  CY_UNIQUE_ID_DIE_WAFER_Pos : Z;
  CY_UNIQUE_ID_DIE_X_Pos : Z;
  CY_UNIQUE_ID_DIE_Y_Pos : Z;
  cy_bt_device_address : list Z
}.

(** ** Events delivered by the Bluetooth stack *)

(** [wiced_bt_smp_sc_local_oob_t]: the fields of the locally generated OOB
    data. *)
Record wiced_bt_smp_sc_local_oob_t := {
  public_key_used_x : list Z;
  public_key_used_y : list Z;
  randomizer : list Z;
  commitment : list Z
}.

(** A management event with the member of [event_data] its case reads. *)
Inductive wiced_bt_management_evt_t :=
| BTM_ENABLED_EVT (status : wiced_result_t)
| BTM_PAIRING_IO_CAPABILITIES_BLE_REQUEST_EVT
| BTM_PAIRING_COMPLETE_EVT
| BTM_BLE_ADVERT_STATE_CHANGED_EVT (ble_advert_state_changed : wiced_bt_ble_advert_mode_t)
| BTM_PAIRED_DEVICE_LINK_KEYS_UPDATE_EVT (paired_device_link_keys_update : wiced_bt_device_link_keys_t)
| BTM_PAIRED_DEVICE_LINK_KEYS_REQUEST_EVT
| BTM_LOCAL_IDENTITY_KEYS_UPDATE_EVT (local_identity_keys_update : list Z)
| BTM_LOCAL_IDENTITY_KEYS_REQUEST_EVT
| BTM_ENCRYPTION_STATUS_EVT (encryption_status_bd_addr : list Z)
| BTM_SMP_SC_LOCAL_OOB_DATA_NOTIFICATION_EVT (p_smp_sc_local_oob_data : wiced_bt_smp_sc_local_oob_t)
| BTM_SECURITY_REQUEST_EVT (security_request_bd_addr : list Z)
| BTM_OTHER_EVT (code : Z).

(** What a case writes back into [event_data]. *)
Inductive event_data_out :=
| out_none
| out_pairing_io_capabilities
| out_paired_device_link_keys_request (keys : wiced_bt_device_link_keys_t).

(** How a call of [ble_callback] ends: [CY_ASSERT(0)] stops a debug build. *)
Inductive ble_return := Returned (r : wiced_result_t) | Halted.

Inductive wiced_bt_gatt_opcode_t :=
| GATT_REQ_READ
| GATT_REQ_READ_BLOB
| GATT_REQ_WRITE
| GATT_CMD_WRITE
| GATT_REQ_MTU
| GATT_HANDLE_VALUE_NOTIF
| GATT_HANDLE_VALUE_CONF
| GATT_OPCODE (code : Z).

(** [event_data->attribute_request]; [write_req.val_len] is the length of
    [write_req_p_val]. *)
Record wiced_bt_gatt_attribute_request_t := {
  conn_id : Z;
  opcode : wiced_bt_gatt_opcode_t;
  len_requested : Z;
  read_req_handle : Z;
  read_req_offset : Z;
  write_req_handle : Z;
  write_req_p_val : list Z;
  remote_mtu : Z
}.

(** The attribute-server events whose cases touch program data.  The
    read-by-type request and the two buffer events work on heap blocks and
    stack iterators only and are left out: [GATT_OPCODE] and [GATT_OTHER_EVT]
    stand for the opcodes and events that reach the [default] labels. *)
Inductive wiced_bt_gatt_evt_t :=
| GATT_CONNECTION_STATUS_EVT (connected : bool) (connection_status_conn_id : Z)
| GATT_ATTRIBUTE_REQUEST_EVT (attribute_request : wiced_bt_gatt_attribute_request_t)
| GATT_OTHER_EVT (code : Z).

(** ** Calls into the vendor libraries, as recorded in the trace *)

Inductive ifx_log_level := IFX_LOG_WARN | IFX_LOG_ERROR | IFX_LOG_FATAL.

Inductive call :=
| nbt_write_file (offset : nat) (data : list Z)
| mtb_kvstore_read (key : string) (size_only : bool)
| mtb_kvstore_write (key : string) (data : list Z)
| Cy_SysLib_GetUniqueId
| wiced_bt_set_local_bdaddr (addr : list Z)
| wiced_bt_dev_add_device_to_address_resolution_db (keys : wiced_bt_device_link_keys_t)
| wiced_bt_set_pairable_mode
| wiced_bt_ble_set_raw_advertisement_data
| wiced_bt_gatt_register
| wiced_bt_gatt_db_init
| wiced_bt_smp_create_local_sc_oob_data (addr : list Z)
| wiced_bt_start_advertisements (mode : wiced_bt_ble_advert_mode_t)
| wiced_bt_dev_delete_bonded_device (addr : list Z)
| wiced_bt_ble_address_resolution_list_clear_and_disable
| wiced_bt_ble_security_grant (addr : list Z)
| wiced_bt_gatt_server_send_notification (to_conn_id attr_handle len : Z) (data : list Z)
| wiced_bt_gatt_server_send_error_rsp (to_conn_id attr_handle : Z) (status : wiced_bt_gatt_status_t)
| wiced_bt_gatt_server_send_read_handle_rsp (to_conn_id len : Z) (data : list Z)
| wiced_bt_gatt_server_send_write_rsp (to_conn_id attr_handle : Z)
| wiced_bt_gatt_server_send_mtu_rsp (to_conn_id mtu my_mtu : Z)
| vTaskDelay_ms (ms : Z)
| ifx_logger_log (level : ifx_log_level) (message : string)
| CY_ASSERT_0.

(** ** What the vendor libraries answer

    The stack reports success or failure only; the program branches on the
    answers, so they are inputs of every handler.  One record holds the
    answers given during one run of a handler. *)
Record answers := {
  (** [nbt_write_file] for the write at the given offset *)
  ans_nbt_write_file : nat -> ifx_status_t;
  ans_kvstore_write : string -> cy_rslt_t;
  (** a read that finds its key can still fail on the medium *)
  ans_kvstore_read : string -> bool -> cy_rslt_t;
  ans_start_advertisements : wiced_bt_ble_advert_mode_t -> wiced_result_t;
  ans_set_local_bdaddr : wiced_result_t;
  ans_delete_bonded_device : wiced_result_t;
  ans_resolution_list_clear : wiced_result_t;
  ans_set_raw_advertisement_data : wiced_result_t;
  ans_gatt_register : wiced_bt_gatt_status_t;
  ans_gatt_db_init : wiced_bt_gatt_status_t;
  ans_create_local_sc_oob_data : bool;
  ans_send_read_handle_rsp : wiced_bt_gatt_status_t;
  ans_send_write_rsp : wiced_bt_gatt_status_t;
  ans_send_mtu_rsp : wiced_bt_gatt_status_t;
  (** the 64-bit value of [Cy_SysLib_GetUniqueId] *)
  ans_unique_id : Z;
  (** the byte found in [m[64]], which the OOB case never writes *)
  ans_m_64 : Z;
  (** whether [CY_ASSERT] is compiled out *)
  NDEBUG : bool
}.

(** The four mbedTLS calls of the OOB case; a call that returns non-zero is
    [None].  [mbedtls_cipher_init] and [mbedtls_cipher_free] cannot fail and
    leave nothing behind. *)
Record cipher_backend := {
  cipher_context : Type;
  mbedtls_cipher_setup : option cipher_context;
  mbedtls_cipher_cmac_starts : cipher_context -> list Z -> Z -> option cipher_context;
  mbedtls_cipher_cmac_update : cipher_context -> list Z -> option cipher_context;
  mbedtls_cipher_cmac_finish : cipher_context -> option (list Z)
}.

(** ** The program state *)

Record world := {
  (** [main.c] *)
  CONNECTION_HANDOVER_MESSAGE : list Z;
  elapsed_periods : Z;
  press_start : Z;
  (** [bluetooth-handling.c] *)
  bonding_info : bonding_info_t;
  cccd : Z;
  connection_id : Z;
  local_identity_keys : list Z;
  (** the generated attribute table and the arrays its rows point to *)
  app_gatt_db_ext_attr_tbl : list gatt_db_lookup_table_t;
  gatt_arrays : gmap nat (list Z);
  (** the key-value store on flash *)
  data_storage : gmap string (list Z);
  (** what the stack was last told: advertising mode, resolution list *)
  advertising : wiced_bt_ble_advert_mode_t;
  resolution_list : list wiced_bt_device_link_keys_t;
  (** every call into a vendor library so far, oldest first *)
  trace : list call
}.

Definition set_CONNECTION_HANDOVER_MESSAGE (v : list Z) (w : world) : world :=
  {| CONNECTION_HANDOVER_MESSAGE := v; elapsed_periods := elapsed_periods w;
     press_start := press_start w; bonding_info := bonding_info w; cccd := cccd w;
     connection_id := connection_id w; local_identity_keys := local_identity_keys w;
     app_gatt_db_ext_attr_tbl := app_gatt_db_ext_attr_tbl w; gatt_arrays := gatt_arrays w;
     data_storage := data_storage w; advertising := advertising w;
     resolution_list := resolution_list w; trace := trace w |}.

Definition set_elapsed_periods (v : Z) (w : world) : world :=
  {| CONNECTION_HANDOVER_MESSAGE := CONNECTION_HANDOVER_MESSAGE w; elapsed_periods := v;
     press_start := press_start w; bonding_info := bonding_info w; cccd := cccd w;
     connection_id := connection_id w; local_identity_keys := local_identity_keys w;
     app_gatt_db_ext_attr_tbl := app_gatt_db_ext_attr_tbl w; gatt_arrays := gatt_arrays w;
     data_storage := data_storage w; advertising := advertising w;
     resolution_list := resolution_list w; trace := trace w |}.

Definition set_press_start (v : Z) (w : world) : world :=
  {| CONNECTION_HANDOVER_MESSAGE := CONNECTION_HANDOVER_MESSAGE w;
     elapsed_periods := elapsed_periods w; press_start := v;
     bonding_info := bonding_info w; cccd := cccd w;
     connection_id := connection_id w; local_identity_keys := local_identity_keys w;
     app_gatt_db_ext_attr_tbl := app_gatt_db_ext_attr_tbl w; gatt_arrays := gatt_arrays w;
     data_storage := data_storage w; advertising := advertising w;
     resolution_list := resolution_list w; trace := trace w |}.

Definition set_bonding_info (v : bonding_info_t) (w : world) : world :=
  {| CONNECTION_HANDOVER_MESSAGE := CONNECTION_HANDOVER_MESSAGE w;
     elapsed_periods := elapsed_periods w; press_start := press_start w;
     bonding_info := v; cccd := cccd w;
     connection_id := connection_id w; local_identity_keys := local_identity_keys w;
     app_gatt_db_ext_attr_tbl := app_gatt_db_ext_attr_tbl w; gatt_arrays := gatt_arrays w;
     data_storage := data_storage w; advertising := advertising w;
     resolution_list := resolution_list w; trace := trace w |}.

Definition set_cccd (v : Z) (w : world) : world :=
  {| CONNECTION_HANDOVER_MESSAGE := CONNECTION_HANDOVER_MESSAGE w;
     elapsed_periods := elapsed_periods w; press_start := press_start w;
     bonding_info := bonding_info w; cccd := v;
     connection_id := connection_id w; local_identity_keys := local_identity_keys w;
     app_gatt_db_ext_attr_tbl := app_gatt_db_ext_attr_tbl w; gatt_arrays := gatt_arrays w;
     data_storage := data_storage w; advertising := advertising w;
     resolution_list := resolution_list w; trace := trace w |}.

Definition set_connection_id (v : Z) (w : world) : world :=
  {| CONNECTION_HANDOVER_MESSAGE := CONNECTION_HANDOVER_MESSAGE w;
     elapsed_periods := elapsed_periods w; press_start := press_start w;
     bonding_info := bonding_info w; cccd := cccd w;
     connection_id := v; local_identity_keys := local_identity_keys w;
     app_gatt_db_ext_attr_tbl := app_gatt_db_ext_attr_tbl w; gatt_arrays := gatt_arrays w;
     data_storage := data_storage w; advertising := advertising w;
     resolution_list := resolution_list w; trace := trace w |}.

Definition set_local_identity_keys (v : list Z) (w : world) : world :=
  {| CONNECTION_HANDOVER_MESSAGE := CONNECTION_HANDOVER_MESSAGE w;
     elapsed_periods := elapsed_periods w; press_start := press_start w;
     bonding_info := bonding_info w; cccd := cccd w;
     connection_id := connection_id w; local_identity_keys := v;
     app_gatt_db_ext_attr_tbl := app_gatt_db_ext_attr_tbl w; gatt_arrays := gatt_arrays w;
     data_storage := data_storage w; advertising := advertising w;
     resolution_list := resolution_list w; trace := trace w |}.

Definition set_app_gatt_db_ext_attr_tbl (v : list gatt_db_lookup_table_t) (w : world) : world :=
  {| CONNECTION_HANDOVER_MESSAGE := CONNECTION_HANDOVER_MESSAGE w;
     elapsed_periods := elapsed_periods w; press_start := press_start w;
     bonding_info := bonding_info w; cccd := cccd w;
     connection_id := connection_id w; local_identity_keys := local_identity_keys w;
     app_gatt_db_ext_attr_tbl := v; gatt_arrays := gatt_arrays w;
     data_storage := data_storage w; advertising := advertising w;
     resolution_list := resolution_list w; trace := trace w |}.

Definition set_gatt_arrays (v : gmap nat (list Z)) (w : world) : world :=
  {| CONNECTION_HANDOVER_MESSAGE := CONNECTION_HANDOVER_MESSAGE w;
     elapsed_periods := elapsed_periods w; press_start := press_start w;
     bonding_info := bonding_info w; cccd := cccd w;
     connection_id := connection_id w; local_identity_keys := local_identity_keys w;
     app_gatt_db_ext_attr_tbl := app_gatt_db_ext_attr_tbl w; gatt_arrays := v;
     data_storage := data_storage w; advertising := advertising w;
     resolution_list := resolution_list w; trace := trace w |}.

Definition set_data_storage (v : gmap string (list Z)) (w : world) : world :=
  {| CONNECTION_HANDOVER_MESSAGE := CONNECTION_HANDOVER_MESSAGE w;
     elapsed_periods := elapsed_periods w; press_start := press_start w;
     bonding_info := bonding_info w; cccd := cccd w;
     connection_id := connection_id w; local_identity_keys := local_identity_keys w;
     app_gatt_db_ext_attr_tbl := app_gatt_db_ext_attr_tbl w; gatt_arrays := gatt_arrays w;
     data_storage := v; advertising := advertising w;
     resolution_list := resolution_list w; trace := trace w |}.

Definition set_advertising (v : wiced_bt_ble_advert_mode_t) (w : world) : world :=
  {| CONNECTION_HANDOVER_MESSAGE := CONNECTION_HANDOVER_MESSAGE w;
     elapsed_periods := elapsed_periods w; press_start := press_start w;
     bonding_info := bonding_info w; cccd := cccd w;
     connection_id := connection_id w; local_identity_keys := local_identity_keys w;
     app_gatt_db_ext_attr_tbl := app_gatt_db_ext_attr_tbl w; gatt_arrays := gatt_arrays w;
     data_storage := data_storage w; advertising := v;
     resolution_list := resolution_list w; trace := trace w |}.

Definition set_resolution_list (v : list wiced_bt_device_link_keys_t) (w : world) : world :=
  {| CONNECTION_HANDOVER_MESSAGE := CONNECTION_HANDOVER_MESSAGE w;
     elapsed_periods := elapsed_periods w; press_start := press_start w;
     bonding_info := bonding_info w; cccd := cccd w;
     connection_id := connection_id w; local_identity_keys := local_identity_keys w;
     app_gatt_db_ext_attr_tbl := app_gatt_db_ext_attr_tbl w; gatt_arrays := gatt_arrays w;
     data_storage := data_storage w; advertising := advertising w;
     resolution_list := v; trace := trace w |}.

(** Record one call into a vendor library. *)
Definition called (c : call) (w : world) : world :=
  {| CONNECTION_HANDOVER_MESSAGE := CONNECTION_HANDOVER_MESSAGE w;
     elapsed_periods := elapsed_periods w; press_start := press_start w;
     bonding_info := bonding_info w; cccd := cccd w;
     connection_id := connection_id w; local_identity_keys := local_identity_keys w;
     app_gatt_db_ext_attr_tbl := app_gatt_db_ext_attr_tbl w; gatt_arrays := gatt_arrays w;
     data_storage := data_storage w; advertising := advertising w;
     resolution_list := resolution_list w; trace := trace w ++ [c] |}.

(** ** The vendor libraries as the program sees them

    Each definition records the call and hands back the library's answer.
    The effect a successful command has on the stack or on the store is
    modelled from the interface description; a failed command changes
    nothing. *)

Definition wiced_ok (r : wiced_result_t) : bool := bool_decide (r = WICED_BT_SUCCESS).
Definition cy_ok (r : cy_rslt_t) : bool := bool_decide (r = CY_RSLT_SUCCESS).
Definition gatt_ok (r : wiced_bt_gatt_status_t) : bool := bool_decide (r = WICED_BT_GATT_SUCCESS).

Definition log (level : ifx_log_level) (message : string) (w : world) : world :=
  called (ifx_logger_log level message) w.

(** [nbt_write_file(&nbt, NBT_FILEID_NDEF, offset,
    CONNECTION_HANDOVER_MESSAGE + offset, len)]: the bytes handed to the tag
    are the [len] bytes of the message that start at [offset]. *)
Definition do_nbt_write_file (a : answers) (offset len : nat) (w : world)
  : ifx_status_t * world :=
  (ans_nbt_write_file a offset,
   called (nbt_write_file offset (slice (CONNECTION_HANDOVER_MESSAGE w) offset len)) w).

(** Modelled from the spec: the store's [write(key, bytes) -> Result]; a
    successful write replaces the blob kept under the key. *)
Definition do_kvstore_write (a : answers) (key : string) (data : list Z) (w : world)
  : cy_rslt_t * world :=
  let w := called (mtb_kvstore_write key data) w in
  let r := ans_kvstore_write a key in
  (r, if cy_ok r then set_data_storage (<[key := data]> (data_storage w)) w else w).

(** Modelled from the spec: the store's [read(key) -> Option<bytes>]; a key
    that was never written is an error for the caller. *)
Definition do_kvstore_read (a : answers) (key : string) (size_only : bool) (w : world)
  : option (list Z) * world :=
  let w := called (mtb_kvstore_read key size_only) w in
  (if cy_ok (ans_kvstore_read a key size_only) then data_storage w !! key else None, w).

(** Modelled from the spec: the stack's start/stop advertising command. *)
Definition do_start_advertisements (a : answers) (mode : wiced_bt_ble_advert_mode_t) (w : world)
  : wiced_result_t * world :=
  let w := called (wiced_bt_start_advertisements mode) w in
  let r := ans_start_advertisements a mode in
  (r, if wiced_ok r then set_advertising mode w else w).

(** Modelled from the spec: the stack's clear-resolution-list command. *)
Definition do_resolution_list_clear (a : answers) (w : world) : wiced_result_t * world :=
  let w := called wiced_bt_ble_address_resolution_list_clear_and_disable w in
  let r := ans_resolution_list_clear a in
  (r, if wiced_ok r then set_resolution_list [] w else w).

(** Modelled from the spec: installing a peer's keys in the stack's
    resolution list. *)
Definition do_add_device_to_address_resolution_db
    (keys : wiced_bt_device_link_keys_t) (w : world) : world :=
  set_resolution_list (resolution_list w ++ [keys])
    (called (wiced_bt_dev_add_device_to_address_resolution_db keys) w).

(** ** [main.c]: the field update callbacks *)

Definition callback_mac_address_changed (a : answers) (mac : list Z) (w : world)
  : ifx_status_t * world :=
  let msg :=
    foldl (λ m i, <[(CONNECTION_HANDOVER_MESSAGE_MAC_OFFSET + i)%nat :=
                      byte_at mac (BD_ADDR_LEN - 1 - i)]> m)
          (CONNECTION_HANDOVER_MESSAGE w) (seq 0 BD_ADDR_LEN) in
  do_nbt_write_file a CONNECTION_HANDOVER_MESSAGE_MAC_OFFSET BD_ADDR_LEN
    (set_CONNECTION_HANDOVER_MESSAGE msg w).

Definition callback_sc_confirmation_value_changed (a : answers) (confirmation : list Z) (w : world)
  : ifx_status_t * world :=
  let msg := memcpy (CONNECTION_HANDOVER_MESSAGE w)
               CONNECTION_HANDOVER_MESSAGE_CONFIRMATION_OFFSET confirmation 0x10 in
  do_nbt_write_file a CONNECTION_HANDOVER_MESSAGE_CONFIRMATION_OFFSET 0x10
    (set_CONNECTION_HANDOVER_MESSAGE msg w).

Definition callback_sc_random_value_changed (a : answers) (random : list Z) (w : world)
  : ifx_status_t * world :=
  let msg := memcpy (CONNECTION_HANDOVER_MESSAGE w)
               CONNECTION_HANDOVER_MESSAGE_RANDOM_OFFSET random 0x10 in
  do_nbt_write_file a CONNECTION_HANDOVER_MESSAGE_RANDOM_OFFSET 0x10
    (set_CONNECTION_HANDOVER_MESSAGE msg w).

(** The snapshot of the message: the whole array, as
    [nbt_configure_ble_connection_handover] writes it at start-up. *)
Definition snapshot (w : world) : list Z := CONNECTION_HANDOVER_MESSAGE w.

(** [period_elapsed] *)
Definition period_elapsed (w : world) : world :=
  set_elapsed_periods (to_uint32 (elapsed_periods w + 1)) w.

(** ** [bluetooth-handling.c] *)

(** The array a table row points to, and an in-place update of it. *)
Definition gatt_array (w : world) (p : nat) : list Z := default [] (gatt_arrays w !! p).

Definition set_gatt_array (p : nat) (v : list Z) (w : world) : world :=
  set_gatt_arrays (<[p := v]> (gatt_arrays w)) w.

(** [handle2attr]: the first row with the handle and its index ([&tbl[i]]),
    [None] for [NULL]. *)
Fixpoint handle2attr_from (tbl : list gatt_db_lookup_table_t) (i : nat) (h : Z)
  : option (nat * gatt_db_lookup_table_t) :=
  match tbl with
  | [] => None
  | row :: tbl' => if h =? handle row then Some (i, row) else handle2attr_from tbl' (S i) h
  end.

Definition handle2attr (w : world) (h : Z) : option (nat * gatt_db_lookup_table_t) :=
  handle2attr_from (app_gatt_db_ext_attr_tbl w) 0 h.

Definition set_cur_len (v : Z) (row : gatt_db_lookup_table_t) : gatt_db_lookup_table_t :=
  {| handle := handle row; max_len := max_len row; cur_len := v; p_data := p_data row |}.

Section Program.

Variable P : platform.
Variable mbedtls : cipher_backend.

Definition send_hid_report (w : world) : world :=
  called (wiced_bt_gatt_server_send_notification (connection_id w) (HDLC_HIDS_REPORT_VALUE P)
            (app_hids_report_len P) (gatt_array w app_hids_report)) w.

Definition ble_gatt_send_hid_update (w : world) : world :=
  if negb (Z.land (byte_at (gatt_array w app_hids_report_client_char_config) 0)
                  (GATT_CLIENT_CONFIG_NOTIFICATION P) =? 0)
  then
    let w := set_gatt_array app_hids_report (<[0%nat := 0x01]> (gatt_array w app_hids_report)) w in
    let w := send_hid_report w in
    let w := called (vTaskDelay_ms 30) w in
    let w := set_gatt_array app_hids_report (<[0%nat := 0x00]> (gatt_array w app_hids_report)) w in
    send_hid_report w
  else w.

Definition ble_clear_bonding_info (a : answers) (w : world) : world :=
  let '(r, w) := do_start_advertisements a BTM_BLE_ADVERT_OFF w in
  if negb (wiced_ok r)
  then log IFX_LOG_ERROR "Could not stop Bluetooth advertisement" w
  else
    let w :=
      if bonded (bonding_info w)
      then
        let w := called (wiced_bt_dev_delete_bonded_device
                           (bd_addr (device_link_keys (bonding_info w)))) w in
        let w := if negb (wiced_ok (ans_delete_bonded_device a))
                 then log IFX_LOG_WARN "Could not clear bond data for Bluetooth stack" w
                 else w in
        let w := set_bonding_info
                   {| device_link_keys := zero_link_keys (device_link_keys (bonding_info w));
                      bonded := false |} w in
        let '(r, w) := do_kvstore_write a "bonding" (bonding_info_bytes (bonding_info w)) w in
        if negb (cy_ok r)
        then log IFX_LOG_WARN
               "Could not clear bond data for Bluetooth stack in persistent storage" w
        else w
      else w in
    let '(r, w) := do_resolution_list_clear a w in
    let w := if negb (wiced_ok r)
             then log IFX_LOG_WARN "Could clear local Bluetooth resolution list" w
             else w in
    let '(r, w) := do_start_advertisements a BTM_BLE_ADVERT_UNDIRECTED_HIGH w in
    if negb (wiced_ok r)
    then log IFX_LOG_WARN "Could re-enable Bluetooth advertisement" w
    else w.

(** The write case of [gatt_callback], after the row was found at index [i]. *)
Definition gatt_write_attribute (a : answers) (req : wiced_bt_gatt_attribute_request_t)
    (i : nat) (attribute : gatt_db_lookup_table_t) (w : world)
  : wiced_bt_gatt_status_t * world :=
  let val_len := Z.of_nat (length (write_req_p_val req)) in
  if val_len >? max_len attribute
  then (WICED_BT_GATT_INVALID_ATTR_LEN, w)
  else
    let attribute := set_cur_len val_len attribute in
    let w := set_app_gatt_db_ext_attr_tbl (<[i := attribute]> (app_gatt_db_ext_attr_tbl w)) w in
    let w := set_gatt_array (p_data attribute)
               (memcpy (gatt_array w (p_data attribute)) 0 (write_req_p_val req)
                       (length (write_req_p_val req))) w in
    let w :=
      if (handle attribute =? HDLD_HIDS_REPORT_CLIENT_CHAR_CONFIG P) && (cur_len attribute >=? 2)
      then
        let data := gatt_array w (p_data attribute) in
        let w := set_cccd (to_uint16 (Z.lor (Z.shiftl (byte_at data 1) 8) (byte_at data 0))) w in
        let '(r, w) := do_kvstore_write a "cccd" (cccd_bytes (cccd w)) w in
        if negb (cy_ok r)
        then log IFX_LOG_WARN "Could not update CCCD value in persistent storage - ignored" w
        else w
      else w in
    (ans_send_write_rsp a,
     called (wiced_bt_gatt_server_send_write_rsp (conn_id req) (write_req_handle req)) w).

(** The read case of [gatt_callback], after the row was found. *)
Definition gatt_read_attribute (a : answers) (req : wiced_bt_gatt_attribute_request_t)
    (attribute : gatt_db_lookup_table_t) (w : world)
  : wiced_bt_gatt_status_t * world :=
  if read_req_offset req >=? cur_len attribute
  then (WICED_BT_GATT_INVALID_OFFSET,
        called (wiced_bt_gatt_server_send_error_rsp (conn_id req) (read_req_handle req)
                  WICED_BT_GATT_INVALID_OFFSET) w)
  else
    let len := to_uint16 (Z.min (len_requested req) (cur_len attribute - read_req_offset req)) in
    let response := drop (Z.to_nat (read_req_offset req)) (gatt_array w (p_data attribute)) in
    (ans_send_read_handle_rsp a,
     called (wiced_bt_gatt_server_send_read_handle_rsp (conn_id req) len
               (take (Z.to_nat len) response)) w).

Definition gatt_callback (a : answers) (event : wiced_bt_gatt_evt_t) (w : world)
  : wiced_bt_gatt_status_t * world :=
  match event with
  | GATT_CONNECTION_STATUS_EVT connected id =>
      if connected
      then (WICED_BT_GATT_SUCCESS, set_connection_id id w)
      else
        let w := set_connection_id 0x0000 w in
        let '(r, w) := do_start_advertisements a BTM_BLE_ADVERT_UNDIRECTED_HIGH w in
        (gatt_status_of_result r, w)
  | GATT_ATTRIBUTE_REQUEST_EVT req =>
      match opcode req with
      | GATT_REQ_READ | GATT_REQ_READ_BLOB =>
          match handle2attr w (read_req_handle req) with
          | None =>
              (WICED_BT_GATT_INVALID_HANDLE,
               called (wiced_bt_gatt_server_send_error_rsp (conn_id req) (read_req_handle req)
                         WICED_BT_GATT_INVALID_HANDLE) w)
          | Some (_, attribute) => gatt_read_attribute a req attribute w
          end
      | GATT_REQ_WRITE | GATT_CMD_WRITE =>
          match handle2attr w (write_req_handle req) with
          | None =>
              (WICED_BT_GATT_INVALID_HANDLE,
               called (wiced_bt_gatt_server_send_error_rsp (conn_id req) (write_req_handle req)
                         WICED_BT_GATT_INVALID_HANDLE) w)
          | Some (i, attribute) => gatt_write_attribute a req i attribute w
          end
      | GATT_REQ_MTU =>
          (ans_send_mtu_rsp a,
           called (wiced_bt_gatt_server_send_mtu_rsp (conn_id req) (remote_mtu req)
                     (CY_BT_MTU_SIZE P)) w)
      | GATT_HANDLE_VALUE_NOTIF | GATT_HANDLE_VALUE_CONF => (WICED_BT_GATT_SUCCESS, w)
      | GATT_OPCODE _ => (WICED_BT_GATT_ERROR, w)
      end
  | GATT_OTHER_EVT _ => (WICED_BT_GATT_SUCCESS, w)
  end.

(** The enable case of [ble_callback] from the point where the address is
    known. *)
Definition ble_enabled_configure (a : answers) (mac_address : list Z) (w : world)
  : ble_return * world :=
  (* load previous bonding information *)
  let '(blob, w) := do_kvstore_read a "bonding" false w in
  let w :=
    match blob ≫= bonding_info_of_bytes with
    | Some info =>
        let w := set_bonding_info info w in
        if bonded (bonding_info w)
        then
          let w := do_add_device_to_address_resolution_db (device_link_keys (bonding_info w)) w in
          let '(blob, w) := do_kvstore_read a "cccd" false w in
          match blob with
          | Some bytes => set_cccd (cccd_of_bytes bytes) w
          | None => w
          end
        else w
    | None => w
    end in
  (* configure BLE, GAP and GATT server *)
  let w := called wiced_bt_set_pairable_mode w in
  let w := called wiced_bt_ble_set_raw_advertisement_data w in
  if negb (wiced_ok (ans_set_raw_advertisement_data a)) then (Returned WICED_BT_ERROR, w) else
  let w := called wiced_bt_gatt_register w in
  if negb (gatt_ok (ans_gatt_register a)) then (Returned WICED_BT_ERROR, w) else
  let w := called wiced_bt_gatt_db_init w in
  if negb (gatt_ok (ans_gatt_db_init a)) then (Returned WICED_BT_ERROR, w) else
  (* generate OOB data for connection handover *)
  let w := called (wiced_bt_smp_create_local_sc_oob_data mac_address) w in
  let w := if negb (ans_create_local_sc_oob_data a) && negb (NDEBUG a)
           then called CY_ASSERT_0 w else w in
  if negb (ans_create_local_sc_oob_data a) && negb (NDEBUG a) then (Halted, w) else
  let '(r, w) := do_start_advertisements a BTM_BLE_ADVERT_UNDIRECTED_HIGH w in
  (Returned r, w).

Definition ble_enabled (a : answers) (status : wiced_result_t) (w : world)
  : ble_return * world :=
  if negb (wiced_ok status) then (Returned WICED_BT_ERROR, w) else
  (* update BLE MAC with unique device ID *)
  let mac_address := take BD_ADDR_LEN (cy_bt_device_address P) in
  let w := called Cy_SysLib_GetUniqueId w in
  let id := ans_unique_id a in
  let mac_address :=
    <[3%nat := Z.land (Z.shiftr id (CY_UNIQUE_ID_DIE_WAFER_Pos P)) 0xFF]> mac_address in
  let mac_address :=
    <[4%nat := Z.land (Z.shiftr id (CY_UNIQUE_ID_DIE_X_Pos P)) 0xFF]> mac_address in
  let mac_address :=
    <[5%nat := Z.land (Z.shiftr id (CY_UNIQUE_ID_DIE_Y_Pos P)) 0xFF]> mac_address in
  let w := called (wiced_bt_set_local_bdaddr mac_address) w in
  if negb (wiced_ok (ans_set_local_bdaddr a)) then (Returned WICED_BT_ERROR, w) else
  (* write BLE connection record to NBT *)
  let '(st, w) := callback_mac_address_changed a mac_address w in
  if ifx_error_check st
  then (Returned WICED_BT_ERROR,
        log IFX_LOG_FATAL "Could not write BLE device address to NBT" w)
  else ble_enabled_configure a mac_address w.

(** The message the OOB case authenticates: [m] is 65 bytes long, the two
    [memcpy] fill 64 of them. *)
Definition oob_message (a : answers) (oob : wiced_bt_smp_sc_local_oob_t) : list Z :=
  take 0x20 (public_key_used_x oob) ++ take 0x20 (public_key_used_x oob) ++ [ans_m_64 a].

(** Set-up, start and update are one short-circuit condition in the source. *)
Definition oob_cmac_prepare (random_value m : list Z) : option (cipher_context mbedtls) :=
  c ← mbedtls_cipher_setup mbedtls;
  c ← mbedtls_cipher_cmac_starts mbedtls c random_value (Z.of_nat (length random_value) * 8);
  mbedtls_cipher_cmac_update mbedtls c m.

(** The confirmation value the four calls compute together. *)
Definition cipher_cmac (key m : list Z) : option (list Z) :=
  oob_cmac_prepare key m ≫= mbedtls_cipher_cmac_finish mbedtls.

(** One of the four calls returns non-zero. *)
Inductive derivation_fails (key m : list Z) : Prop :=
| setup_fails :
    mbedtls_cipher_setup mbedtls = None -> derivation_fails key m
| cmac_starts_fails c :
    mbedtls_cipher_setup mbedtls = Some c ->
    mbedtls_cipher_cmac_starts mbedtls c key (Z.of_nat (length key) * 8) = None ->
    derivation_fails key m
| cmac_update_fails c c' :
    mbedtls_cipher_setup mbedtls = Some c ->
    mbedtls_cipher_cmac_starts mbedtls c key (Z.of_nat (length key) * 8) = Some c' ->
    mbedtls_cipher_cmac_update mbedtls c' m = None ->
    derivation_fails key m
| cmac_finish_fails c c' c'' :
    mbedtls_cipher_setup mbedtls = Some c ->
    mbedtls_cipher_cmac_starts mbedtls c key (Z.of_nat (length key) * 8) = Some c' ->
    mbedtls_cipher_cmac_update mbedtls c' m = Some c'' ->
    mbedtls_cipher_cmac_finish mbedtls c'' = None ->
    derivation_fails key m.

Definition ble_oob_data (a : answers) (oob : wiced_bt_smp_sc_local_oob_t) (w : world)
  : ble_return * world :=
  let random_value := replicate 0x10 0x00 in
  let '(st, w) := callback_sc_random_value_changed a random_value w in
  if ifx_error_check st
  then (Returned WICED_BT_ERROR,
        log IFX_LOG_ERROR "Could not update BLE SC random value on NBT" w)
  else
    let m := oob_message a oob in
    match oob_cmac_prepare random_value m with
    | None =>
        (Returned WICED_BT_ERROR,
         log IFX_LOG_ERROR
           "Could not set up required MBED TLS cipher to calculate OOB confirmation value." w)
    | Some crypto_context =>
        match mbedtls_cipher_cmac_finish mbedtls crypto_context with
        | None =>
            (Returned WICED_BT_ERROR,
             log IFX_LOG_ERROR "Could not calculate required OOB confirmation value." w)
        | Some confirmation_value =>
            let '(st, w) := callback_sc_confirmation_value_changed a confirmation_value w in
            if ifx_error_check st
            then (Returned WICED_BT_ERROR,
                  log IFX_LOG_ERROR "Could not update BLE SC confirmation value on NBT" w)
            else (Returned WICED_BT_SUCCESS, w)
        end
    end.

Definition ble_callback (a : answers) (event : wiced_bt_management_evt_t) (w : world)
  : ble_return * event_data_out * world :=
  match event with
  | BTM_ENABLED_EVT status =>
      let '(r, w) := ble_enabled a status w in (r, out_none, w)
  | BTM_PAIRING_IO_CAPABILITIES_BLE_REQUEST_EVT =>
      (Returned WICED_BT_SUCCESS, out_pairing_io_capabilities, w)
  | BTM_PAIRING_COMPLETE_EVT =>
      let w := set_bonding_info
                 {| device_link_keys := device_link_keys (bonding_info w); bonded := true |} w in
      let '(r, w) := do_kvstore_write a "bonding" (bonding_info_bytes (bonding_info w)) w in
      if negb (cy_ok r)
      then (Returned WICED_BT_ERROR, out_none,
            log IFX_LOG_ERROR "Could not persistently store bonding information" w)
      else (Returned WICED_BT_SUCCESS, out_none, w)
  | BTM_BLE_ADVERT_STATE_CHANGED_EVT state =>
      if bool_decide (state = BTM_BLE_ADVERT_OFF) && (connection_id w =? 0x0000)
      then
        let '(r, w) := do_start_advertisements a BTM_BLE_ADVERT_UNDIRECTED_HIGH w in
        (Returned r, out_none, w)
      else (Returned WICED_BT_SUCCESS, out_none, w)
  | BTM_PAIRED_DEVICE_LINK_KEYS_UPDATE_EVT keys =>
      (Returned WICED_BT_SUCCESS, out_none,
       set_bonding_info {| device_link_keys := keys; bonded := bonded (bonding_info w) |} w)
  | BTM_PAIRED_DEVICE_LINK_KEYS_REQUEST_EVT =>
      if negb (bonded (bonding_info w))
      then (Returned WICED_BT_ERROR, out_none, w)
      else (Returned WICED_BT_SUCCESS,
            out_paired_device_link_keys_request (device_link_keys (bonding_info w)), w)
  | BTM_LOCAL_IDENTITY_KEYS_UPDATE_EVT keys =>
      let w := set_local_identity_keys keys w in
      let '(r, w) := do_kvstore_write a "identity_keys" (local_identity_keys w) w in
      if negb (cy_ok r)
      then (Returned WICED_BT_ERROR, out_none,
            log IFX_LOG_ERROR "Could not persistently store local identity keys" w)
      else (Returned WICED_BT_SUCCESS, out_none, w)
  | BTM_LOCAL_IDENTITY_KEYS_REQUEST_EVT =>
      let '(size, w) := do_kvstore_read a "identity_keys" true w in
      match size with
      | Some _ =>
          let '(blob, w) := do_kvstore_read a "identity_keys" false w in
          match blob with
          | Some keys => (Returned WICED_BT_SUCCESS, out_none, set_local_identity_keys keys w)
          | None => (Returned WICED_BT_ERROR, out_none, w)
          end
      | None => (Returned WICED_BT_ERROR, out_none, w)
      end
  | BTM_ENCRYPTION_STATUS_EVT peer =>
      if bonded (bonding_info w)
         && bool_decide (take BD_ADDR_LEN peer
                         = take BD_ADDR_LEN (bd_addr (device_link_keys (bonding_info w))))
      then (Returned WICED_BT_SUCCESS, out_none,
            set_gatt_array app_hids_report_client_char_config
              (<[0%nat := to_uint8 (cccd w)]> (gatt_array w app_hids_report_client_char_config)) w)
      else (Returned WICED_BT_SUCCESS, out_none, w)
  | BTM_SMP_SC_LOCAL_OOB_DATA_NOTIFICATION_EVT oob =>
      let '(r, w) := ble_oob_data a oob w in (r, out_none, w)
  | BTM_SECURITY_REQUEST_EVT peer =>
      (Returned WICED_BT_SUCCESS, out_none, called (wiced_bt_ble_security_grant peer) w)
  | BTM_OTHER_EVT _ => (Returned WICED_BT_SUCCESS, out_none, w)
  end.

(** ** [main.c]: the button task *)

Inductive btn_dispatch := call_ble_clear_bonding_info | call_ble_gatt_send_hid_update.

(** The release branch of [btn_task]: which of the two functions is called. *)
Definition btn_released (w : world) : btn_dispatch :=
  let press_duration := to_uint32 (elapsed_periods w - press_start w) in
  if to_uint32 (press_duration * PERIOD_LENGTH_MS) >? 5000
  then call_ble_clear_bonding_info
  else call_ble_gatt_send_hid_update.

(** One turn of the loop of [btn_task] after the semaphore was taken;
    [pressed] is what [cyhal_gpio_read] reports. *)
Definition btn_task (a : answers) (pressed : bool) (w : world) : world :=
  if pressed
  then set_press_start (elapsed_periods w) w
  else
    match btn_released w with
    | call_ble_clear_bonding_info => ble_clear_bonding_info a w
    | call_ble_gatt_send_hid_update => ble_gatt_send_hid_update w
    end.

(** A run of [ble_callback] over a sequence of events, each with the answers
    the libraries give while it is handled.  The stack delivers its events
    one after the other; a halted handler ends the run. *)
Fixpoint ble_run (events : list (answers * wiced_bt_management_evt_t)) (w : world) : world :=
  match events with
  | [] => w
  | (a, event) :: events' =>
      match ble_callback a event w with
      | (Returned _, _, w') => ble_run events' w'
      | (Halted, _, w') => w'
      end
  end.

End Program.

(** ** A reference backend: AES-128 in CMAC mode

    mbedTLS is not part of the sources.  The backend below follows FIPS 197
    and RFC 4493 and serves as the instance at which the handlers are run on
    concrete inputs. *)
Module AES_CMAC.

Definition sbox : list Z :=
  [
    0x63; 0x7c; 0x77; 0x7b; 0xf2; 0x6b; 0x6f; 0xc5; 0x30; 0x01; 0x67; 0x2b; 0xfe; 0xd7; 0xab; 0x76;
    0xca; 0x82; 0xc9; 0x7d; 0xfa; 0x59; 0x47; 0xf0; 0xad; 0xd4; 0xa2; 0xaf; 0x9c; 0xa4; 0x72; 0xc0;
    0xb7; 0xfd; 0x93; 0x26; 0x36; 0x3f; 0xf7; 0xcc; 0x34; 0xa5; 0xe5; 0xf1; 0x71; 0xd8; 0x31; 0x15;
    0x04; 0xc7; 0x23; 0xc3; 0x18; 0x96; 0x05; 0x9a; 0x07; 0x12; 0x80; 0xe2; 0xeb; 0x27; 0xb2; 0x75;
    0x09; 0x83; 0x2c; 0x1a; 0x1b; 0x6e; 0x5a; 0xa0; 0x52; 0x3b; 0xd6; 0xb3; 0x29; 0xe3; 0x2f; 0x84;
    0x53; 0xd1; 0x00; 0xed; 0x20; 0xfc; 0xb1; 0x5b; 0x6a; 0xcb; 0xbe; 0x39; 0x4a; 0x4c; 0x58; 0xcf;
    0xd0; 0xef; 0xaa; 0xfb; 0x43; 0x4d; 0x33; 0x85; 0x45; 0xf9; 0x02; 0x7f; 0x50; 0x3c; 0x9f; 0xa8;
    0x51; 0xa3; 0x40; 0x8f; 0x92; 0x9d; 0x38; 0xf5; 0xbc; 0xb6; 0xda; 0x21; 0x10; 0xff; 0xf3; 0xd2;
    0xcd; 0x0c; 0x13; 0xec; 0x5f; 0x97; 0x44; 0x17; 0xc4; 0xa7; 0x7e; 0x3d; 0x64; 0x5d; 0x19; 0x73;
    0x60; 0x81; 0x4f; 0xdc; 0x22; 0x2a; 0x90; 0x88; 0x46; 0xee; 0xb8; 0x14; 0xde; 0x5e; 0x0b; 0xdb;
    0xe0; 0x32; 0x3a; 0x0a; 0x49; 0x06; 0x24; 0x5c; 0xc2; 0xd3; 0xac; 0x62; 0x91; 0x95; 0xe4; 0x79;
    0xe7; 0xc8; 0x37; 0x6d; 0x8d; 0xd5; 0x4e; 0xa9; 0x6c; 0x56; 0xf4; 0xea; 0x65; 0x7a; 0xae; 0x08;
    0xba; 0x78; 0x25; 0x2e; 0x1c; 0xa6; 0xb4; 0xc6; 0xe8; 0xdd; 0x74; 0x1f; 0x4b; 0xbd; 0x8b; 0x8a;
    0x70; 0x3e; 0xb5; 0x66; 0x48; 0x03; 0xf6; 0x0e; 0x61; 0x35; 0x57; 0xb9; 0x86; 0xc1; 0x1d; 0x9e;
    0xe1; 0xf8; 0x98; 0x11; 0x69; 0xd9; 0x8e; 0x94; 0x9b; 0x1e; 0x87; 0xe9; 0xce; 0x55; 0x28; 0xdf;
    0x8c; 0xa1; 0x89; 0x0d; 0xbf; 0xe6; 0x42; 0x68; 0x41; 0x99; 0x2d; 0x0f; 0xb0; 0x54; 0xbb; 0x16 ].

Definition xor_bytes (x y : list Z) : list Z := zip_with Z.lxor x y.

(** Multiplication by [x] in GF(2^8) modulo [x^8 + x^4 + x^3 + x + 1]. *)
Definition xtime (b : Z) : Z :=
  let s := Z.shiftl b 1 in
  if s >=? 0x100 then Z.lxor s 0x11b else s.

Definition sub_byte (b : Z) : Z := byte_at sbox (Z.to_nat b).

(** A block is 16 bytes, column after column. *)
Definition sub_bytes (s : list Z) : list Z := sub_byte <$> s.

Definition shift_rows (s : list Z) : list Z :=
  (λ i, byte_at s (i mod 4 + 4 * ((i / 4 + i mod 4) mod 4))) <$> seq 0 16.

Definition mix_column (c : list Z) : list Z :=
  match c with
  | [a0; a1; a2; a3] =>
      [ Z.lxor (Z.lxor (xtime a0) (Z.lxor (xtime a1) a1)) (Z.lxor a2 a3);
        Z.lxor (Z.lxor a0 (xtime a1)) (Z.lxor (Z.lxor (xtime a2) a2) a3);
        Z.lxor (Z.lxor a0 a1) (Z.lxor (xtime a2) (Z.lxor (xtime a3) a3));
        Z.lxor (Z.lxor (Z.lxor (xtime a0) a0) a1) (Z.lxor a2 (xtime a3)) ]
  | _ => c
  end.

Definition mix_columns (s : list Z) : list Z :=
  mix_column (slice s 0 4) ++ mix_column (slice s 4 4)
    ++ mix_column (slice s 8 4) ++ mix_column (slice s 12 4).

(** Key schedule: the next round key from the previous one. *)
Definition next_round_key (rcon : Z) (k : list Z) : list Z :=
  let t := [ Z.lxor (sub_byte (byte_at k 13)) rcon; sub_byte (byte_at k 14);
             sub_byte (byte_at k 15); sub_byte (byte_at k 12) ] in
  let w0 := xor_bytes (slice k 0 4) t in
  let w1 := xor_bytes (slice k 4 4) w0 in
  let w2 := xor_bytes (slice k 8 4) w1 in
  let w3 := xor_bytes (slice k 12 4) w2 in
  w0 ++ w1 ++ w2 ++ w3.

Definition rcons : list Z := [0x01; 0x02; 0x04; 0x08; 0x10; 0x20; 0x40; 0x80; 0x1b; 0x36].

(** The ten round keys that follow the cipher key. *)
Fixpoint round_keys (k : list Z) (rc : list Z) : list (list Z) :=
  match rc with
  | [] => []
  | r :: rc' => let k' := next_round_key r k in k' :: round_keys k' rc'
  end.

Fixpoint rounds (s : list Z) (ks : list (list Z)) : list Z :=
  match ks with
  | [] => s
  | [k] => xor_bytes (shift_rows (sub_bytes s)) k
  | k :: ks' => rounds (xor_bytes (mix_columns (shift_rows (sub_bytes s))) k) ks'
  end.

Definition encrypt (key block : list Z) : list Z :=
  rounds (xor_bytes block key) (round_keys key rcons).

(** RFC 4493, subkey generation: doubling in GF(2^128). *)
Fixpoint shift_left_1 (l : list Z) : list Z :=
  match l with
  | [] => []
  | b :: l' =>
      Z.lor (Z.land (Z.shiftl b 1) 0xFF) (Z.shiftr (byte_at l' 0) 7) :: shift_left_1 l'
  end.

Definition dbl (l : list Z) : list Z :=
  let s := shift_left_1 l in
  if byte_at l 0 >=? 0x80
  then take 15 s ++ [Z.lxor (byte_at s 15) 0x87]
  else s.

(** RFC 4493, MAC generation.  [x] is the chaining value; the last block is
    the only one that may be shorter than 16 bytes. *)
Fixpoint cmac_blocks (fuel : nat) (key k1 k2 x m : list Z) : list Z :=
  match fuel with
  | O => x
  | S fuel' =>
      if (length m <=? 16)%nat
      then
        let last :=
          if (length m =? 16)%nat
          then xor_bytes m k1
          else xor_bytes (m ++ 0x80 :: replicate (15 - length m) 0x00) k2 in
        encrypt key (xor_bytes x last)
      else cmac_blocks fuel' key k1 k2 (encrypt key (xor_bytes x (take 16 m))) (drop 16 m)
  end.

Definition cmac (key m : list Z) : list Z :=
  let l := encrypt key (replicate 16 0x00) in
  let k1 := dbl l in
  let k2 := dbl k1 in
  cmac_blocks (S (length m)) key k1 k2 (replicate 16 0x00) m.

(** The streaming interface: the context keeps the key and the bytes fed so
    far.  Only 128-bit keys are accepted. *)
Record context := { ctx_key : list Z; ctx_message : list Z }.

Definition backend : cipher_backend :=
  {| cipher_context := context;
     mbedtls_cipher_setup := Some {| ctx_key := []; ctx_message := [] |};
     mbedtls_cipher_cmac_starts := λ c key keybits,
       if (keybits =? 128) && (length key =? 16)%nat
       then Some {| ctx_key := key; ctx_message := [] |}
       else None;
     mbedtls_cipher_cmac_update := λ c input,
       Some {| ctx_key := ctx_key c; ctx_message := ctx_message c ++ input |};
     mbedtls_cipher_cmac_finish := λ c, Some (cmac (ctx_key c) (ctx_message c)) |}.

End AES_CMAC.


(** ** Fixtures: a sample configuration and start-up state *)

(** Handles and bit positions as a generated configuration would define them;
    the values only serve to run the model. *)
Definition sample_platform : platform :=
  {| HDLD_HIDS_REPORT_CLIENT_CHAR_CONFIG := 0x0011;
     HDLC_HIDS_REPORT_VALUE := 0x0010;
     GATT_CLIENT_CONFIG_NOTIFICATION := 0x0001;
     app_hids_report_len := 1;
     CY_BT_MTU_SIZE := 512;
     CY_UNIQUE_ID_DIE_WAFER_Pos := 24;
     CY_UNIQUE_ID_DIE_X_Pos := 32;
     CY_UNIQUE_ID_DIE_Y_Pos := 40;
     cy_bt_device_address := [0x00; 0xA0; 0x50; 0x11; 0x44; 0x77] |}.

(** Every library call succeeds; the unwritten byte of [m] reads as 0. *)
Definition all_ok : answers :=
  {| ans_nbt_write_file := λ _, IFX_SUCCESS;
     ans_kvstore_write := λ _, CY_RSLT_SUCCESS;
     ans_kvstore_read := λ _ _, CY_RSLT_SUCCESS;
     ans_start_advertisements := λ _, WICED_BT_SUCCESS;
     ans_set_local_bdaddr := WICED_BT_SUCCESS;
     ans_delete_bonded_device := WICED_BT_SUCCESS;
     ans_resolution_list_clear := WICED_BT_SUCCESS;
     ans_set_raw_advertisement_data := WICED_BT_SUCCESS;
     ans_gatt_register := WICED_BT_GATT_SUCCESS;
     ans_gatt_db_init := WICED_BT_GATT_SUCCESS;
     ans_create_local_sc_oob_data := true;
     ans_send_read_handle_rsp := WICED_BT_GATT_SUCCESS;
     ans_send_write_rsp := WICED_BT_GATT_SUCCESS;
     ans_send_mtu_rsp := WICED_BT_GATT_SUCCESS;
     ans_unique_id := 0x0123456789ABCDEF;
     ans_m_64 := 0x00;
     NDEBUG := false |}.

(** As [all_ok], but the stack refuses to start advertising again. *)
Definition restart_refused : answers :=
  {| ans_nbt_write_file := ans_nbt_write_file all_ok;
     ans_kvstore_write := ans_kvstore_write all_ok;
     ans_kvstore_read := ans_kvstore_read all_ok;
     ans_start_advertisements := λ mode,
       if bool_decide (mode = BTM_BLE_ADVERT_OFF) then WICED_BT_SUCCESS else WICED_BT_ERROR;
     ans_set_local_bdaddr := WICED_BT_SUCCESS;
     ans_delete_bonded_device := WICED_BT_SUCCESS;
     ans_resolution_list_clear := WICED_BT_SUCCESS;
     ans_set_raw_advertisement_data := WICED_BT_SUCCESS;
     ans_gatt_register := WICED_BT_GATT_SUCCESS;
     ans_gatt_db_init := WICED_BT_GATT_SUCCESS;
     ans_create_local_sc_oob_data := true;
     ans_send_read_handle_rsp := WICED_BT_GATT_SUCCESS;
     ans_send_write_rsp := WICED_BT_GATT_SUCCESS;
     ans_send_mtu_rsp := WICED_BT_GATT_SUCCESS;
     ans_unique_id := ans_unique_id all_ok;
     ans_m_64 := 0x00;
     NDEBUG := false |}.

(** The state when the scheduler starts: the message skeleton, zeroed
    statics (with a 16-byte key blob), an empty store, and the two HID report
    rows of the attribute table. *)
Definition boot_world : world :=
  {| CONNECTION_HANDOVER_MESSAGE := CONNECTION_HANDOVER_MESSAGE_init;
     elapsed_periods := 0;
     press_start := 0;
     bonding_info := {| device_link_keys := {| bd_addr := replicate 6 0;
                                               key_data := replicate 16 0 |};
                        bonded := false |};
     cccd := 0;
     connection_id := 0x0000;
     local_identity_keys := replicate 16 0;
     app_gatt_db_ext_attr_tbl :=
       [ {| handle := 0x0010; max_len := 1; cur_len := 1; p_data := app_hids_report |};
         {| handle := 0x0011; max_len := 2; cur_len := 2;
            p_data := app_hids_report_client_char_config |} ];
     gatt_arrays := {[ app_hids_report := [0x00];
                       app_hids_report_client_char_config := [0x00; 0x00] ]};
     data_storage := ∅;
     advertising := BTM_BLE_ADVERT_OFF;
     resolution_list := [];
     trace := [] |}.

(** A backend whose last call fails. *)
Definition finish_fails_backend : cipher_backend :=
  {| cipher_context := AES_CMAC.context;
     mbedtls_cipher_setup := mbedtls_cipher_setup AES_CMAC.backend;
     mbedtls_cipher_cmac_starts := mbedtls_cipher_cmac_starts AES_CMAC.backend;
     mbedtls_cipher_cmac_update := mbedtls_cipher_cmac_update AES_CMAC.backend;
     mbedtls_cipher_cmac_finish := λ _, None |}.

(** Scenario A of the specification: the OOB data the stack reports. *)
Definition scenario_A_oob : wiced_bt_smp_sc_local_oob_t :=
  {| public_key_used_x := replicate 32 0x11;
     public_key_used_y := replicate 32 0x33;
     randomizer := replicate 16 0x22;
     commitment := replicate 16 0x44 |}.

(** Scenario A: the stack is enabled, then reports its OOB data. *)
Definition scenario_A_enabled : world :=
  ble_run sample_platform AES_CMAC.backend
    [(all_ok, BTM_ENABLED_EVT WICED_BT_SUCCESS)] boot_world.

Definition scenario_A_run : ble_return * event_data_out * world :=
  ble_callback sample_platform AES_CMAC.backend all_ok
    (BTM_SMP_SC_LOCAL_OOB_DATA_NOTIFICATION_EVT scenario_A_oob) scenario_A_enabled.

(** The misordered scenario: the OOB data arrive before the stack was
    enabled. *)
Definition misordered_run : ble_return * event_data_out * world :=
  ble_callback sample_platform AES_CMAC.backend all_ok
    (BTM_SMP_SC_LOCAL_OOB_DATA_NOTIFICATION_EVT scenario_A_oob) boot_world.

(** The events whose case assigns [bonding_info.device_link_keys]: the key
    update itself, and the enable case, which reloads the record from the
    store. *)
Definition sets_link_keys (event : wiced_bt_management_evt_t) : bool :=
  match event with
  | BTM_ENABLED_EVT _ | BTM_PAIRED_DEVICE_LINK_KEYS_UPDATE_EVT _ => true
  | _ => false
  end.

(** The part of the state a bonding reset is about. *)
Definition end_state (w : world)
  : bonding_info_t * gmap string (list Z) * list wiced_bt_device_link_keys_t
    * wiced_bt_ble_advert_mode_t :=
  (bonding_info w, data_storage w, resolution_list w, advertising w).

(** The stack answers the three commands a reset always issues the same way
    in two runs. *)
Definition same_stack_answers (a1 a2 : answers) : Prop :=
  ans_start_advertisements a1 BTM_BLE_ADVERT_OFF = ans_start_advertisements a2 BTM_BLE_ADVERT_OFF
  ∧ ans_resolution_list_clear a1 = ans_resolution_list_clear a2
  ∧ ans_start_advertisements a1 BTM_BLE_ADVERT_UNDIRECTED_HIGH
    = ans_start_advertisements a2 BTM_BLE_ADVERT_UNDIRECTED_HIGH.

(** Scenario B: link keys as the stack reports them for a peer. *)
Definition scenario_B_keys : wiced_bt_device_link_keys_t :=
  {| bd_addr := [0xC0; 0x01; 0x02; 0x03; 0x04; 0x05]; key_data := replicate 16 0x5A |}.

Definition scenario_B_paired : world :=
  ble_run sample_platform AES_CMAC.backend
    [ (all_ok, BTM_PAIRED_DEVICE_LINK_KEYS_UPDATE_EVT scenario_B_keys);
      (all_ok, BTM_PAIRING_COMPLETE_EVT) ] boot_world.

(** A press that is released 42949673 periods later (some 49.7 days). *)
Definition long_hold : world := set_elapsed_periods 42949673 boot_world.

(** A peer connects, subscribes to the HID report and disconnects. *)
Definition subscribe_request : wiced_bt_gatt_attribute_request_t :=
  {| conn_id := 1; opcode := GATT_REQ_WRITE; len_requested := 0;
     read_req_handle := 0; read_req_offset := 0;
     write_req_handle := 0x0011; write_req_p_val := [0x01; 0x00]; remote_mtu := 0 |}.

Definition subscribed_disconnected : world :=
  (gatt_callback sample_platform all_ok (GATT_CONNECTION_STATUS_EVT false 1)
     (gatt_callback sample_platform all_ok (GATT_ATTRIBUTE_REQUEST_EVT subscribe_request)
        (gatt_callback sample_platform all_ok (GATT_CONNECTION_STATUS_EVT true 1)
           boot_world).2).2).2.

(** A write of three bytes to the descriptor, whose row holds two. *)
Definition long_write_request : wiced_bt_gatt_attribute_request_t :=
  {| conn_id := 1; opcode := GATT_REQ_WRITE; len_requested := 0;
     read_req_handle := 0; read_req_offset := 0;
     write_req_handle := 0x0011; write_req_p_val := [0x01; 0x00; 0x00]; remote_mtu := 0 |}.

(** ** The claims as they are worded, where the program departs from them *)

(** The push that follows a field update carries the whole current image of
    the message. *)
Definition pushes_full_image (w' : world) : Prop :=
  ∃ offset, last (trace w') = Some (nbt_write_file offset (snapshot w')).

(** ** [data-storage.c]: the block device under the key-value store *)

(** [cyhal_flash_block_info_t] and [cyhal_flash_info_t], the fields the
    program reads. *)
Record cyhal_flash_block_info_t := {
  flash_start_address : Z;
  flash_size : Z;
  sector_size : Z;
  page_size : Z
}.

Record cyhal_flash_info_t := {
  block_count : Z;
  blocks : list cyhal_flash_block_info_t
}.

(** [flash_info.blocks[1]] *)
Definition flash_block_1 (info : cyhal_flash_info_t) : cyhal_flash_block_info_t :=
  default {| flash_start_address := 0; flash_size := 0; sector_size := 0; page_size := 0 |}
          (blocks info !! 1%nat).

(** Calls into the flash driver, the key-value store and the logger made by
    [data-storage.c]. *)
Inductive storage_call :=
| cyhal_flash_init
| cyhal_flash_read (address length : Z)
| cyhal_flash_program (address buf_offset : Z)
| cyhal_flash_erase (address : Z)
| mtb_kvstore_init (start_address length : Z)
| storage_log (level : ifx_log_level) (message : string).

(** What the flash driver answers: per address for the page operations. *)
Record flash_answers := {
  ans_flash_init : cy_rslt_t;
  ans_flash_read : Z -> cy_rslt_t;
  ans_flash_program : Z -> cy_rslt_t;
  ans_flash_erase : Z -> cy_rslt_t;
  ans_kvstore_init : cy_rslt_t
}.

Section DataStorage.

(** [CY_RSLT_TYPE_ERROR] of [cy_result.h]. *)
Variable CY_RSLT_TYPE_ERROR : Z.

(** A [uint32_t] returned as [cy_rslt_t]. *)
Definition cy_rslt_of (code : Z) : cy_rslt_t :=
  if code =? 0 then CY_RSLT_SUCCESS else CY_RSLT_ERROR code.

(** The [context] argument is [NULL] ([None]) or the flash object, which
    answers [cyhal_flash_get_info] with its geometry. *)
Definition data_storage_read_size (context : option cyhal_flash_info_t) (addr : Z) : Z := 1.

Definition data_storage_program_size (context : option cyhal_flash_info_t) (addr : Z) : Z :=
  match context with
  | None => CY_RSLT_TYPE_ERROR
  | Some flash_info =>
      if block_count flash_info <? 2
      then CY_RSLT_TYPE_ERROR
      else page_size (flash_block_1 flash_info)
  end.

Definition data_storage_erase_size (context : option cyhal_flash_info_t) (addr : Z) : Z :=
  match context with
  | None => CY_RSLT_TYPE_ERROR
  | Some flash_info =>
      if block_count flash_info <? 2
      then CY_RSLT_TYPE_ERROR
      else sector_size (flash_block_1 flash_info)
  end.

Definition data_storage_read (fa : flash_answers) (context : option cyhal_flash_info_t)
    (addr length : Z) : cy_rslt_t * list storage_call :=
  match context with
  | None => (cy_rslt_of CY_RSLT_TYPE_ERROR, [])
  | Some _ => (ans_flash_read fa addr, [cyhal_flash_read addr length])
  end.

(** The loop [for (offset = 0; offset < length; offset += step)] of
    [data_storage_program] and [data_storage_erase]: [op] is the driver call
    of the body, [answer] its result.  All variables are [uint32_t]; [None]
    when the loop has not ended within [fuel] turns. *)
Fixpoint storage_loop (fuel : nat) (op : Z -> Z -> storage_call) (answer : Z -> cy_rslt_t)
    (addr length step offset : Z) (result : cy_rslt_t) (calls : list storage_call)
  : option (cy_rslt_t * list storage_call) :=
  match fuel with
  | O => None
  | S fuel' =>
      if offset <? length
      then
        let result := answer (to_uint32 (addr + offset)) in
        let calls := calls ++ [op (to_uint32 (addr + offset)) offset] in
        if negb (cy_ok result)
        then Some (result, calls)
        else storage_loop fuel' op answer addr length step (to_uint32 (offset + step))
               result calls
      else Some (result, calls)
  end.

Definition data_storage_program (fuel : nat) (fa : flash_answers)
    (context : option cyhal_flash_info_t) (addr length : Z)
  : option (cy_rslt_t * list storage_call) :=
  match context with
  | None => Some (cy_rslt_of CY_RSLT_TYPE_ERROR, [])
  | Some _ =>
      let program_size := data_storage_program_size context addr in
      if program_size =? 0
      then Some (cy_rslt_of CY_RSLT_TYPE_ERROR, [])
      else storage_loop fuel cyhal_flash_program (ans_flash_program fa)
             addr length program_size 0 CY_RSLT_SUCCESS []
  end.

Definition data_storage_erase (fuel : nat) (fa : flash_answers)
    (context : option cyhal_flash_info_t) (addr length : Z)
  : option (cy_rslt_t * list storage_call) :=
  match context with
  | None => Some (cy_rslt_of CY_RSLT_TYPE_ERROR, [])
  | Some _ =>
      let erase_size := data_storage_erase_size context addr in
      if erase_size =? 0
      then Some (cy_rslt_of CY_RSLT_TYPE_ERROR, [])
      else storage_loop fuel (λ address _, cyhal_flash_erase address) (ans_flash_erase fa)
             addr length erase_size 0 CY_RSLT_SUCCESS []
  end.

(** [data_storage_initialize]: the store takes the last sixteen pages of the
    second flash block. *)
Definition data_storage_initialize (fa : flash_answers) (flash_info : cyhal_flash_info_t)
  : cy_rslt_t * list storage_call :=
  let result := ans_flash_init fa in
  if negb (cy_ok result)
  then (result, [cyhal_flash_init;
                 storage_log IFX_LOG_FATAL "Could not initialize flash storage"])
  else if block_count flash_info <? 2
  then (cy_rslt_of CY_RSLT_TYPE_ERROR,
        [cyhal_flash_init;
         storage_log IFX_LOG_FATAL "Persistent flash storage is too small"])
  else
    let block_length := to_uint32 (page_size (flash_block_1 flash_info) * 16) in
    let start_address :=
      to_uint32 (flash_start_address (flash_block_1 flash_info)
                 + flash_size (flash_block_1 flash_info) - block_length) in
    let result := ans_kvstore_init fa in
    if negb (cy_ok result)
    then (result, [cyhal_flash_init; mtb_kvstore_init start_address block_length;
                   storage_log IFX_LOG_FATAL "Could not set up persistent key value storage"])
    else (CY_RSLT_SUCCESS, [cyhal_flash_init; mtb_kvstore_init start_address block_length]).

End DataStorage.

(** ** [main.c]: configuring the tag and starting up *)

Inductive nbt_file_id :=
| NBT_FILEID_CC | NBT_FILEID_NDEF | NBT_FILEID_FAP
| NBT_FILEID_PROPRIETARY1 | NBT_FILEID_PROPRIETARY2
| NBT_FILEID_PROPRIETARY3 | NBT_FILEID_PROPRIETARY4.

Inductive nbt_access_condition := NBT_ACCESS_ALWAYS | NBT_ACCESS_NEVER.

Record nbt_file_access_policy_t := {
  file_id : nbt_file_id;
  i2c_read_access_condition : nbt_access_condition;
  i2c_write_access_condition : nbt_access_condition;
  nfc_read_access_condition : nbt_access_condition;
  nfc_write_access_condition : nbt_access_condition
}.

(** The seven policies [faps] of [nbt_configure_ble_connection_handover]. *)
Definition faps : list nbt_file_access_policy_t :=
  [ {| file_id := NBT_FILEID_CC;
       i2c_read_access_condition := NBT_ACCESS_ALWAYS;
       i2c_write_access_condition := NBT_ACCESS_NEVER;
       nfc_read_access_condition := NBT_ACCESS_ALWAYS;
       nfc_write_access_condition := NBT_ACCESS_NEVER |};
    {| file_id := NBT_FILEID_NDEF;
       i2c_read_access_condition := NBT_ACCESS_ALWAYS;
       i2c_write_access_condition := NBT_ACCESS_ALWAYS;
       nfc_read_access_condition := NBT_ACCESS_ALWAYS;
       nfc_write_access_condition := NBT_ACCESS_NEVER |};
    {| file_id := NBT_FILEID_FAP;
       i2c_read_access_condition := NBT_ACCESS_ALWAYS;
       i2c_write_access_condition := NBT_ACCESS_ALWAYS;
       nfc_read_access_condition := NBT_ACCESS_ALWAYS;
       nfc_write_access_condition := NBT_ACCESS_ALWAYS |};
    {| file_id := NBT_FILEID_PROPRIETARY1;
       i2c_read_access_condition := NBT_ACCESS_NEVER;
       i2c_write_access_condition := NBT_ACCESS_NEVER;
       nfc_read_access_condition := NBT_ACCESS_NEVER;
       nfc_write_access_condition := NBT_ACCESS_NEVER |};
    {| file_id := NBT_FILEID_PROPRIETARY2;
       i2c_read_access_condition := NBT_ACCESS_NEVER;
       i2c_write_access_condition := NBT_ACCESS_NEVER;
       nfc_read_access_condition := NBT_ACCESS_NEVER;
       nfc_write_access_condition := NBT_ACCESS_NEVER |};
    {| file_id := NBT_FILEID_PROPRIETARY3;
       i2c_read_access_condition := NBT_ACCESS_NEVER;
       i2c_write_access_condition := NBT_ACCESS_NEVER;
       nfc_read_access_condition := NBT_ACCESS_NEVER;
       nfc_write_access_condition := NBT_ACCESS_NEVER |};
    {| file_id := NBT_FILEID_PROPRIETARY4;
       i2c_read_access_condition := NBT_ACCESS_NEVER;
       i2c_write_access_condition := NBT_ACCESS_NEVER;
       nfc_read_access_condition := NBT_ACCESS_NEVER;
       nfc_write_access_condition := NBT_ACCESS_NEVER |} ].

(** Calls made while the application starts. *)
Inductive startup_call :=
| ifx_protocol_activate
| nbt_configure (fap : list nbt_file_access_policy_t) (fap_len : Z)
| nbt_select_nbt_application
| nbt_write_ndef_file (offset : Z) (data : list Z)
| xTimerStart
| storage (c : storage_call)
| wiced_bt_stack_init
| startup_log (level : ifx_log_level) (message : string)
| cyhal_i2c_free
| ifx_protocol_destroy
| nbt_destroy
| vTaskDelete.

Record startup_answers := {
  ans_protocol_activate : ifx_status_t;
  ans_nbt_configure : ifx_status_t;
  ans_nbt_select_nbt_application : ifx_status_t;
  ans_nbt_write_ndef_file : ifx_status_t;
  ans_xTimerStart : bool;
  ans_flash : flash_answers;
  ans_flash_info : cyhal_flash_info_t;
  ans_stack_init : wiced_result_t
}.

Section Startup.

(** [CY_RSLT_TYPE_ERROR] and the status
    [IFX_ERROR(LIB_NBT_APDU, NBT_SET_CONFIGURATION, IFX_ILLEGAL_ARGUMENT)]. *)
Variable CY_RSLT_TYPE_ERROR : Z.
Variable NBT_SET_CONFIGURATION_ILLEGAL_ARGUMENT : Z.

(** [nbt_is_null] stands for [nbt == NULL]; [message] is
    [CONNECTION_HANDOVER_MESSAGE] as it stands. *)
Definition nbt_configure_ble_connection_handover (sa : startup_answers) (nbt_is_null : bool)
    (message : list Z) : ifx_status_t * list startup_call :=
  if nbt_is_null
  then (IFX_ERROR NBT_SET_CONFIGURATION_ILLEGAL_ARGUMENT, [])
  else
    let status := ans_nbt_configure sa in
    let calls := [nbt_configure faps (Z.of_nat (length faps))] in
    if ifx_error_check status
    then (status,
          calls ++ [startup_log IFX_LOG_FATAL
                      "Could not confgure NBT for connection handover usecase."])
    else
      let calls := calls ++ [nbt_select_nbt_application] in
      if ifx_error_check (ans_nbt_select_nbt_application sa)
      then (status,
            calls ++ [startup_log IFX_LOG_FATAL "Could not re-select NBT application."])
      else (ans_nbt_write_ndef_file sa,
            calls ++ [nbt_write_ndef_file 0x00 message]).

(** The calls of the [cleanup] label. *)
Definition startup_cleanup : list startup_call :=
  [cyhal_i2c_free; ifx_protocol_destroy; nbt_destroy; vTaskDelete].

Definition startup_task (sa : startup_answers) (message : list Z) : list startup_call :=
  let calls := [ifx_protocol_activate] in
  if ifx_error_check (ans_protocol_activate sa)
  then calls ++ [startup_log IFX_LOG_FATAL "Could not open communication channel to NBT"]
             ++ startup_cleanup
  else
    let '(status, configure_calls) := nbt_configure_ble_connection_handover sa false message in
    let calls := calls ++ configure_calls in
    if ifx_error_check status
    then calls ++ [startup_log IFX_LOG_FATAL
                     "Could not set NBT to BLE connection handover configuration"]
               ++ startup_cleanup
    else
      let calls := calls ++ [xTimerStart] in
      if negb (ans_xTimerStart sa)
      then calls ++ [startup_log IFX_LOG_FATAL "Could not start global time keeper"]
                 ++ startup_cleanup
      else
        let '(result, storage_calls) :=
          data_storage_initialize CY_RSLT_TYPE_ERROR (ans_flash sa) (ans_flash_info sa) in
        let calls := calls ++ (storage <$> storage_calls) in
        if negb (cy_ok result)
        then calls ++ [startup_log IFX_LOG_FATAL
                         "Could not set up persistent key value storage"]
                   ++ startup_cleanup
        else
          let calls := calls ++ [wiced_bt_stack_init] in
          if negb (wiced_ok (ans_stack_init sa))
          then calls ++ [startup_log IFX_LOG_FATAL "Could not start BLE GATT server"]
                     ++ startup_cleanup
          else calls ++ [vTaskDelete].

End Startup.

(** ** Further fixtures and vocabulary of the statements *)

(** ** Well-formed attribute rows *)

(** A row whose current length is within its declared maximum, and whose
    array holds at least that maximum (lengths are [uint16_t]). *)
Definition attribute_fits (w : world) (row : gatt_db_lookup_table_t) : Prop :=
  0 ≤ cur_len row ≤ max_len row ∧ max_len row < 2 ^ 16
  ∧ max_len row ≤ Z.of_nat (length (gatt_array w (p_data row))).

(** The address the enable case announces: [cy_bt_device_address] with its
    last three bytes taken from the unique identifier. *)
Definition enabled_mac_address (P : platform) (a : answers) : list Z :=
  <[5%nat := Z.land (Z.shiftr (ans_unique_id a) (CY_UNIQUE_ID_DIE_Y_Pos P)) 0xFF]>
    (<[4%nat := Z.land (Z.shiftr (ans_unique_id a) (CY_UNIQUE_ID_DIE_X_Pos P)) 0xFF]>
       (<[3%nat := Z.land (Z.shiftr (ans_unique_id a) (CY_UNIQUE_ID_DIE_WAFER_Pos P)) 0xFF]>
          (take BD_ADDR_LEN (cy_bt_device_address P)))).

(** The enable case gets as far as the store: the stack reports success and
    accepts the address, and the tag accepts the address push. *)
Definition enable_accepted (a : answers) (status : wiced_result_t) : Prop :=
  status = WICED_BT_SUCCESS
  ∧ ans_set_local_bdaddr a = WICED_BT_SUCCESS
  ∧ ans_nbt_write_file a CONNECTION_HANDOVER_MESSAGE_MAC_OFFSET = IFX_SUCCESS.

(** What a read of [key] from the store yields. *)
Definition stored (a : answers) (key : string) (w : world) : option (list Z) :=
  if cy_ok (ans_kvstore_read a key false) then data_storage w !! key else None.

(** A restart: the statics are as at boot, the store is as [w] left it. *)
Definition restarted (w : world) : world := set_data_storage (data_storage w) boot_world.

(** The stack accepts the advertisement data, the GATT registration and the
    attribute database. *)
Definition gatt_configured (a : answers) : bool :=
  wiced_ok (ans_set_raw_advertisement_data a) && gatt_ok (ans_gatt_register a)
  && gatt_ok (ans_gatt_db_init a).

(** As [all_ok], but the stack refuses to generate OOB data. *)
Definition oob_refused : answers :=
  {| ans_nbt_write_file := ans_nbt_write_file all_ok;
     ans_kvstore_write := ans_kvstore_write all_ok;
     ans_kvstore_read := ans_kvstore_read all_ok;
     ans_start_advertisements := ans_start_advertisements all_ok;
     ans_set_local_bdaddr := WICED_BT_SUCCESS;
     ans_delete_bonded_device := WICED_BT_SUCCESS;
     ans_resolution_list_clear := WICED_BT_SUCCESS;
     ans_set_raw_advertisement_data := WICED_BT_SUCCESS;
     ans_gatt_register := WICED_BT_GATT_SUCCESS;
     ans_gatt_db_init := WICED_BT_GATT_SUCCESS;
     ans_create_local_sc_oob_data := false;
     ans_send_read_handle_rsp := WICED_BT_GATT_SUCCESS;
     ans_send_write_rsp := WICED_BT_GATT_SUCCESS;
     ans_send_mtu_rsp := WICED_BT_GATT_SUCCESS;
     ans_unique_id := ans_unique_id all_ok;
     ans_m_64 := 0x00;
     NDEBUG := false |}.

(** The turns of [for (offset = 0; offset < length; offset += step)]:
    the offsets [0], [step], [2 * step], ... below [length]. *)
Definition loop_turns (length step : Z) : nat := Z.to_nat ((length + step - 1) / step).

(** The driver call of turn [k], and the calls of the first [n] turns. *)
Definition loop_call (op : Z → Z → storage_call) (addr step : Z) (k : nat) : storage_call :=
  op (to_uint32 (addr + Z.of_nat k * step)) (Z.of_nat k * step).

Definition loop_calls (op : Z → Z → storage_call) (addr step : Z) (n : nat)
  : list storage_call :=
  loop_call op addr step <$> seq 0 n.

(** A flash with two blocks; the second has 512-byte pages and sectors. *)
Definition sample_flash : cyhal_flash_info_t :=
  {| block_count := 2;
     blocks := [ {| flash_start_address := 0x10000000; flash_size := 0x100000;
                    sector_size := 512; page_size := 512 |};
                 {| flash_start_address := 0x14000000; flash_size := 0x8000;
                    sector_size := 512; page_size := 512 |} ] |}.

(** A driver that accepts everything, and one that refuses to program the
    page at [0x14007200]. *)
Definition flash_ok : flash_answers :=
  {| ans_flash_init := CY_RSLT_SUCCESS;
     ans_flash_read := λ _, CY_RSLT_SUCCESS;
     ans_flash_program := λ _, CY_RSLT_SUCCESS;
     ans_flash_erase := λ _, CY_RSLT_SUCCESS;
     ans_kvstore_init := CY_RSLT_SUCCESS |}.

Definition flash_page_refused : flash_answers :=
  {| ans_flash_init := CY_RSLT_SUCCESS;
     ans_flash_read := λ _, CY_RSLT_SUCCESS;
     ans_flash_program := λ address,
       if address =? 0x14007200 then CY_RSLT_ERROR 0x4020001 else CY_RSLT_SUCCESS;
     ans_flash_erase := λ _, CY_RSLT_SUCCESS;
     ans_kvstore_init := CY_RSLT_SUCCESS |}.

(** The tag, the timer, the flash and the stack all answer with success. *)
Definition startup_ok : startup_answers :=
  {| ans_protocol_activate := IFX_SUCCESS;
     ans_nbt_configure := IFX_SUCCESS;
     ans_nbt_select_nbt_application := IFX_SUCCESS;
     ans_nbt_write_ndef_file := IFX_SUCCESS;
     ans_xTimerStart := true;
     ans_flash := flash_ok;
     ans_flash_info := sample_flash;
     ans_stack_init := WICED_BT_SUCCESS |}.

(** As [startup_ok], but the tag refuses to re-select the application. *)
Definition select_refused : startup_answers :=
  {| ans_protocol_activate := IFX_SUCCESS;
     ans_nbt_configure := IFX_SUCCESS;
     ans_nbt_select_nbt_application := IFX_ERROR 0x6A82;
     ans_nbt_write_ndef_file := IFX_SUCCESS;
     ans_xTimerStart := true;
     ans_flash := flash_ok;
     ans_flash_info := sample_flash;
     ans_stack_init := WICED_BT_SUCCESS |}.

(** Every step of [startup_task] before the stack is started succeeds. *)
Definition startup_ready (CY_RSLT_TYPE_ERROR NBT_SET_CONFIGURATION_ILLEGAL_ARGUMENT : Z)
    (sa : startup_answers) (message : list Z) : bool :=
  negb (ifx_error_check (ans_protocol_activate sa))
  && negb (ifx_error_check
             (nbt_configure_ble_connection_handover NBT_SET_CONFIGURATION_ILLEGAL_ARGUMENT
                sa false message).1)
  && ans_xTimerStart sa
  && cy_ok (data_storage_initialize CY_RSLT_TYPE_ERROR (ans_flash sa) (ans_flash_info sa)).1.

(** The events whose case writes to the key-value store, and those whose
    case rewrites the handover message. *)
Definition writes_store (event : wiced_bt_management_evt_t) : bool :=
  match event with
  | BTM_PAIRING_COMPLETE_EVT | BTM_LOCAL_IDENTITY_KEYS_UPDATE_EVT _ => true
  | _ => false
  end.

Definition writes_message (event : wiced_bt_management_evt_t) : bool :=
  match event with
  | BTM_ENABLED_EVT _ | BTM_SMP_SC_LOCAL_OOB_DATA_NOTIFICATION_EVT _ => true
  | _ => false
  end.

(** What the management callback never assigns: the tick counter, the
    recorded press, the connection id, the attribute table and its arrays
    apart from the client configuration. *)
Definition untouched_by_ble_callback (w w' : world) : Prop :=
  elapsed_periods w' = elapsed_periods w
  ∧ press_start w' = press_start w
  ∧ connection_id w' = connection_id w
  ∧ app_gatt_db_ext_attr_tbl w' = app_gatt_db_ext_attr_tbl w
  ∧ (∀ p, p ≠ app_hids_report_client_char_config → gatt_array w' p = gatt_array w p)
  ∧ ∃ l, trace w' = trace w ++ l.

(** What the GATT callback never assigns; of the store it writes the entry
    "cccd" only. *)
Definition untouched_by_gatt_callback (w w' : world) : Prop :=
  bonding_info w' = bonding_info w
  ∧ CONNECTION_HANDOVER_MESSAGE w' = CONNECTION_HANDOVER_MESSAGE w
  ∧ local_identity_keys w' = local_identity_keys w
  ∧ resolution_list w' = resolution_list w
  ∧ elapsed_periods w' = elapsed_periods w
  ∧ press_start w' = press_start w
  ∧ (∀ key, key ≠ "cccd" → data_storage w' !! key = data_storage w !! key)
  ∧ ∃ l, trace w' = trace w ++ l.

(** ** [bluetooth-handling.c]: the read-by-type request

    The case works on a heap block and on the stack's iterators; it reads
    the attribute table through [handle2attr].  [attribute_handle] is its
    [static] variable and is passed in and out. *)




Section ReadByType.

(** [WICED_BT_GATT_INSUF_RESOURCE] of the stack's header. *)
Variable WICED_BT_GATT_INSUF_RESOURCE : wiced_bt_gatt_status_t.



End ReadByType.



(** ** The program between two requests

    One thing that can happen while the program runs: the stack delivers a
    management event or an attribute-server event, the button task takes a
    turn after an edge, or a timer period elapses. *)
Inductive app_step :=
| management_event (a : answers) (event : wiced_bt_management_evt_t)
| gatt_event (a : answers) (event : wiced_bt_gatt_evt_t)
| button_edge (a : answers) (pressed : bool)
| timer_period.

(** The state a step leaves, and whether the program goes on after it (it
    does not when [ble_callback] stops in an assertion). *)
Definition app_step_run (P : platform) (B : cipher_backend) (s : app_step) (w : world)
  : bool * world :=
  match s with
  | management_event a event =>
      match ble_callback P B a event w with
      | (Returned _, _, w') => (true, w')
      | (Halted, _, w') => (false, w')
      end
  | gatt_event a event => (true, (gatt_callback P a event w).2)
  | button_edge a pressed => (true, btn_task P a pressed w)
  | timer_period => (true, period_elapsed w)
  end.

Fixpoint app_run (P : platform) (B : cipher_backend) (steps : list app_step) (w : world)
  : world :=
  match steps with
  | [] => w
  | s :: steps' =>
      let '(goes_on, w') := app_step_run P B s w in
      if goes_on then app_run P B steps' w' else w'
  end.

(** The steps that assign [bonding_info.device_link_keys]: the events of
    [sets_link_keys], and a release of the button that the button task
    takes for a long click, which resets the bonding. *)
Definition assigns_link_keys (s : app_step) (w : world) : bool :=
  match s with
  | management_event _ event => sets_link_keys event
  | button_edge _ false =>
      match btn_released w with
      | call_ble_clear_bonding_info => true
      | call_ble_gatt_send_hid_update => false
      end
  | _ => false
  end.

(** No step of the run assigns the link keys. *)
Fixpoint link_keys_left_alone (P : platform) (B : cipher_backend) (steps : list app_step)
    (w : world) : bool :=
  match steps with
  | [] => true
  | s :: steps' =>
      negb (assigns_link_keys s w)
      && let '(goes_on, w') := app_step_run P B s w in
         if goes_on then link_keys_left_alone P B steps' w' else true
  end.

(** Scenario B continued: other keys for the same peer, a reset by a long
    click (51 periods of 100 ms) followed by a new pairing, and a key update
    that is followed by a restart of the stack. *)
Definition scenario_B_later_keys : wiced_bt_device_link_keys_t :=
  {| bd_addr := [0xC0; 0x01; 0x02; 0x03; 0x04; 0x05]; key_data := replicate 16 0xA5 |}.

Definition reset_then_paired : world :=
  app_run sample_platform AES_CMAC.backend
    ([ management_event all_ok (BTM_PAIRED_DEVICE_LINK_KEYS_UPDATE_EVT scenario_B_keys);
       management_event all_ok BTM_PAIRING_COMPLETE_EVT;
       button_edge all_ok true ]
     ++ replicate 51 timer_period
     ++ [ button_edge all_ok false;
          management_event all_ok BTM_PAIRING_COMPLETE_EVT ]) boot_world.

Definition updated_then_enabled : world :=
  app_run sample_platform AES_CMAC.backend
    [ management_event all_ok (BTM_PAIRED_DEVICE_LINK_KEYS_UPDATE_EVT scenario_B_keys);
      management_event all_ok BTM_PAIRING_COMPLETE_EVT;
      management_event all_ok (BTM_PAIRED_DEVICE_LINK_KEYS_UPDATE_EVT scenario_B_later_keys);
      management_event all_ok (BTM_ENABLED_EVT WICED_BT_SUCCESS) ] boot_world.

(** * Properties *)

(** ** The message skeleton *)

(** The array has 115 bytes, its first two hold the length of what follows,
    and the three offsets point at the placeholders of the three fields. *)
Example CONNECTION_HANDOVER_MESSAGE_layout :
  length CONNECTION_HANDOVER_MESSAGE_init = 115%nat
  ∧ slice CONNECTION_HANDOVER_MESSAGE_init 0 2 = [0x00; 113]
  ∧ slice CONNECTION_HANDOVER_MESSAGE_init (CONNECTION_HANDOVER_MESSAGE_MAC_OFFSET - 2) 9
    = [0x08; 0x1B; 0xFF; 0xFF; 0xFF; 0xFF; 0xFF; 0xFF; 0x00]
  ∧ slice CONNECTION_HANDOVER_MESSAGE_init (CONNECTION_HANDOVER_MESSAGE_CONFIRMATION_OFFSET - 2) 18
    = [0x11; 0x22] ++ replicate 16 0xFF
  ∧ slice CONNECTION_HANDOVER_MESSAGE_init (CONNECTION_HANDOVER_MESSAGE_RANDOM_OFFSET - 2) 18
    = [0x11; 0x23] ++ replicate 16 0xFF.
Proof. repeat split. Qed.

(** ** The reference backend against the test vectors of RFC 4493 *)

Example aes_128_zero_block :
  AES_CMAC.encrypt
    [0x2b; 0x7e; 0x15; 0x16; 0x28; 0xae; 0xd2; 0xa6; 0xab; 0xf7; 0x15; 0x88; 0x09; 0xcf; 0x4f; 0x3c]
    (replicate 16 0x00)
  = [0x7d; 0xf7; 0x6b; 0x0c; 0x1a; 0xb8; 0x99; 0xb3; 0x3e; 0x42; 0xf0; 0x47; 0xb9; 0x1b; 0x54; 0x6f].
Proof. vm_compute. reflexivity. Qed.

Example cmac_rfc4493_empty :
  AES_CMAC.cmac
    [0x2b; 0x7e; 0x15; 0x16; 0x28; 0xae; 0xd2; 0xa6; 0xab; 0xf7; 0x15; 0x88; 0x09; 0xcf; 0x4f; 0x3c]
    []
  = [0xbb; 0x1d; 0x69; 0x29; 0xe9; 0x59; 0x37; 0x28; 0x7f; 0xa3; 0x7d; 0x12; 0x9b; 0x75; 0x67; 0x46].
Proof. vm_compute. reflexivity. Qed.

Example cmac_rfc4493_one_block :
  AES_CMAC.cmac
    [0x2b; 0x7e; 0x15; 0x16; 0x28; 0xae; 0xd2; 0xa6; 0xab; 0xf7; 0x15; 0x88; 0x09; 0xcf; 0x4f; 0x3c]
    [0x6b; 0xc1; 0xbe; 0xe2; 0x2e; 0x40; 0x9f; 0x96; 0xe9; 0x3d; 0x7e; 0x11; 0x73; 0x93; 0x17; 0x2a]
  = [0x07; 0x0a; 0x16; 0xb4; 0x6b; 0x4d; 0x41; 0x44; 0xf7; 0x9b; 0xdd; 0x9d; 0xd0; 0x4a; 0x28; 0x7c].
Proof. vm_compute. reflexivity. Qed.

Example cmac_rfc4493_forty_bytes :
  AES_CMAC.cmac
    [0x2b; 0x7e; 0x15; 0x16; 0x28; 0xae; 0xd2; 0xa6; 0xab; 0xf7; 0x15; 0x88; 0x09; 0xcf; 0x4f; 0x3c]
    [0x6b; 0xc1; 0xbe; 0xe2; 0x2e; 0x40; 0x9f; 0x96; 0xe9; 0x3d; 0x7e; 0x11; 0x73; 0x93; 0x17; 0x2a;
     0xae; 0x2d; 0x8a; 0x57; 0x1e; 0x03; 0xac; 0x9c; 0x9e; 0xb7; 0x6f; 0xac; 0x45; 0xaf; 0x8e; 0x51;
     0x30; 0xc8; 0x1c; 0x46; 0xa3; 0x5c; 0xe4; 0x11]
  = [0xdf; 0xa6; 0x67; 0x47; 0xde; 0x9a; 0xe6; 0x30; 0x30; 0xca; 0x32; 0x61; 0x14; 0x97; 0xc8; 0x27].
Proof. vm_compute. reflexivity. Qed.

Example cmac_rfc4493_four_blocks :
  AES_CMAC.cmac
    [0x2b; 0x7e; 0x15; 0x16; 0x28; 0xae; 0xd2; 0xa6; 0xab; 0xf7; 0x15; 0x88; 0x09; 0xcf; 0x4f; 0x3c]
    [0x6b; 0xc1; 0xbe; 0xe2; 0x2e; 0x40; 0x9f; 0x96; 0xe9; 0x3d; 0x7e; 0x11; 0x73; 0x93; 0x17; 0x2a;
     0xae; 0x2d; 0x8a; 0x57; 0x1e; 0x03; 0xac; 0x9c; 0x9e; 0xb7; 0x6f; 0xac; 0x45; 0xaf; 0x8e; 0x51;
     0x30; 0xc8; 0x1c; 0x46; 0xa3; 0x5c; 0xe4; 0x11; 0xe5; 0xfb; 0xc1; 0x19; 0x1a; 0x0a; 0x52; 0xef;
     0xf6; 0x9f; 0x24; 0x45; 0xdf; 0x4f; 0x9b; 0x17; 0xad; 0x2b; 0x41; 0x7b; 0xe6; 0x6c; 0x37; 0x10]
  = [0x51; 0xf0; 0xbe; 0xbf; 0x7e; 0x3b; 0x9d; 0x92; 0xfc; 0x49; 0x74; 0x17; 0x79; 0x36; 0x3c; 0xfe].
Proof. vm_compute. reflexivity. Qed.

(** ** Byte arrays *)

Lemma length_store_bytes (src dst : list Z) (off : nat) :
  length (store_bytes dst off src) = length dst.
Proof.
  revert dst off. induction src as [|b src IH]; intros dst off; simpl; [done|].
  by rewrite IH, length_insert.
Qed.

Lemma store_bytes_lookup_outside (src dst : list Z) (off i : nat) :
  (i < off ∨ off + length src ≤ i)%nat →
  store_bytes dst off src !! i = dst !! i.
Proof.
  revert dst off. induction src as [|b src IH]; intros dst off Hi; simpl in *; [done|].
  rewrite IH by lia. apply list_lookup_insert_ne. lia.
Qed.

Lemma store_bytes_lookup_inside (src dst : list Z) (off j : nat) :
  (off + j < length dst)%nat →
  (j < length src)%nat →
  store_bytes dst off src !! (off + j)%nat = src !! j.
Proof.
  revert dst off j. induction src as [|b src IH]; intros dst off j Hfit Hj; simpl in *; [lia|].
  destruct j as [|j].
  - rewrite Nat.add_0_r, store_bytes_lookup_outside by lia.
    apply list_lookup_insert_eq. lia.
  - replace (off + S j)%nat with (S off + j)%nat by lia.
    apply IH; [rewrite length_insert|]; lia.
Qed.

Lemma lookup_slice (a : list Z) (off n i : nat) :
  slice a off n !! i = if decide (i < n)%nat then a !! (off + i)%nat else None.
Proof. unfold slice. rewrite lookup_take. case_decide; [apply lookup_drop|done]. Qed.

Lemma length_slice (a : list Z) (off n : nat) :
  (off + n ≤ length a)%nat → length (slice a off n) = n.
Proof. intros. unfold slice. rewrite length_take, length_drop. lia. Qed.

(** What [memcpy] leaves in the range it wrote. *)
Lemma slice_store_bytes (src dst : list Z) (off : nat) :
  (off + length src ≤ length dst)%nat →
  slice (store_bytes dst off src) off (length src) = src.
Proof.
  intros Hfit. apply list_eq. intros i. rewrite lookup_slice. case_decide.
  - apply store_bytes_lookup_inside; lia.
  - symmetry. apply lookup_ge_None. lia.
Qed.

(** A range that lies before or after the written one keeps its bytes. *)
Lemma slice_store_bytes_disjoint (src dst : list Z) (off off' n : nat) :
  (off' + n ≤ off ∨ off + length src ≤ off')%nat →
  slice (store_bytes dst off src) off' n = slice dst off' n.
Proof.
  intros Hd. apply list_eq. intros i. rewrite !lookup_slice. case_decide; [|done].
  apply store_bytes_lookup_outside. lia.
Qed.

Lemma memcpy_16 (dst src : list Z) (off : nat) :
  length src = 16%nat → memcpy dst off src 0x10 = store_bytes dst off src.
Proof. intros Hl. unfold memcpy. by rewrite take_ge by lia. Qed.

Lemma slice_memcpy_16 (dst src : list Z) (off : nat) :
  length src = 16%nat → (off + 16 ≤ length dst)%nat →
  slice (memcpy dst off src 0x10) off 16 = src.
Proof.
  intros Hl Hfit. rewrite memcpy_16 by done.
  rewrite <- Hl in Hfit |- *. by apply slice_store_bytes.
Qed.

(** The loop of [callback_mac_address_changed] stores the address back to
    front. *)
Lemma mac_loop_store_bytes (mac msg : list Z) :
  length mac = BD_ADDR_LEN →
  foldl (λ m i, <[(CONNECTION_HANDOVER_MESSAGE_MAC_OFFSET + i)%nat :=
                    byte_at mac (BD_ADDR_LEN - 1 - i)]> m) msg (seq 0 BD_ADDR_LEN)
  = store_bytes msg CONNECTION_HANDOVER_MESSAGE_MAC_OFFSET (reverse mac).
Proof.
  intros Hl.
  destruct mac as [|a0 [|a1 [|a2 [|a3 [|a4 [|a5 [|? ?]]]]]]]; try discriminate Hl.
  reflexivity.
Qed.

(** ** The trace only grows *)

Lemma trace_called (c : call) (w : world) : trace (called c w) = trace w ++ [c].
Proof. reflexivity. Qed.

(** Projections of a state built by the setters, without touching the byte
    arrays. *)
Ltac world_simpl :=
  cbn [fst snd CONNECTION_HANDOVER_MESSAGE elapsed_periods press_start bonding_info cccd
       connection_id local_identity_keys app_gatt_db_ext_attr_tbl gatt_arrays data_storage
       advertising resolution_list trace snapshot called log
       set_CONNECTION_HANDOVER_MESSAGE set_elapsed_periods set_press_start set_bonding_info
       set_cccd set_connection_id set_local_identity_keys set_app_gatt_db_ext_attr_tbl
       set_gatt_arrays set_gatt_array set_data_storage set_advertising set_resolution_list
       do_nbt_write_file do_kvstore_write do_kvstore_read do_start_advertisements
       do_resolution_list_clear do_add_device_to_address_resolution_db
       device_link_keys bonded bd_addr key_data] in *.

(** ** The handover message and its pushes to the tag *)

(** The message an address update leaves behind. *)
Lemma callback_mac_address_changed_message (a : answers) (mac : list Z) (w : world) :
  length mac = BD_ADDR_LEN →
  CONNECTION_HANDOVER_MESSAGE (callback_mac_address_changed a mac w).2
  = store_bytes (CONNECTION_HANDOVER_MESSAGE w) CONNECTION_HANDOVER_MESSAGE_MAC_OFFSET
      (reverse mac).
Proof.
  intros Hmac. unfold callback_mac_address_changed, do_nbt_write_file.
  cbn [snd CONNECTION_HANDOVER_MESSAGE called set_CONNECTION_HANDOVER_MESSAGE].
  by apply mac_loop_store_bytes.
Qed.

Lemma slice_reversed_mac (mac msg : list Z) :
  length mac = BD_ADDR_LEN →
  length msg = length CONNECTION_HANDOVER_MESSAGE_init →
  slice (store_bytes msg CONNECTION_HANDOVER_MESSAGE_MAC_OFFSET (reverse mac))
        CONNECTION_HANDOVER_MESSAGE_MAC_OFFSET BD_ADDR_LEN
  = reverse mac.
Proof.
  intros Hmac Hmsg.
  assert (length (reverse mac) = BD_ADDR_LEN) as Hrev by (by rewrite length_reverse).
  rewrite <- Hrev at 1. apply slice_store_bytes.
  rewrite Hrev, Hmsg. vm_compute. lia.
Qed.

(** C4: for every 6-byte address, [callback_mac_address_changed] leaves the
    address bytes in reversed order at offset 39 of the handover message (so a
    snapshot taken afterwards shows them there), whatever the tag answers;
    every byte outside the six address bytes keeps its value and the message
    keeps its length. *)
Theorem callback_mac_address_changed_reversed (a : answers) (mac : list Z) (w : world) :
  length mac = BD_ADDR_LEN →
  length (CONNECTION_HANDOVER_MESSAGE w) = length CONNECTION_HANDOVER_MESSAGE_init →
  let w' := (callback_mac_address_changed a mac w).2 in
  slice (snapshot w') CONNECTION_HANDOVER_MESSAGE_MAC_OFFSET BD_ADDR_LEN = reverse mac
  ∧ (∀ i : nat,
       (i < CONNECTION_HANDOVER_MESSAGE_MAC_OFFSET
        ∨ CONNECTION_HANDOVER_MESSAGE_MAC_OFFSET + BD_ADDR_LEN ≤ i)%nat →
       snapshot w' !! i = snapshot w !! i)
  ∧ length (snapshot w') = length (snapshot w).
Proof.
  intros Hmac Hmsg w'. subst w'. unfold snapshot.
  rewrite callback_mac_address_changed_message by done.
  split; [|split].
  - by apply slice_reversed_mac.
  - intros i Hi. apply store_bytes_lookup_outside.
    rewrite length_reverse, Hmac. exact Hi.
  - apply length_store_bytes.
Qed.

Lemma callback_mac_address_changed_reversed_witness :
  slice (snapshot (callback_mac_address_changed all_ok [1; 2; 3; 4; 5; 6] boot_world).2)
        CONNECTION_HANDOVER_MESSAGE_MAC_OFFSET BD_ADDR_LEN
  = [6; 5; 4; 3; 2; 1].
Proof.
  apply (callback_mac_address_changed_reversed all_ok [1; 2; 3; 4; 5; 6] boot_world);
    reflexivity.
Defined.

(** C5, as worded, fails: after an address update the push carries the six
    address bytes, not the 115 bytes of the message. *)
Lemma address_push_is_partial :
  last (trace (callback_mac_address_changed all_ok [1; 2; 3; 4; 5; 6] boot_world).2)
  = Some (nbt_write_file 39 [6; 5; 4; 3; 2; 1])
  ∧ length (snapshot (callback_mac_address_changed all_ok [1; 2; 3; 4; 5; 6] boot_world).2)
    = 115%nat
  ∧ ¬ pushes_full_image (callback_mac_address_changed all_ok [1; 2; 3; 4; 5; 6] boot_world).2.
Proof.
  split; [reflexivity|]. split; [reflexivity|].
  intros [offset Hlast]. vm_compute in Hlast. discriminate Hlast.
Qed.

(** C5, amended: each of the three field updates makes exactly one call to
    the tag, a write at the offset of the field it changed (39, 78 or 96) of
    exactly the field's bytes as they now stand in the message (6, 16 and 16
    bytes: the reversed address, the confirmation value, the random value). *)
Theorem field_update_pushes_field (a : answers) (w : world) (mac confirmation random : list Z) :
  length (CONNECTION_HANDOVER_MESSAGE w) = length CONNECTION_HANDOVER_MESSAGE_init →
  length mac = 6%nat → length confirmation = 16%nat → length random = 16%nat →
  (let w' := (callback_mac_address_changed a mac w).2 in
   trace w' = trace w ++ [nbt_write_file 39 (slice (snapshot w') 39 6)]
   ∧ slice (snapshot w') 39 6 = reverse mac)
  ∧ (let w' := (callback_sc_confirmation_value_changed a confirmation w).2 in
     trace w' = trace w ++ [nbt_write_file 78 (slice (snapshot w') 78 16)]
     ∧ slice (snapshot w') 78 16 = confirmation)
  ∧ (let w' := (callback_sc_random_value_changed a random w).2 in
     trace w' = trace w ++ [nbt_write_file 96 (slice (snapshot w') 96 16)]
     ∧ slice (snapshot w') 96 16 = random).
Proof.
  intros Hmsg Hmac Hconf Hrand. split; [|split]; cbv zeta.
  - split; [reflexivity|]. unfold snapshot.
    rewrite callback_mac_address_changed_message by done.
    by apply slice_reversed_mac.
  - split; [reflexivity|].
    unfold callback_sc_confirmation_value_changed, do_nbt_write_file, snapshot.
    cbn [snd CONNECTION_HANDOVER_MESSAGE called set_CONNECTION_HANDOVER_MESSAGE].
    apply slice_memcpy_16; [done|]. rewrite Hmsg. vm_compute. lia.
  - split; [reflexivity|].
    unfold callback_sc_random_value_changed, do_nbt_write_file, snapshot.
    cbn [snd CONNECTION_HANDOVER_MESSAGE called set_CONNECTION_HANDOVER_MESSAGE].
    apply slice_memcpy_16; [done|]. rewrite Hmsg. vm_compute. lia.
Qed.

Lemma field_update_pushes_field_witness :
  trace (callback_sc_confirmation_value_changed all_ok (replicate 16 0xA5) boot_world).2
  = [nbt_write_file 78 (replicate 16 0xA5)]
  ∧ trace (callback_sc_random_value_changed all_ok (replicate 16 0x5A) boot_world).2
    = [nbt_write_file 96 (replicate 16 0x5A)].
Proof.
  destruct (field_update_pushes_field all_ok boot_world [1; 2; 3; 4; 5; 6]
              (replicate 16 0xA5) (replicate 16 0x5A) eq_refl eq_refl eq_refl eq_refl)
    as (_ & [Hc1 Hc2] & [Hr1 Hr2]).
  rewrite Hc2 in Hc1. rewrite Hr2 in Hr1. split; [exact Hc1|exact Hr1].
Defined.

(** ** The OOB case of [ble_callback] *)

Lemma oob_message_x_x (a : answers) (oob : wiced_bt_smp_sc_local_oob_t) :
  length (public_key_used_x oob) = 32%nat →
  oob_message a oob = public_key_used_x oob ++ public_key_used_x oob ++ [ans_m_64 a].
Proof. intros Hx. unfold oob_message. by rewrite take_ge by lia. Qed.

Lemma derivation_fails_None (B : cipher_backend) (key m : list Z) :
  derivation_fails B key m ↔ cipher_cmac B key m = None.
Proof.
  unfold cipher_cmac, oob_cmac_prepare. split.
  - intros [H1|c H1 H2|c c' H1 H2 H3|c c' c'' H1 H2 H3 H4]; rewrite ?H1; simpl;
      rewrite ?H2; simpl; rewrite ?H3; simpl; rewrite ?H4; done.
  - destruct (mbedtls_cipher_setup B) as [c|] eqn:H1; simpl; [|intros _; by apply setup_fails].
    destruct (mbedtls_cipher_cmac_starts B c key _) as [c'|] eqn:H2; simpl;
      [|intros _; by eapply cmac_starts_fails].
    destruct (mbedtls_cipher_cmac_update B c' m) as [c''|] eqn:H3; simpl;
      [|intros _; by eapply cmac_update_fails].
    intros H4. by eapply cmac_finish_fails.
Qed.

(** With a 128-bit key the four calls of the reference backend compute the
    CMAC of RFC 4493. *)
Lemma cipher_cmac_reference (key m : list Z) :
  length key = 16%nat →
  cipher_cmac AES_CMAC.backend key m = Some (AES_CMAC.cmac key m).
Proof.
  intros Hkey. unfold cipher_cmac, oob_cmac_prepare.
  cbn [AES_CMAC.backend mbedtls_cipher_setup mbedtls_cipher_cmac_starts
       mbedtls_cipher_cmac_update mbedtls_cipher_cmac_finish mbind option_bind].
  rewrite Hkey.
  replace (Z.of_nat 16 * 8 =? 128) with true by reflexivity.
  cbn [andb Nat.eqb mbind option_bind AES_CMAC.ctx_key AES_CMAC.ctx_message app].
  reflexivity.
Qed.

(** C1, as worded, fails on scenario A: the handler succeeds, but the random
    field holds sixteen zero bytes and not the reported [0x22 ...], and the
    confirmation field is not the CMAC of [x ++ x] under that key. *)
Lemma scenario_A_fields :
  scenario_A_run.1.1 = Returned WICED_BT_SUCCESS
  ∧ randomizer scenario_A_oob = replicate 16 0x22
  ∧ slice (snapshot scenario_A_run.2) 96 16 = replicate 16 0x00
  ∧ slice (snapshot scenario_A_run.2) 96 16 ≠ randomizer scenario_A_oob
  ∧ AES_CMAC.cmac (randomizer scenario_A_oob)
      (public_key_used_x scenario_A_oob ++ public_key_used_x scenario_A_oob)
    = [0x9a; 0xcf; 0x0a; 0x93; 0x02; 0xdb; 0x04; 0x4e; 0x93; 0x51; 0xed; 0x9f; 0x6b; 0x5a; 0x94; 0x61]
  ∧ slice (snapshot scenario_A_run.2) 78 16
    = [0xa1; 0xf5; 0x5f; 0x00; 0x42; 0x82; 0xdb; 0x4e; 0x9c; 0xf2; 0x12; 0xa3; 0xa2; 0xf0; 0xf2; 0x65].
Proof. vm_compute. repeat split; discriminate. Qed.

(** C1, amended: whatever randomizer the event carries, a successful run of
    the OOB case writes sixteen zero bytes into the random-value field and
    pushes them to the tag, and writes into the confirmation-value field (and
    pushes) the CMAC, keyed with those sixteen zero bytes, of a 65-byte
    message that starts with [x ++ x], [x] being the 32-byte x-coordinate of
    the public key (the last byte is whatever [m[64]] holds). *)
Theorem oob_data_ready_success (P : platform) (B : cipher_backend) (a : answers)
    (oob : wiced_bt_smp_sc_local_oob_t) (w w' : world) (out : event_data_out) :
  length (public_key_used_x oob) = 32%nat →
  length (randomizer oob) = 16%nat →
  length (CONNECTION_HANDOVER_MESSAGE w) = length CONNECTION_HANDOVER_MESSAGE_init →
  ble_callback P B a (BTM_SMP_SC_LOCAL_OOB_DATA_NOTIFICATION_EVT oob) w
  = (Returned WICED_BT_SUCCESS, out, w') →
  ∃ tag,
    cipher_cmac B (replicate 16 0x00)
      (public_key_used_x oob ++ public_key_used_x oob ++ [ans_m_64 a]) = Some tag
    ∧ slice (snapshot w') CONNECTION_HANDOVER_MESSAGE_RANDOM_OFFSET 16 = replicate 16 0x00
    ∧ (length tag = 16%nat →
       slice (snapshot w') CONNECTION_HANDOVER_MESSAGE_CONFIRMATION_OFFSET 16 = tag)
    ∧ trace w' = trace w ++
        [ nbt_write_file CONNECTION_HANDOVER_MESSAGE_RANDOM_OFFSET (replicate 16 0x00);
          nbt_write_file CONNECTION_HANDOVER_MESSAGE_CONFIRMATION_OFFSET
            (slice (snapshot w') CONNECTION_HANDOVER_MESSAGE_CONFIRMATION_OFFSET 16) ].
Proof.
  intros Hx _ Hmsg. rewrite <- (oob_message_x_x a oob Hx).
  assert (length CONNECTION_HANDOVER_MESSAGE_init = 115%nat) as Hinit by reflexivity.
  unfold ble_callback, ble_oob_data, callback_sc_random_value_changed,
    callback_sc_confirmation_value_changed, cipher_cmac.
  world_simpl.
  destruct (ans_nbt_write_file a CONNECTION_HANDOVER_MESSAGE_RANDOM_OFFSET); cbn [ifx_error_check];
    [|intros [=]].
  destruct (oob_cmac_prepare B _ _) as [c|]; [|intros [=]].
  destruct (mbedtls_cipher_cmac_finish B c) as [tag|] eqn:Hfinish; [|intros [=]].
  world_simpl.
  destruct (ans_nbt_write_file a CONNECTION_HANDOVER_MESSAGE_CONFIRMATION_OFFSET);
    cbn [ifx_error_check]; intros [= <- <-].
  exists tag. world_simpl.
  set (msg1 := memcpy (CONNECTION_HANDOVER_MESSAGE w) _ _ _).
  assert (slice msg1 CONNECTION_HANDOVER_MESSAGE_RANDOM_OFFSET 16 = replicate 16 0) as Hrandom.
  { apply slice_memcpy_16; [reflexivity|]. rewrite Hmsg, Hinit. vm_compute. lia. }
  assert (length msg1 = 115%nat) as Hlen1.
  { unfold msg1, memcpy. by rewrite length_store_bytes, Hmsg. }
  split; [exact Hfinish|]. split; [|split].
  - unfold memcpy at 1. rewrite slice_store_bytes_disjoint; [exact Hrandom|].
    right. rewrite length_take. unfold CONNECTION_HANDOVER_MESSAGE_CONFIRMATION_OFFSET,
      CONNECTION_HANDOVER_MESSAGE_RANDOM_OFFSET. lia.
  - intros Htag. apply slice_memcpy_16; [done|]. rewrite Hlen1. vm_compute. lia.
  - rewrite Hrandom, <- app_assoc. reflexivity.
Qed.

Lemma oob_data_ready_success_witness :
  ∃ tag,
    cipher_cmac AES_CMAC.backend (replicate 16 0x00)
      (replicate 32 0x11 ++ replicate 32 0x11 ++ [0x00]) = Some tag
    ∧ slice (snapshot scenario_A_run.2) CONNECTION_HANDOVER_MESSAGE_RANDOM_OFFSET 16
      = replicate 16 0x00
    ∧ (length tag = 16%nat →
       slice (snapshot scenario_A_run.2) CONNECTION_HANDOVER_MESSAGE_CONFIRMATION_OFFSET 16 = tag)
    ∧ trace scenario_A_run.2 = trace scenario_A_enabled ++
        [ nbt_write_file CONNECTION_HANDOVER_MESSAGE_RANDOM_OFFSET (replicate 16 0x00);
          nbt_write_file CONNECTION_HANDOVER_MESSAGE_CONFIRMATION_OFFSET
            (slice (snapshot scenario_A_run.2)
                   CONNECTION_HANDOVER_MESSAGE_CONFIRMATION_OFFSET 16) ].
Proof.
  apply (oob_data_ready_success sample_platform AES_CMAC.backend all_ok scenario_A_oob
           scenario_A_enabled scenario_A_run.2 scenario_A_run.1.2);
    reflexivity.
Defined.

(** C3: if one of the four mbedTLS calls (set-up, CMAC start, CMAC update,
    CMAC finish) fails while the confirmation value is derived, the OOB case
    returns [WICED_BT_ERROR] (it returns: nothing halts), the sixteen bytes
    of the confirmation-value field are what they were before the event, and
    no write of that field reaches the tag. *)
Theorem oob_crypto_failure (P : platform) (B : cipher_backend) (a : answers)
    (oob : wiced_bt_smp_sc_local_oob_t) (w : world) :
  derivation_fails B (replicate 16 0x00) (oob_message a oob) →
  ∃ w',
    ble_callback P B a (BTM_SMP_SC_LOCAL_OOB_DATA_NOTIFICATION_EVT oob) w
    = (Returned WICED_BT_ERROR, out_none, w')
    ∧ slice (snapshot w') CONNECTION_HANDOVER_MESSAGE_CONFIRMATION_OFFSET 16
      = slice (snapshot w) CONNECTION_HANDOVER_MESSAGE_CONFIRMATION_OFFSET 16
    ∧ ∀ data, nbt_write_file CONNECTION_HANDOVER_MESSAGE_CONFIRMATION_OFFSET data ∈ trace w' →
              nbt_write_file CONNECTION_HANDOVER_MESSAGE_CONFIRMATION_OFFSET data ∈ trace w.
Proof.
  intros Hfail%derivation_fails_None. unfold cipher_cmac in Hfail.
  unfold ble_callback, ble_oob_data, callback_sc_random_value_changed. world_simpl.
  assert (∀ msg, slice (memcpy msg CONNECTION_HANDOVER_MESSAGE_RANDOM_OFFSET (replicate 16 0) 16)
                   CONNECTION_HANDOVER_MESSAGE_CONFIRMATION_OFFSET 16
                 = slice msg CONNECTION_HANDOVER_MESSAGE_CONFIRMATION_OFFSET 16) as Hkeep.
  { intros msg. unfold memcpy. apply slice_store_bytes_disjoint. left.
    unfold CONNECTION_HANDOVER_MESSAGE_CONFIRMATION_OFFSET,
      CONNECTION_HANDOVER_MESSAGE_RANDOM_OFFSET. lia. }
  assert (∀ (l : list call) data c1 c2,
            nbt_write_file CONNECTION_HANDOVER_MESSAGE_CONFIRMATION_OFFSET data
              ∈ (l ++ [nbt_write_file CONNECTION_HANDOVER_MESSAGE_RANDOM_OFFSET c1]) ++
                [ifx_logger_log IFX_LOG_ERROR c2] →
            nbt_write_file CONNECTION_HANDOVER_MESSAGE_CONFIRMATION_OFFSET data ∈ l) as Htrace.
  { intros l data c1 c2. rewrite !elem_of_app, !list_elem_of_singleton.
    intros [[?|[=]]|[=]]. done. }
  destruct (ans_nbt_write_file a CONNECTION_HANDOVER_MESSAGE_RANDOM_OFFSET); cbn [ifx_error_check].
  - destruct (oob_cmac_prepare B _ _) as [c|]; simpl in Hfail.
    + rewrite Hfail. eexists. split; [reflexivity|]. world_simpl. split; [apply Hkeep|].
      intros data. apply Htrace.
    + eexists. split; [reflexivity|]. world_simpl. split; [apply Hkeep|].
      intros data. apply Htrace.
  - eexists. split; [reflexivity|]. world_simpl. split; [apply Hkeep|].
    intros data. apply Htrace.
Qed.

Lemma oob_crypto_failure_witness :
  ∃ w',
    ble_callback sample_platform finish_fails_backend all_ok
      (BTM_SMP_SC_LOCAL_OOB_DATA_NOTIFICATION_EVT scenario_A_oob) scenario_A_enabled
    = (Returned WICED_BT_ERROR, out_none, w')
    ∧ slice (snapshot w') CONNECTION_HANDOVER_MESSAGE_CONFIRMATION_OFFSET 16
      = slice (snapshot scenario_A_enabled) CONNECTION_HANDOVER_MESSAGE_CONFIRMATION_OFFSET 16
    ∧ ∀ data, nbt_write_file CONNECTION_HANDOVER_MESSAGE_CONFIRMATION_OFFSET data ∈ trace w' →
              nbt_write_file CONNECTION_HANDOVER_MESSAGE_CONFIRMATION_OFFSET data
                ∈ trace scenario_A_enabled.
Proof.
  apply (oob_crypto_failure sample_platform finish_fails_backend all_ok scenario_A_oob
           scenario_A_enabled).
  eapply cmac_finish_fails; reflexivity.
Defined.

(** ** The enable case of [ble_callback] *)

Lemma ble_enabled_configure_frame (a : answers) (mac : list Z) (w : world) :
  CONNECTION_HANDOVER_MESSAGE (ble_enabled_configure a mac w).2 = CONNECTION_HANDOVER_MESSAGE w
  ∧ ∃ l, trace (ble_enabled_configure a mac w).2 = trace w ++ l
         ∧ ∀ mac', wiced_bt_smp_create_local_sc_oob_data mac' ∈ l → mac' = mac.
Proof.
  unfold ble_enabled_configure. world_simpl.
  repeat (case_match; world_simpl); simplify_eq; world_simpl;
    (split; [reflexivity|]); rewrite <- ?app_assoc; eexists; (split; [reflexivity|]);
    intros mac'; rewrite ?elem_of_app, ?elem_of_cons, ?elem_of_nil; intuition congruence.
Qed.

(** A call that does not occur in the first calls of a trace can only be
    found after them. *)
Lemma split_after_prefix (l1 l pre post : list call) (x : call) :
  l1 ++ l = pre ++ x :: post → x ∉ l1 → ∃ rest, pre = l1 ++ rest ∧ l = rest ++ x :: post.
Proof.
  revert pre. induction l1 as [|c l1 IH]; intros pre Heq Hx.
  - by exists pre.
  - destruct pre as [|p pre]; simplify_eq/=.
    + exfalso. apply Hx. left.
    + destruct (IH pre) as (rest & -> & ->); [done|set_solver|]. by exists rest.
Qed.

(** The address the enable case announces: six bytes, the last three taken
    from the unique identifier. *)
Lemma length_ble_mac_address (P : platform) (b3 b4 b5 : Z) :
  (6 ≤ length (cy_bt_device_address P))%nat →
  length (<[5%nat := b5]> (<[4%nat := b4]> (<[3%nat := b3]>
            (take BD_ADDR_LEN (cy_bt_device_address P))))) = BD_ADDR_LEN.
Proof. intros Hl. rewrite !length_insert, length_take. unfold BD_ADDR_LEN. lia. Qed.

(** C2, as worded, fails: OOB data delivered before the stack was enabled
    (nothing has been called yet, the message is still the skeleton) are
    processed, the handler reports success and the random-value field has
    been overwritten. *)
Lemma misordered_oob_is_processed :
  trace boot_world = []
  ∧ misordered_run.1.1 = Returned WICED_BT_SUCCESS
  ∧ slice (snapshot boot_world) CONNECTION_HANDOVER_MESSAGE_RANDOM_OFFSET 16 = replicate 16 0xFF
  ∧ slice (snapshot misordered_run.2) CONNECTION_HANDOVER_MESSAGE_RANDOM_OFFSET 16
    = replicate 16 0x00
  ∧ trace misordered_run.2
    = [ nbt_write_file 96 (replicate 16 0x00);
        nbt_write_file 78
          [0xa1; 0xf5; 0x5f; 0x00; 0x42; 0x82; 0xdb; 0x4e;
           0x9c; 0xf2; 0x12; 0xa3; 0xa2; 0xf0; 0xf2; 0x65] ].
Proof. vm_compute. repeat split. Qed.

(** C2, amended: [ble_callback] keeps no record of the events it has seen.
    What the enable case guarantees is the order of its own calls: if it asks
    the stack to generate OOB data for an address, then before that call it
    has written the address, reversed, into the handover message and pushed
    it to the tag, and the tag accepted the push.  An OOB event itself is
    processed in whatever state it arrives: it succeeds as soon as the two
    tag writes and the CMAC succeed. *)
Theorem oob_requested_after_address_push (P : platform) (B : cipher_backend) (a : answers) :
  (∀ (status : wiced_result_t) (w : world) (mac : list Z) (pre post : list call),
     (6 ≤ length (cy_bt_device_address P))%nat →
     length (CONNECTION_HANDOVER_MESSAGE w) = length CONNECTION_HANDOVER_MESSAGE_init →
     let w' := (ble_callback P B a (BTM_ENABLED_EVT status) w).2 in
     drop (length (trace w)) (trace w')
     = pre ++ wiced_bt_smp_create_local_sc_oob_data mac :: post →
     ans_nbt_write_file a CONNECTION_HANDOVER_MESSAGE_MAC_OFFSET = IFX_SUCCESS
     ∧ slice (snapshot w') CONNECTION_HANDOVER_MESSAGE_MAC_OFFSET BD_ADDR_LEN = reverse mac
     ∧ nbt_write_file CONNECTION_HANDOVER_MESSAGE_MAC_OFFSET (reverse mac) ∈ pre)
  ∧ (∀ (oob : wiced_bt_smp_sc_local_oob_t) (w : world) (tag : list Z),
       ans_nbt_write_file a CONNECTION_HANDOVER_MESSAGE_RANDOM_OFFSET = IFX_SUCCESS →
       ans_nbt_write_file a CONNECTION_HANDOVER_MESSAGE_CONFIRMATION_OFFSET = IFX_SUCCESS →
       cipher_cmac B (replicate 16 0x00) (oob_message a oob) = Some tag →
       (ble_callback P B a (BTM_SMP_SC_LOCAL_OOB_DATA_NOTIFICATION_EVT oob) w).1.1
       = Returned WICED_BT_SUCCESS).
Proof.
  split.
  - intros status w mac pre post Haddr Hmsg w'. subst w'.
    unfold ble_callback.
    destruct (ble_enabled P a status w) as [r we] eqn:He. world_simpl.
    revert He. unfold ble_enabled.
    destruct (wiced_ok status); cbn [negb].
    2: { intros [= <- <-]. rewrite drop_ge by lia. by destruct pre. }
    destruct (wiced_ok (ans_set_local_bdaddr a)); cbn [negb].
    2: { intros [= <- <-]. world_simpl. rewrite <- app_assoc, drop_app_length.
         intros Hpre. by destruct pre as [|? [|? [|? ?]]]. }
    match goal with
    | |- context [callback_mac_address_changed a ?m _] => set (mac_address := m)
    end.
    assert (length mac_address = BD_ADDR_LEN) as Hmac by (by apply length_ble_mac_address).
    destruct (callback_mac_address_changed a mac_address _) as [st w1] eqn:Hcb.
    pose proof (callback_mac_address_changed_message a mac_address
                  (called (wiced_bt_set_local_bdaddr mac_address)
                     (called Cy_SysLib_GetUniqueId w)) Hmac) as Hslice.
    apply (f_equal (λ m, slice m CONNECTION_HANDOVER_MESSAGE_MAC_OFFSET BD_ADDR_LEN))
      in Hslice.
    rewrite slice_reversed_mac in Hslice by done. rewrite Hcb in Hslice.
    change (CONNECTION_HANDOVER_MESSAGE (st, w1).2) with (snapshot w1) in Hslice.
    unfold callback_mac_address_changed in Hcb. world_simpl. injection Hcb as <- Hw1.
    destruct (ans_nbt_write_file a CONNECTION_HANDOVER_MESSAGE_MAC_OFFSET) eqn:Hpush;
      cbn [ifx_error_check].
    2: { intros [= <- <-]. subst w1. world_simpl. rewrite <- !app_assoc, drop_app_length.
         intros Hpre. by destruct pre as [|? [|? [|? [|? [|? ?]]]]]. }
    intros He.
    destruct (ble_enabled_configure_frame a mac_address w1) as (Hkeep & l & Htrace & Hoob).
    rewrite He in Hkeep, Htrace. world_simpl.
    rewrite Htrace, <- Hw1. world_simpl. rewrite <- !app_assoc, drop_app_length.
    cbn [app]. intros Hsplit.
    change (?c1 :: ?c2 :: ?c3 :: l) with ([c1; c2; c3] ++ l) in Hsplit.
    apply split_after_prefix in Hsplit as (rest & -> & ->).
    2: { rewrite !elem_of_cons, elem_of_nil. intuition congruence. }
    assert (mac = mac_address) as ->.
    { apply Hoob. rewrite elem_of_app, elem_of_cons. auto. }
    subst w1. unfold snapshot in *. world_simpl. rewrite Hkeep, Hslice.
    split; [done|]. split; [done|].
    rewrite elem_of_app, !elem_of_cons. auto.
  - intros oob w tag H96 H78 Htag. unfold cipher_cmac in Htag.
    unfold ble_callback, ble_oob_data, callback_sc_random_value_changed,
      callback_sc_confirmation_value_changed. world_simpl.
    rewrite H96. cbn [ifx_error_check].
    destruct (oob_cmac_prepare B _ _) as [c|]; [|discriminate Htag]. simpl in Htag.
    rewrite Htag. world_simpl. rewrite H78. reflexivity.
Qed.

Lemma oob_requested_after_address_push_witness :
  nbt_write_file CONNECTION_HANDOVER_MESSAGE_MAC_OFFSET
    (reverse [0x00; 0xA0; 0x50; 0x89; 0x67; 0x45])
  ∈ [ Cy_SysLib_GetUniqueId;
      wiced_bt_set_local_bdaddr [0x00; 0xA0; 0x50; 0x89; 0x67; 0x45];
      nbt_write_file 39 [0x45; 0x67; 0x89; 0x50; 0xA0; 0x00];
      mtb_kvstore_read "bonding" false;
      wiced_bt_set_pairable_mode;
      wiced_bt_ble_set_raw_advertisement_data;
      wiced_bt_gatt_register;
      wiced_bt_gatt_db_init ]
  ∧ misordered_run.1.1 = Returned WICED_BT_SUCCESS.
Proof.
  destruct (oob_requested_after_address_push sample_platform AES_CMAC.backend all_ok)
    as [Henable Hoob].
  split.
  - apply (Henable WICED_BT_SUCCESS boot_world [0x00; 0xA0; 0x50; 0x89; 0x67; 0x45] _
             [wiced_bt_start_advertisements BTM_BLE_ADVERT_UNDIRECTED_HIGH]).
    + apply le_n.
    + reflexivity.
    + reflexivity.
  - apply (Hoob scenario_A_oob boot_world
             [0xa1; 0xf5; 0x5f; 0x00; 0x42; 0x82; 0xdb; 0x4e;
              0x9c; 0xf2; 0x12; 0xa3; 0xa2; 0xf0; 0xf2; 0x65]); reflexivity.
Defined.

(** ** The bonding record *)

(** Only the key update and the enable case assign the link keys. *)
Lemma ble_callback_keeps_link_keys (P : platform) (B : cipher_backend) (a : answers)
    (event : wiced_bt_management_evt_t) (w : world) :
  sets_link_keys event = false →
  device_link_keys (bonding_info (ble_callback P B a event w).2)
  = device_link_keys (bonding_info w).
Proof.
  destruct event; try discriminate; intros _; unfold ble_callback; world_simpl;
    try reflexivity.
  all: try (by repeat (case_match; world_simpl)).
  assert (bonding_info (ble_oob_data B a p_smp_sc_local_oob_data w).2 = bonding_info w) as Hoob.
  { unfold ble_oob_data, callback_sc_random_value_changed,
      callback_sc_confirmation_value_changed. world_simpl.
    by repeat (case_match; world_simpl). }
  destruct (ble_oob_data B a p_smp_sc_local_oob_data w) as [r w1].
  cbn [snd] in *. by rewrite Hoob.
Qed.

Lemma ble_run_keeps_link_keys (P : platform) (B : cipher_backend)
    (events : list (answers * wiced_bt_management_evt_t)) (w : world) :
  Forall (λ e, sets_link_keys e.2 = false) events →
  device_link_keys (bonding_info (ble_run P B events w)) = device_link_keys (bonding_info w).
Proof.
  intros Hev. revert w. induction Hev as [|[a event] events Hkeep _ IH]; intros w; [done|].
  cbn [ble_run]. pose proof (ble_callback_keeps_link_keys P B a event w Hkeep) as Hstep.
  destruct (ble_callback P B a event w) as [[[r|] out] w1]; cbn [snd] in Hstep.
  - by rewrite IH.
  - done.
Qed.

Lemma gatt_callback_keeps_bonding_info (P : platform) (a : answers)
    (event : wiced_bt_gatt_evt_t) (w : world) :
  bonding_info (gatt_callback P a event w).2 = bonding_info w.
Proof.
  destruct event as [connected id|req|code]; unfold gatt_callback.
  - destruct connected; [done|]. unfold do_start_advertisements. by destruct (wiced_ok _).
  - destruct (opcode req); cbn [snd]; try done.
    + destruct (handle2attr w (read_req_handle req)) as [[i attribute]|]; [|done].
      unfold gatt_read_attribute. by destruct (_ >=? _).
    + destruct (handle2attr w (read_req_handle req)) as [[i attribute]|]; [|done].
      unfold gatt_read_attribute. by destruct (_ >=? _).
    + destruct (handle2attr w (write_req_handle req)) as [[i attribute]|]; [|done].
      unfold gatt_write_attribute, do_kvstore_write. destruct (_ >? _); [done|].
      destruct (_ && _); [destruct (cy_ok _)|]; done.
    + destruct (handle2attr w (write_req_handle req)) as [[i attribute]|]; [|done].
      unfold gatt_write_attribute, do_kvstore_write. destruct (_ >? _); [done|].
      destruct (_ && _); [destruct (cy_ok _)|]; done.
  - done.
Qed.

(** A step that is not among those of [assigns_link_keys] leaves the link
    keys as they are. *)
Lemma app_step_keeps_link_keys (P : platform) (B : cipher_backend) (s : app_step) (w : world) :
  assigns_link_keys s w = false →
  device_link_keys (bonding_info (app_step_run P B s w).2) = device_link_keys (bonding_info w).
Proof.
  destruct s as [a event|a event|a pressed|]; cbn [assigns_link_keys app_step_run]; intros Hs.
  - pose proof (ble_callback_keeps_link_keys P B a event w Hs) as Hkeep.
    by destruct (ble_callback P B a event w) as [[[r|] out] w'].
  - cbn [snd]. by rewrite gatt_callback_keeps_bonding_info.
  - destruct pressed; [done|]. cbn [snd]. unfold btn_task.
    destruct (btn_released w); [done|].
    unfold ble_gatt_send_hid_update. by destruct (negb _).
  - done.
Qed.

Lemma app_run_keeps_link_keys (P : platform) (B : cipher_backend) (steps : list app_step)
    (w : world) :
  link_keys_left_alone P B steps w = true →
  device_link_keys (bonding_info (app_run P B steps w)) = device_link_keys (bonding_info w).
Proof.
  revert w. induction steps as [|s steps IH]; intros w; [done|].
  cbn [link_keys_left_alone app_run]. intros [Hs Hrest]%andb_true_iff.
  apply negb_true_iff in Hs.
  pose proof (app_step_keeps_link_keys P B s w Hs) as Hstep.
  destruct (app_step_run P B s w) as [[|] w']; cbn [snd] in Hstep.
  - by rewrite IH.
  - done.
Qed.

(** C6, as worded, fails.  The request returns what is in RAM, and that is
    not always what the last key update put there.  After an update with
    [scenario_B_keys], pairing completion, a long click and a new pairing
    completion, the request succeeds and returns zeroed keys.  After a later
    update with [scenario_B_later_keys] and an enable event, it succeeds and
    returns the stored [scenario_B_keys]. *)
Lemma peer_keys_not_of_last_update :
  (ble_callback sample_platform AES_CMAC.backend all_ok
     BTM_PAIRED_DEVICE_LINK_KEYS_REQUEST_EVT reset_then_paired).1
  = (Returned WICED_BT_SUCCESS,
     out_paired_device_link_keys_request
       {| bd_addr := replicate 6 0; key_data := replicate 16 0 |})
  ∧ {| bd_addr := replicate 6 0; key_data := replicate 16 0 |} ≠ scenario_B_keys
  ∧ (ble_callback sample_platform AES_CMAC.backend all_ok
       BTM_PAIRED_DEVICE_LINK_KEYS_REQUEST_EVT updated_then_enabled).1
    = (Returned WICED_BT_SUCCESS, out_paired_device_link_keys_request scenario_B_keys)
  ∧ scenario_B_keys ≠ scenario_B_later_keys.
Proof. repeat split; (by vm_compute) || (intros Heq; vm_compute in Heq; discriminate Heq). Qed.

(** C6, amended: a peer-keys request fails exactly when
    [bonding_info.bonded] is false; when a device is bonded it succeeds and
    hands back the link keys held in RAM; the request changes nothing in the
    state.  The keys held in RAM are those of the last key update as long as
    the program has since taken no step that assigns them: no further
    update, no enable event (which reloads the record from the store) and no
    long click (which resets the bonding and zeroes them).  Management
    events, attribute-server events, short clicks, presses and timer periods
    in any order leave them alone. *)
Theorem peer_keys_request (P : platform) (B : cipher_backend) (a : answers) (w : world) :
  let res := ble_callback P B a BTM_PAIRED_DEVICE_LINK_KEYS_REQUEST_EVT w in
  res.2 = w
  ∧ (res.1.1 = Returned WICED_BT_ERROR ↔ bonded (bonding_info w) = false)
  ∧ (res.1.1 = Returned WICED_BT_SUCCESS ↔ bonded (bonding_info w) = true)
  ∧ (bonded (bonding_info w) = true →
     res.1.2 = out_paired_device_link_keys_request (device_link_keys (bonding_info w)))
  ∧ (∀ (a' : answers) (keys : wiced_bt_device_link_keys_t) (steps : list app_step),
       let w1 := (ble_callback P B a' (BTM_PAIRED_DEVICE_LINK_KEYS_UPDATE_EVT keys) w).2 in
       link_keys_left_alone P B steps w1 = true →
       let w' := app_run P B steps w1 in
       device_link_keys (bonding_info w') = keys
       ∧ (bonded (bonding_info w') = true →
          (ble_callback P B a BTM_PAIRED_DEVICE_LINK_KEYS_REQUEST_EVT w').1
          = (Returned WICED_BT_SUCCESS, out_paired_device_link_keys_request keys))).
Proof.
  cbv zeta. unfold ble_callback at 1 2 3 4.
  destruct (bonded (bonding_info w)) eqn:Hb; cbn [negb fst snd];
    (split; [reflexivity|]); (split; [split; congruence|]); (split; [split; congruence|]);
    (split; [congruence|]).
  all: intros a' keys steps Hquiet; rewrite app_run_keeps_link_keys by done;
    split; [reflexivity|]; intros Hb'; unfold ble_callback at 1; rewrite Hb';
    cbn [negb fst]; by rewrite app_run_keeps_link_keys.
Qed.

Lemma peer_keys_request_witness :
  (ble_callback sample_platform AES_CMAC.backend all_ok BTM_PAIRED_DEVICE_LINK_KEYS_REQUEST_EVT
     (app_run sample_platform AES_CMAC.backend
        [ management_event all_ok BTM_PAIRING_COMPLETE_EVT;
          gatt_event all_ok (GATT_CONNECTION_STATUS_EVT true 1);
          gatt_event all_ok (GATT_ATTRIBUTE_REQUEST_EVT subscribe_request);
          button_edge all_ok true; timer_period; timer_period; button_edge all_ok false;
          management_event all_ok (BTM_ENCRYPTION_STATUS_EVT (bd_addr scenario_B_keys)) ]
        (ble_callback sample_platform AES_CMAC.backend all_ok
           (BTM_PAIRED_DEVICE_LINK_KEYS_UPDATE_EVT scenario_B_keys) boot_world).2)).1
  = (Returned WICED_BT_SUCCESS, out_paired_device_link_keys_request scenario_B_keys).
Proof.
  destruct (peer_keys_request sample_platform AES_CMAC.backend all_ok boot_world)
    as (_ & _ & _ & _ & Hafter).
  refine (proj2 (Hafter all_ok scenario_B_keys _ _) _).
  - reflexivity.
  - reflexivity.
Defined.

(** Scenario B: without a bond the request fails; once pairing has completed
    it returns the keys of the last update. *)
Example scenario_B :
  (ble_callback sample_platform AES_CMAC.backend all_ok
     BTM_PAIRED_DEVICE_LINK_KEYS_REQUEST_EVT boot_world).1
  = (Returned WICED_BT_ERROR, out_none)
  ∧ (ble_callback sample_platform AES_CMAC.backend all_ok
       BTM_PAIRED_DEVICE_LINK_KEYS_REQUEST_EVT scenario_B_paired).1
    = (Returned WICED_BT_SUCCESS, out_paired_device_link_keys_request scenario_B_keys).
Proof. split; reflexivity. Qed.

(** ** The button task *)

(** While the product fits in 32 bits, a release resets the bonding exactly
    when the press lasted longer than 5000 ms. *)
Lemma btn_released_in_range (w : world) :
  let press_duration := to_uint32 (elapsed_periods w - press_start w) in
  press_duration * PERIOD_LENGTH_MS < 2 ^ 32 →
  btn_released w = call_ble_clear_bonding_info ↔ press_duration * PERIOD_LENGTH_MS > 5000.
Proof.
  intros d Hfit. unfold btn_released. fold d.
  assert (0 ≤ d) as Hd by (apply Z.mod_pos_bound; lia).
  unfold to_uint32 at 1. rewrite Z.mod_small by (unfold PERIOD_LENGTH_MS in *; lia).
  destruct (Z.gtb_spec (d * PERIOD_LENGTH_MS) 5000); split; try done; lia.
Qed.

(** Scenario C: a 6000 ms hold resets the bonding, a 200 ms hold sends the
    notification. *)
Example scenario_C :
  btn_released (set_elapsed_periods 60 boot_world) = call_ble_clear_bonding_info
  ∧ btn_released (set_elapsed_periods 2 boot_world) = call_ble_gatt_send_hid_update.
Proof. split; reflexivity. Qed.

(** C7 at its failing input: a release 42949673 periods after the press.
    The elapsed time, 4294967300 ms, exceeds 5000 ms, but the 32-bit product
    wraps to 4 and the task sends the notification instead of resetting the
    bonding. *)
Theorem btn_released_product_wraps :
  (elapsed_periods long_hold - press_start long_hold) * PERIOD_LENGTH_MS = 4294967300
  ∧ to_uint32 (to_uint32 (elapsed_periods long_hold - press_start long_hold)
               * PERIOD_LENGTH_MS) = 4
  ∧ btn_released long_hold = call_ble_gatt_send_hid_update
  ∧ btn_task sample_platform all_ok false long_hold
    = ble_gatt_send_hid_update sample_platform long_hold.
Proof. repeat split. Qed.

(** ** Resetting the bonding *)

Lemma ble_clear_bonding_info_stack (a : answers) (w : world) :
  advertising (ble_clear_bonding_info a w)
  = (if wiced_ok (ans_start_advertisements a BTM_BLE_ADVERT_OFF)
     then if wiced_ok (ans_start_advertisements a BTM_BLE_ADVERT_UNDIRECTED_HIGH)
          then BTM_BLE_ADVERT_UNDIRECTED_HIGH else BTM_BLE_ADVERT_OFF
     else advertising w)
  ∧ resolution_list (ble_clear_bonding_info a w)
    = (if wiced_ok (ans_start_advertisements a BTM_BLE_ADVERT_OFF)
          && wiced_ok (ans_resolution_list_clear a)
       then [] else resolution_list w).
Proof.
  unfold ble_clear_bonding_info. world_simpl.
  by repeat (case_match; world_simpl).
Qed.

(** With no active bond a reset touches neither the record nor the store. *)
Lemma ble_clear_bonding_info_unbonded (a : answers) (w : world) :
  bonded (bonding_info w) = false →
  bonding_info (ble_clear_bonding_info a w) = bonding_info w
  ∧ data_storage (ble_clear_bonding_info a w) = data_storage w.
Proof.
  intros Hb. unfold ble_clear_bonding_info. world_simpl.
  destruct (wiced_ok (ans_start_advertisements a BTM_BLE_ADVERT_OFF)); world_simpl; [|done].
  rewrite Hb. by repeat (case_match; world_simpl).
Qed.

(** C8, as worded, fails: after a reset with no active bond (advertising is
    on again), a second reset during which the stack refuses to restart
    advertising ends with advertising off. *)
Lemma second_reset_changes_advertising :
  bonded (bonding_info (ble_clear_bonding_info all_ok boot_world)) = false
  ∧ advertising (ble_clear_bonding_info all_ok boot_world) = BTM_BLE_ADVERT_UNDIRECTED_HIGH
  ∧ advertising (ble_clear_bonding_info restart_refused
                   (ble_clear_bonding_info all_ok boot_world)) = BTM_BLE_ADVERT_OFF
  ∧ end_state (ble_clear_bonding_info restart_refused
                 (ble_clear_bonding_info all_ok boot_world))
    ≠ end_state (ble_clear_bonding_info all_ok boot_world).
Proof. repeat split. intros Heq. vm_compute in Heq. discriminate Heq. Qed.

(** C8, amended: when the first reset leaves no active bond and the stack
    answers the stop-advertising, clear-resolution-list and start-advertising
    commands of the second reset as it answered those of the first, the
    second reset ends in the same state (bonding record in RAM, store
    contents, resolution list, advertising mode) as the first.  The function
    returns nothing: a refused command is logged, not reported. *)
Theorem ble_clear_bonding_info_idempotent (a1 a2 : answers) (w : world) :
  same_stack_answers a1 a2 →
  bonded (bonding_info (ble_clear_bonding_info a1 w)) = false →
  end_state (ble_clear_bonding_info a2 (ble_clear_bonding_info a1 w))
  = end_state (ble_clear_bonding_info a1 w).
Proof.
  intros (Hstop & Hclear & Hstart) Hb. unfold end_state.
  destruct (ble_clear_bonding_info_unbonded a2 _ Hb) as [-> ->].
  destruct (ble_clear_bonding_info_stack a2 (ble_clear_bonding_info a1 w)) as [-> ->].
  destruct (ble_clear_bonding_info_stack a1 w) as [Hadv Hlist].
  rewrite <- Hstop, <- Hclear, <- Hstart.
  f_equal; [f_equal|].
  - rewrite Hlist. by repeat case_match.
  - rewrite Hadv. by repeat case_match.
Qed.

Lemma ble_clear_bonding_info_idempotent_witness :
  end_state (ble_clear_bonding_info all_ok (ble_clear_bonding_info all_ok scenario_B_paired))
  = end_state (ble_clear_bonding_info all_ok scenario_B_paired).
Proof.
  apply (ble_clear_bonding_info_idempotent all_ok all_ok scenario_B_paired).
  - repeat split.
  - reflexivity.
Defined.

(** ** Notifications *)

Lemma gatt_array_set_gatt_array (p : nat) (v : list Z) (w : world) :
  gatt_array (set_gatt_array p v w) p = v.
Proof. unfold gatt_array, set_gatt_array. world_simpl. by rewrite lookup_insert_eq. Qed.

Lemma gatt_array_set_gatt_array_ne (p q : nat) (v : list Z) (w : world) :
  p ≠ q → gatt_array (set_gatt_array p v w) q = gatt_array w q.
Proof.
  intros Hpq. unfold gatt_array, set_gatt_array. world_simpl. by rewrite lookup_insert_ne.
Qed.

Lemma gatt_array_called (c : call) (w : world) (p : nat) :
  gatt_array (called c w) p = gatt_array w p.
Proof. reflexivity. Qed.

(** C9, as worded, fails: with the peer subscribed and then disconnected
    ([connection_id] is 0), the function is not a no-op; it hands the stack
    the two notifications, addressed to connection 0. *)
Lemma send_hid_update_without_connection :
  connection_id subscribed_disconnected = 0
  ∧ trace (ble_gatt_send_hid_update sample_platform subscribed_disconnected)
    = trace subscribed_disconnected ++
      [ wiced_bt_gatt_server_send_notification 0 0x0010 1 [0x01];
        vTaskDelay_ms 30;
        wiced_bt_gatt_server_send_notification 0 0x0010 1 [0x00] ]
  ∧ ble_gatt_send_hid_update sample_platform subscribed_disconnected
    ≠ subscribed_disconnected.
Proof.
  split; [reflexivity|]. split; [reflexivity|].
  intros Heq. apply (f_equal (λ w, length (trace w))) in Heq.
  vm_compute in Heq. discriminate Heq.
Qed.

(** C9, amended: [ble_gatt_send_hid_update] hands the stack a notification
    with the report's first byte set to 0x01, waits 30 ms and hands it a
    second one with that byte back at 0x00, both addressed to the current
    [connection_id], exactly when the notification bit of the first byte of
    the live HID report client configuration is set; when the bit is clear it
    changes nothing.  It does not look at [connection_id]: with no peer
    connected the notifications are addressed to connection 0. *)
Theorem ble_gatt_send_hid_update_calls (P : platform) (w : world) :
  let subscribed :=
    negb (Z.land (byte_at (gatt_array w app_hids_report_client_char_config) 0)
                 (GATT_CLIENT_CONFIG_NOTIFICATION P) =? 0) in
  let report := gatt_array w app_hids_report in
  let w' := ble_gatt_send_hid_update P w in
  if subscribed
  then
    trace w' = trace w ++
      [ wiced_bt_gatt_server_send_notification (connection_id w) (HDLC_HIDS_REPORT_VALUE P)
          (app_hids_report_len P) (<[0%nat := 0x01]> report);
        vTaskDelay_ms 30;
        wiced_bt_gatt_server_send_notification (connection_id w) (HDLC_HIDS_REPORT_VALUE P)
          (app_hids_report_len P) (<[0%nat := 0x00]> report) ]
    ∧ gatt_array w' app_hids_report = <[0%nat := 0x00]> report
    ∧ connection_id w' = connection_id w
    ∧ cccd w' = cccd w
  else w' = w.
Proof.
  cbv zeta. unfold ble_gatt_send_hid_update.
  destruct (negb _); [|reflexivity].
  unfold send_hid_report.
  repeat (rewrite ?gatt_array_called, ?gatt_array_set_gatt_array).
  rewrite list_insert_insert_eq.
  cbn [trace called set_gatt_array set_gatt_arrays connection_id cccd].
  rewrite <- !app_assoc. done.
Qed.

(** ** Writes to the attribute table *)

Lemma handle2attr_from_handle (tbl : list gatt_db_lookup_table_t) (i0 i : nat) (h : Z)
    (row : gatt_db_lookup_table_t) :
  handle2attr_from tbl i0 h = Some (i, row) → handle row = h.
Proof.
  revert i0. induction tbl as [|r tbl IH]; intros i0; simpl; [done|].
  destruct (Z.eqb_spec h (handle r)); [by intros [= <- <-]|apply IH].
Qed.

(** Two bytes, low byte first, as a 16-bit value. *)
Lemma uint16_of_bytes (b0 b1 : Z) :
  byte_ok b0 → byte_ok b1 →
  to_uint16 (Z.lor (Z.shiftl b1 8) b0) = b0 + 256 * b1.
Proof.
  unfold byte_ok, to_uint16. intros H0 H1.
  rewrite <- Z.add_nocarry_lor.
  - rewrite Z.shiftl_mul_pow2 by lia. rewrite Z.mod_small; lia.
  - apply Z.bits_inj'. intros n Hn. rewrite Z.land_spec, Z.bits_0.
    destruct (Z.ltb_spec n 8).
    + by rewrite Z.shiftl_spec_low.
    + rewrite <- (Z.mod_small b0 (2 ^ 8)) by lia.
      rewrite Z.mod_pow2_bits_high by lia. apply andb_false_r.
Qed.

(** C10, as worded, fails: a write of three bytes to the descriptor, whose
    row holds at most two, is refused with an invalid-length status and
    [cccd] keeps its value instead of taking the value of the first two
    bytes. *)
Lemma long_write_leaves_cccd :
  handle2attr boot_world (write_req_handle long_write_request)
  = Some (1%nat, {| handle := HDLD_HIDS_REPORT_CLIENT_CHAR_CONFIG sample_platform;
                    max_len := 2; cur_len := 2;
                    p_data := app_hids_report_client_char_config |})
  ∧ write_req_p_val long_write_request = [0x01; 0x00; 0x00]
  ∧ gatt_callback sample_platform all_ok (GATT_ATTRIBUTE_REQUEST_EVT long_write_request)
      boot_world
    = (WICED_BT_GATT_INVALID_ATTR_LEN, boot_world)
  ∧ cccd boot_world = 0
  ∧ cccd boot_world ≠ 0x01 + 256 * 0x00.
Proof. repeat split. intros Heq. vm_compute in Heq. discriminate Heq. Qed.

(** C10, amended: a write request leaves [cccd] unchanged when its handle is
    not in the table, when it resolves to an attribute other than the HID
    report client configuration descriptor, when it carries fewer than two
    bytes, and when it carries more bytes than the row's [max_len] (the write
    is then refused); a write of at least two and at most [max_len] bytes to
    the descriptor sets [cccd] to the first written byte plus 256 times the
    second. *)
Theorem gatt_write_cccd (P : platform) (a : answers) (req : wiced_bt_gatt_attribute_request_t)
    (w : world) :
  opcode req = GATT_REQ_WRITE ∨ opcode req = GATT_CMD_WRITE →
  let w' := (gatt_callback P a (GATT_ATTRIBUTE_REQUEST_EVT req) w).2 in
  let val := write_req_p_val req in
  match handle2attr w (write_req_handle req) with
  | Some (i, attribute) =>
      if bool_decide (write_req_handle req = HDLD_HIDS_REPORT_CLIENT_CHAR_CONFIG P)
         && (2 <=? Z.of_nat (length val)) && (Z.of_nat (length val) <=? max_len attribute)
      then
        bytes_ok val →
        max_len attribute ≤ Z.of_nat (length (gatt_array w (p_data attribute))) →
        cccd w' = byte_at val 0 + 256 * byte_at val 1
      else cccd w' = cccd w
  | None => cccd w' = cccd w
  end.
Proof.
  intros Hop. cbv zeta.
  assert ((gatt_callback P a (GATT_ATTRIBUTE_REQUEST_EVT req) w).2
          = match handle2attr w (write_req_handle req) with
            | Some (i, attribute) => (gatt_write_attribute P a req i attribute w).2
            | None => called (wiced_bt_gatt_server_send_error_rsp (conn_id req)
                                (write_req_handle req) WICED_BT_GATT_INVALID_HANDLE) w
            end) as ->.
  { unfold gatt_callback. destruct Hop as [-> | ->];
      by destruct (handle2attr w (write_req_handle req)) as [[i attribute]|]. }
  destruct (handle2attr w (write_req_handle req)) as [[i attribute]|] eqn:Hrow; [|reflexivity].
  apply handle2attr_from_handle in Hrow.
  unfold gatt_write_attribute.
  assert ((Z.of_nat (length (write_req_p_val req)) <=? max_len attribute)
          = negb (Z.of_nat (length (write_req_p_val req)) >? max_len attribute)) as ->.
  { destruct (Z.leb_spec (Z.of_nat (length (write_req_p_val req))) (max_len attribute)),
      (Z.gtb_spec (Z.of_nat (length (write_req_p_val req))) (max_len attribute));
      (done || lia). }
  destruct (Z.gtb_spec (Z.of_nat (length (write_req_p_val req))) (max_len attribute))
    as [Hlong|Hfits]; cbn [negb].
  { by rewrite andb_false_r. }
  rewrite andb_true_r.
  cbn [handle cur_len p_data set_cur_len]. rewrite Hrow, Z.geb_leb.
  destruct (Z.eqb_spec (write_req_handle req) (HDLD_HIDS_REPORT_CLIENT_CHAR_CONFIG P))
    as [Hcccd|Hother].
  2: { rewrite bool_decide_eq_false_2 by done. reflexivity. }
  rewrite bool_decide_eq_true_2 by done. cbn [andb].
  destruct (Z.leb_spec 2 (Z.of_nat (length (write_req_p_val req)))) as [Hlen|Hshort];
    [|reflexivity].
  intros Hbytes Harray.
  rewrite gatt_array_set_gatt_array.
  unfold do_kvstore_write.
  destruct (cy_ok (ans_kvstore_write a "cccd"));
    cbn [negb snd cccd called log set_data_storage set_cccd].
  all: change (gatt_array (set_app_gatt_db_ext_attr_tbl _ w) (p_data attribute))
         with (gatt_array w (p_data attribute)).
  all: set (old := gatt_array _ _) in *.
  all: assert (∀ j : nat, (j < 2)%nat →
            byte_at (memcpy old 0 (write_req_p_val req) (length (write_req_p_val req))) j
            = byte_at (write_req_p_val req) j) as Hcopy
    by (intros j Hj; unfold byte_at, memcpy; rewrite firstn_all;
        change j with (0 + j)%nat at 1; rewrite store_bytes_lookup_inside; [done| |]; lia).
  all: rewrite !Hcopy by lia.
  all: assert (∀ j : nat, byte_ok (byte_at (write_req_p_val req) j)) as Hok
    by (intros j; unfold byte_at; destruct (write_req_p_val req !! j) as [b|] eqn:Hb;
        [eapply Forall_lookup_1; [exact Hbytes|exact Hb] | cbn; unfold byte_ok; lia]).
  all: by apply uint16_of_bytes.
Qed.

Lemma gatt_write_cccd_witness :
  cccd (gatt_callback sample_platform all_ok (GATT_ATTRIBUTE_REQUEST_EVT subscribe_request)
          boot_world).2
  = 0x01 + 256 * 0x00.
Proof.
  refine (gatt_write_cccd sample_platform all_ok subscribe_request boot_world
            (or_introl eq_refl) _ _).
  - repeat constructor; unfold byte_ok; lia.
  - vm_compute. discriminate.
Defined.

(** ** The message keeps its length

    Every theorem above that assumes the message has the length of the
    skeleton applies to every state the handlers can reach from start-up. *)

Lemma length_memcpy (dst src : list Z) (off n : nat) :
  length (memcpy dst off src n) = length dst.
Proof. apply length_store_bytes. Qed.

Lemma callback_mac_address_changed_length (a : answers) (mac : list Z) (w : world) :
  length (CONNECTION_HANDOVER_MESSAGE (callback_mac_address_changed a mac w).2)
  = length (CONNECTION_HANDOVER_MESSAGE w).
Proof.
  unfold callback_mac_address_changed, do_nbt_write_file.
  cbn [snd CONNECTION_HANDOVER_MESSAGE called set_CONNECTION_HANDOVER_MESSAGE].
  generalize (CONNECTION_HANDOVER_MESSAGE w). generalize (seq 0 BD_ADDR_LEN).
  intros l. induction l as [|i l IH]; intros msg; [done|].
  cbn [foldl]. by rewrite IH, length_insert.
Qed.

Lemma ble_oob_data_length (B : cipher_backend) (a : answers)
    (oob : wiced_bt_smp_sc_local_oob_t) (w : world) :
  length (CONNECTION_HANDOVER_MESSAGE (ble_oob_data B a oob w).2)
  = length (CONNECTION_HANDOVER_MESSAGE w).
Proof.
  unfold ble_oob_data, callback_sc_random_value_changed,
    callback_sc_confirmation_value_changed. world_simpl.
  repeat (case_match; world_simpl); by rewrite ?length_memcpy.
Qed.

Lemma ble_enabled_length (P : platform) (a : answers) (status : wiced_result_t) (w : world) :
  length (CONNECTION_HANDOVER_MESSAGE (ble_enabled P a status w).2)
  = length (CONNECTION_HANDOVER_MESSAGE w).
Proof.
  unfold ble_enabled.
  destruct (wiced_ok status); cbn [negb]; [|done].
  destruct (wiced_ok (ans_set_local_bdaddr a)); cbn [negb]; [|done].
  match goal with
  | |- context [callback_mac_address_changed a ?m ?w0] =>
      pose proof (callback_mac_address_changed_length a m w0) as Hlen;
      destruct (callback_mac_address_changed a m w0) as [st w1];
      set (mac_address := m) in *
  end.
  cbn [snd] in Hlen. world_simpl.
  destruct (ifx_error_check st); world_simpl; [done|].
  destruct (ble_enabled_configure_frame a mac_address w1) as [-> _]. done.
Qed.

Lemma ble_callback_length (P : platform) (B : cipher_backend) (a : answers)
    (event : wiced_bt_management_evt_t) (w : world) :
  length (CONNECTION_HANDOVER_MESSAGE (ble_callback P B a event w).2)
  = length (CONNECTION_HANDOVER_MESSAGE w).
Proof.
  destruct event; unfold ble_callback; world_simpl; try reflexivity.
  all: try (by repeat (case_match; world_simpl)).
  - pose proof (ble_enabled_length P a status w) as Hlen.
    by destruct (ble_enabled P a status w).
  - pose proof (ble_oob_data_length B a p_smp_sc_local_oob_data w) as Hlen.
    by destruct (ble_oob_data B a p_smp_sc_local_oob_data w).
Qed.

Lemma ble_run_length (P : platform) (B : cipher_backend)
    (events : list (answers * wiced_bt_management_evt_t)) (w : world) :
  length (CONNECTION_HANDOVER_MESSAGE (ble_run P B events w))
  = length (CONNECTION_HANDOVER_MESSAGE w).
Proof.
  revert w. induction events as [|[a event] events IH]; intros w; [done|].
  cbn [ble_run]. pose proof (ble_callback_length P B a event w) as Hstep.
  destruct (ble_callback P B a event w) as [[[r|] out] w1]; cbn [snd] in Hstep.
  - by rewrite IH.
  - done.
Qed.

(** * Further properties of the code *)

(** ** Looking up attributes *)

Lemma handle2attr_from_spec (tbl : list gatt_db_lookup_table_t) (i0 : nat) (h : Z) :
  match handle2attr_from tbl i0 h with
  | Some (i, row) =>
      ∃ k : nat, i = (i0 + k)%nat ∧ tbl !! k = Some row ∧ handle row = h
                 ∧ ∀ (j : nat) r, (j < k)%nat → tbl !! j = Some r → handle r ≠ h
  | None => ∀ (j : nat) r, tbl !! j = Some r → handle r ≠ h
  end.
Proof.
  revert i0. induction tbl as [|r0 tbl IH]; intros i0; simpl; [done|].
  destruct (Z.eqb_spec h (handle r0)) as [->|Hne].
  - exists 0%nat. repeat split; [lia|]. intros j r Hj. lia.
  - specialize (IH (S i0)). destruct (handle2attr_from tbl (S i0) h) as [[i row]|].
    + destruct IH as (k & -> & Hk & Hh & Hfirst). exists (S k).
      repeat split; [lia|done|done|].
      intros [|j] r Hj; simpl; [by intros [= <-]|]. apply Hfirst. lia.
    + intros [|j] r; simpl; [by intros [= <-]|]. apply IH.
Qed.

Lemma handle2attr_found (w : world) (h : Z) (i : nat) (row : gatt_db_lookup_table_t) :
  handle2attr w h = Some (i, row) →
  app_gatt_db_ext_attr_tbl w !! i = Some row ∧ handle row = h.
Proof.
  unfold handle2attr. intros Hrow.
  pose proof (handle2attr_from_spec (app_gatt_db_ext_attr_tbl w) 0 h) as Hspec.
  rewrite Hrow in Hspec. by destruct Hspec as (k & -> & Hk & Hh & _).
Qed.

(** X1: [handle2attr] returns the first row of the table that carries the
    handle, together with its index, and [NULL] exactly when no row carries
    it. *)
Theorem handle2attr_first_match (w : world) (h : Z) :
  match handle2attr w h with
  | Some (i, row) =>
      app_gatt_db_ext_attr_tbl w !! i = Some row ∧ handle row = h
      ∧ ∀ (j : nat) r, (j < i)%nat → app_gatt_db_ext_attr_tbl w !! j = Some r → handle r ≠ h
  | None => ∀ r, r ∈ app_gatt_db_ext_attr_tbl w → handle r ≠ h
  end.
Proof.
  unfold handle2attr.
  pose proof (handle2attr_from_spec (app_gatt_db_ext_attr_tbl w) 0 h) as Hspec.
  destruct (handle2attr_from _ 0 h) as [[i row]|].
  - destruct Hspec as (k & -> & Hk & Hh & Hfirst). done.
  - intros r [j Hj]%list_elem_of_lookup. by eapply Hspec.
Qed.

(** Replacing the row that was found by one with the same handle does not
    change what the lookup finds. *)
Lemma handle2attr_from_insert (tbl : list gatt_db_lookup_table_t) (i0 k : nat) (h : Z)
    (row row' : gatt_db_lookup_table_t) :
  handle2attr_from tbl i0 h = Some ((i0 + k)%nat, row) →
  handle row' = handle row →
  handle2attr_from (<[k := row']> tbl) i0 h = Some ((i0 + k)%nat, row').
Proof.
  revert i0 k. induction tbl as [|r0 tbl IH]; intros i0 k; simpl; [done|].
  destruct (Z.eqb_spec h (handle r0)) as [->|Hne].
  - intros [= Hk <-] Hh. assert (k = 0%nat) as -> by lia. simpl.
    rewrite Hh, Z.eqb_refl. by rewrite Nat.add_0_r.
  - intros Hfind Hh. destruct k as [|k].
    + pose proof (handle2attr_from_spec tbl (S i0) h) as Hspec. rewrite Hfind in Hspec.
      destruct Hspec as (k & Hk & _). lia.
    + simpl. destruct (Z.eqb_spec h (handle r0)); [done|].
      replace (i0 + S k)%nat with (S i0 + k)%nat in * by lia. by apply IH.
Qed.

(** Replacing a row by one with the same handle does not change at which
    index any handle is found. *)
Lemma handle2attr_from_insert_index (tbl : list gatt_db_lookup_table_t) (i0 k : nat) (h : Z)
    (row row' : gatt_db_lookup_table_t) :
  tbl !! k = Some row →
  handle row' = handle row →
  fst <$> handle2attr_from (<[k := row']> tbl) i0 h = fst <$> handle2attr_from tbl i0 h.
Proof.
  revert i0 k. induction tbl as [|r0 tbl IH]; intros i0 k; simpl; [done|].
  destruct k as [|k]; simpl.
  - intros [= ->] ->. by destruct (h =? handle row).
  - intros Hk Hh. destruct (h =? handle r0); [done|]. by apply IH.
Qed.

(** ** Reading and writing attributes *)

(** X2: a read request (plain or blob) for a handle that no row carries is
    answered with an invalid-handle error, and one whose offset is at or past
    the row's current length with an invalid-offset error; in both cases the
    error response is the only effect.  In particular an attribute of current
    length 0 cannot be read at all. *)
Theorem gatt_read_rejected (P : platform) (a : answers)
    (req : wiced_bt_gatt_attribute_request_t) (w : world) :
  opcode req = GATT_REQ_READ ∨ opcode req = GATT_REQ_READ_BLOB →
  match handle2attr w (read_req_handle req) with
  | None =>
      gatt_callback P a (GATT_ATTRIBUTE_REQUEST_EVT req) w
      = (WICED_BT_GATT_INVALID_HANDLE,
         called (wiced_bt_gatt_server_send_error_rsp (conn_id req) (read_req_handle req)
                   WICED_BT_GATT_INVALID_HANDLE) w)
  | Some (_, attribute) =>
      cur_len attribute ≤ read_req_offset req →
      gatt_callback P a (GATT_ATTRIBUTE_REQUEST_EVT req) w
      = (WICED_BT_GATT_INVALID_OFFSET,
         called (wiced_bt_gatt_server_send_error_rsp (conn_id req) (read_req_handle req)
                   WICED_BT_GATT_INVALID_OFFSET) w)
  end.
Proof.
  intros Hop.
  assert (gatt_callback P a (GATT_ATTRIBUTE_REQUEST_EVT req) w
          = match handle2attr w (read_req_handle req) with
            | None => (WICED_BT_GATT_INVALID_HANDLE,
                       called (wiced_bt_gatt_server_send_error_rsp (conn_id req)
                                 (read_req_handle req) WICED_BT_GATT_INVALID_HANDLE) w)
            | Some (_, attribute) => gatt_read_attribute a req attribute w
            end) as ->.
  { unfold gatt_callback. by destruct Hop as [-> | ->]. }
  destruct (handle2attr w (read_req_handle req)) as [[i attribute]|]; [|done].
  intros Hoff. unfold gatt_read_attribute.
  destruct (Z.geb_spec (read_req_offset req) (cur_len attribute)); [done|lia].
Qed.

Lemma gatt_read_rejected_witness :
  gatt_callback sample_platform all_ok
    (GATT_ATTRIBUTE_REQUEST_EVT
       {| conn_id := 1; opcode := GATT_REQ_READ; len_requested := 2;
          read_req_handle := 0x0011; read_req_offset := 2;
          write_req_handle := 0; write_req_p_val := []; remote_mtu := 0 |}) boot_world
  = (WICED_BT_GATT_INVALID_OFFSET,
     called (wiced_bt_gatt_server_send_error_rsp 1 0x0011 WICED_BT_GATT_INVALID_OFFSET)
       boot_world).
Proof.
  refine (gatt_read_rejected sample_platform all_ok
            {| conn_id := 1; opcode := GATT_REQ_READ; len_requested := 2;
               read_req_handle := 0x0011; read_req_offset := 2;
               write_req_handle := 0; write_req_p_val := []; remote_mtu := 0 |}
            boot_world (or_introl eq_refl) _).
  cbn. lia.
Defined.

(** X3: an accepted read returns exactly [min(len_requested, cur_len -
    offset)] bytes, the bytes of the row's array from [offset] on; it never
    returns a byte at or past the row's current length, and it changes
    nothing but the trace. *)
Theorem gatt_read_in_bounds (P : platform) (a : answers)
    (req : wiced_bt_gatt_attribute_request_t) (w : world) (i : nat)
    (attribute : gatt_db_lookup_table_t) :
  opcode req = GATT_REQ_READ ∨ opcode req = GATT_REQ_READ_BLOB →
  handle2attr w (read_req_handle req) = Some (i, attribute) →
  attribute_fits w attribute →
  0 ≤ read_req_offset req < cur_len attribute →
  0 ≤ len_requested req < 2 ^ 16 →
  let n := Z.min (len_requested req) (cur_len attribute - read_req_offset req) in
  let data := slice (gatt_array w (p_data attribute))
                    (Z.to_nat (read_req_offset req)) (Z.to_nat n) in
  gatt_callback P a (GATT_ATTRIBUTE_REQUEST_EVT req) w
  = (ans_send_read_handle_rsp a,
     called (wiced_bt_gatt_server_send_read_handle_rsp (conn_id req) n data) w)
  ∧ Z.of_nat (length data) = n
  ∧ read_req_offset req + n ≤ cur_len attribute.
Proof.
  intros Hop Hrow (Hcur & Hmax & Harr) Hoff Hlen n data.
  assert (0 ≤ n ∧ n < 2 ^ 16 ∧ read_req_offset req + n ≤ cur_len attribute)
    as (Hn0 & Hn1 & Hn2) by (unfold n; lia).
  split; [|split; [|done]].
  - unfold gatt_callback.
    destruct Hop as [Hop | Hop]; rewrite Hop, Hrow; unfold gatt_read_attribute;
      (destruct (Z.geb_spec (read_req_offset req) (cur_len attribute)); [lia|]);
      fold n; unfold to_uint16; rewrite Z.mod_small by lia; reflexivity.
  - unfold data. rewrite length_slice; lia.
Qed.

Lemma gatt_read_in_bounds_witness :
  gatt_callback sample_platform all_ok
    (GATT_ATTRIBUTE_REQUEST_EVT
       {| conn_id := 1; opcode := GATT_REQ_READ_BLOB; len_requested := 20;
          read_req_handle := 0x0011; read_req_offset := 1;
          write_req_handle := 0; write_req_p_val := []; remote_mtu := 0 |})
    subscribed_disconnected
  = (WICED_BT_GATT_SUCCESS,
     called (wiced_bt_gatt_server_send_read_handle_rsp 1 1 [0x00]) subscribed_disconnected).
Proof.
  refine (proj1 (gatt_read_in_bounds sample_platform all_ok
            {| conn_id := 1; opcode := GATT_REQ_READ_BLOB; len_requested := 20;
               read_req_handle := 0x0011; read_req_offset := 1;
               write_req_handle := 0; write_req_p_val := []; remote_mtu := 0 |}
            subscribed_disconnected 1%nat
            {| handle := 0x0011; max_len := 2; cur_len := 2;
               p_data := app_hids_report_client_char_config |}
            (or_intror eq_refl) eq_refl _ _ _)).
  - repeat split; by vm_compute.
  - split; by vm_compute.
  - split; by vm_compute.
Defined.

(** The state an accepted write leaves behind. *)
Lemma gatt_write_attribute_accepted (P : platform) (a : answers)
    (req : wiced_bt_gatt_attribute_request_t) (i : nat) (attribute : gatt_db_lookup_table_t)
    (w : world) :
  Z.of_nat (length (write_req_p_val req)) ≤ max_len attribute →
  let res := gatt_write_attribute P a req i attribute w in
  res.1 = ans_send_write_rsp a
  ∧ app_gatt_db_ext_attr_tbl res.2
    = <[i := set_cur_len (Z.of_nat (length (write_req_p_val req))) attribute]>
        (app_gatt_db_ext_attr_tbl w)
  ∧ gatt_arrays res.2
    = <[p_data attribute :=
          store_bytes (gatt_array w (p_data attribute)) 0 (write_req_p_val req)]>
        (gatt_arrays w)
  ∧ CONNECTION_HANDOVER_MESSAGE res.2 = CONNECTION_HANDOVER_MESSAGE w
  ∧ bonding_info res.2 = bonding_info w
  ∧ connection_id res.2 = connection_id w.
Proof.
  intros Hfits. cbv zeta. unfold gatt_write_attribute.
  destruct (Z.gtb_spec (Z.of_nat (length (write_req_p_val req))) (max_len attribute));
    [lia|].
  unfold memcpy. rewrite firstn_all.
  destruct (_ && _); world_simpl; [destruct (cy_ok _); world_simpl|]; done.
Qed.

Lemma gatt_callback_write (P : platform) (a : answers)
    (req : wiced_bt_gatt_attribute_request_t) (w : world) :
  opcode req = GATT_REQ_WRITE ∨ opcode req = GATT_CMD_WRITE →
  gatt_callback P a (GATT_ATTRIBUTE_REQUEST_EVT req) w
  = match handle2attr w (write_req_handle req) with
    | Some (i, attribute) => gatt_write_attribute P a req i attribute w
    | None => (WICED_BT_GATT_INVALID_HANDLE,
               called (wiced_bt_gatt_server_send_error_rsp (conn_id req)
                         (write_req_handle req) WICED_BT_GATT_INVALID_HANDLE) w)
    end.
Proof. intros [Hop | Hop]; unfold gatt_callback; by rewrite Hop. Qed.

Lemma gatt_callback_read (P : platform) (a : answers)
    (req : wiced_bt_gatt_attribute_request_t) (w : world) :
  opcode req = GATT_REQ_READ ∨ opcode req = GATT_REQ_READ_BLOB →
  gatt_callback P a (GATT_ATTRIBUTE_REQUEST_EVT req) w
  = match handle2attr w (read_req_handle req) with
    | Some (_, attribute) => gatt_read_attribute a req attribute w
    | None => (WICED_BT_GATT_INVALID_HANDLE,
               called (wiced_bt_gatt_server_send_error_rsp (conn_id req)
                         (read_req_handle req) WICED_BT_GATT_INVALID_HANDLE) w)
    end.
Proof. intros [Hop | Hop]; unfold gatt_callback; by rewrite Hop. Qed.

(** X4: what an accepted write stored is what a following read returns: after
    a write of a non-empty value that fits the row, a read of the same handle
    at offset 0 that asks for at least as many bytes is answered with exactly
    the written bytes. *)
Theorem gatt_write_then_read (P : platform) (a a' : answers)
    (req rreq : wiced_bt_gatt_attribute_request_t) (w : world) (i : nat)
    (attribute : gatt_db_lookup_table_t) :
  opcode req = GATT_REQ_WRITE ∨ opcode req = GATT_CMD_WRITE →
  opcode rreq = GATT_REQ_READ ∨ opcode rreq = GATT_REQ_READ_BLOB →
  handle2attr w (write_req_handle req) = Some (i, attribute) →
  attribute_fits w attribute →
  read_req_handle rreq = write_req_handle req →
  read_req_offset rreq = 0 →
  0 < Z.of_nat (length (write_req_p_val req)) ≤ max_len attribute →
  Z.of_nat (length (write_req_p_val req)) ≤ len_requested rreq < 2 ^ 16 →
  let w1 := (gatt_callback P a (GATT_ATTRIBUTE_REQUEST_EVT req) w).2 in
  gatt_callback P a' (GATT_ATTRIBUTE_REQUEST_EVT rreq) w1
  = (ans_send_read_handle_rsp a',
     called (wiced_bt_gatt_server_send_read_handle_rsp (conn_id rreq)
               (Z.of_nat (length (write_req_p_val req))) (write_req_p_val req)) w1).
Proof.
  intros Hwop Hrop Hrow (Hcur & Hmax & Harr) Hh Hoff Hval Hreq w1.
  assert (handle2attr w1 (read_req_handle rreq)
          = Some (i, set_cur_len (Z.of_nat (length (write_req_p_val req))) attribute)
          ∧ gatt_array w1 (p_data attribute)
            = store_bytes (gatt_array w (p_data attribute)) 0 (write_req_p_val req))
    as [Hrow1 Harr1].
  { unfold w1. rewrite gatt_callback_write, Hrow by done.
    destruct (gatt_write_attribute_accepted P a req i attribute w) as (_ & Htbl & Harrs & _);
      [lia|].
    split.
    - unfold handle2attr in *. rewrite Htbl, Hh.
      apply (handle2attr_from_insert _ 0 i _ attribute); done.
    - unfold gatt_array at 1. rewrite Harrs. by rewrite lookup_insert_eq. }
  rewrite gatt_callback_read, Hrow1 by done.
  unfold gatt_read_attribute. cbn [cur_len p_data set_cur_len]. rewrite Hoff.
  destruct (Z.geb_spec 0 (Z.of_nat (length (write_req_p_val req)))); [lia|].
  rewrite Z.sub_0_r, Z.min_r by lia.
  unfold to_uint16. rewrite Z.mod_small by lia.
  rewrite Nat2Z.id, Harr1. cbn [Z.to_nat drop].
  do 3 f_equal.
  change (take ?n ?l) with (slice l 0 n). apply slice_store_bytes. lia.
Qed.

Lemma gatt_write_then_read_witness :
  gatt_callback sample_platform all_ok
    (GATT_ATTRIBUTE_REQUEST_EVT
       {| conn_id := 1; opcode := GATT_REQ_READ; len_requested := 2;
          read_req_handle := 0x0011; read_req_offset := 0;
          write_req_handle := 0; write_req_p_val := []; remote_mtu := 0 |})
    (gatt_callback sample_platform all_ok (GATT_ATTRIBUTE_REQUEST_EVT subscribe_request)
       boot_world).2
  = (WICED_BT_GATT_SUCCESS,
     called (wiced_bt_gatt_server_send_read_handle_rsp 1 2 [0x01; 0x00])
       (gatt_callback sample_platform all_ok (GATT_ATTRIBUTE_REQUEST_EVT subscribe_request)
          boot_world).2).
Proof.
  refine (gatt_write_then_read sample_platform all_ok all_ok subscribe_request
            {| conn_id := 1; opcode := GATT_REQ_READ; len_requested := 2;
               read_req_handle := 0x0011; read_req_offset := 0;
               write_req_handle := 0; write_req_p_val := []; remote_mtu := 0 |}
            boot_world 1%nat
            {| handle := 0x0011; max_len := 2; cur_len := 2;
               p_data := app_hids_report_client_char_config |}
            (or_introl eq_refl) (or_introl eq_refl) eq_refl _ eq_refl eq_refl _ _).
  - repeat split; by vm_compute.
  - split; by vm_compute.
  - split; by vm_compute.
Defined.

(** X5: an accepted write to a row that fits its array touches one row and
    one array only: the table keeps its length, every other row and every
    other array is unchanged, every handle is still found at the same index,
    the written row's array starts with the written bytes, keeps its size
    (nothing is written past it) and keeps the values of its bytes after the
    written ones.  A write longer than the row's maximum changes nothing at
    all. *)
Theorem gatt_write_frame (P : platform) (a : answers)
    (req : wiced_bt_gatt_attribute_request_t) (w : world) (i : nat)
    (attribute : gatt_db_lookup_table_t) :
  opcode req = GATT_REQ_WRITE ∨ opcode req = GATT_CMD_WRITE →
  handle2attr w (write_req_handle req) = Some (i, attribute) →
  attribute_fits w attribute →
  let w' := (gatt_callback P a (GATT_ATTRIBUTE_REQUEST_EVT req) w).2 in
  let n := length (write_req_p_val req) in
  if Z.of_nat n >? max_len attribute
  then w' = w
  else
    length (app_gatt_db_ext_attr_tbl w') = length (app_gatt_db_ext_attr_tbl w)
    ∧ (∀ j : nat, j ≠ i → app_gatt_db_ext_attr_tbl w' !! j = app_gatt_db_ext_attr_tbl w !! j)
    ∧ (∀ h, fst <$> handle2attr w' h = fst <$> handle2attr w h)
    ∧ (∀ p : nat, p ≠ p_data attribute → gatt_array w' p = gatt_array w p)
    ∧ take n (gatt_array w' (p_data attribute)) = write_req_p_val req
    ∧ length (gatt_array w' (p_data attribute)) = length (gatt_array w (p_data attribute))
    ∧ (∀ j : nat, (n ≤ j)%nat →
         gatt_array w' (p_data attribute) !! j = gatt_array w (p_data attribute) !! j).
Proof.
  intros Hop Hrow (_ & _ & Harr). cbv zeta. rewrite gatt_callback_write, Hrow by done.
  destruct (Z.gtb_spec (Z.of_nat (length (write_req_p_val req))) (max_len attribute))
    as [Hlong|Hfits].
  { unfold gatt_write_attribute.
    destruct (Z.gtb_spec (Z.of_nat (length (write_req_p_val req))) (max_len attribute));
      [done|lia]. }
  destruct (gatt_write_attribute_accepted P a req i attribute w Hfits)
    as (_ & Htbl & Harrs & _).
  destruct (handle2attr_found w _ _ _ Hrow) as (Hi & _).
  split; [by rewrite Htbl, length_insert|].
  split; [intros j Hj; rewrite Htbl; by apply list_lookup_insert_ne|].
  split; [intros h; unfold handle2attr; rewrite Htbl;
          by apply (handle2attr_from_insert_index _ 0 i h attribute)|].
  split; [intros p Hp; unfold gatt_array; rewrite Harrs; by rewrite lookup_insert_ne|].
  assert (gatt_array (gatt_write_attribute P a req i attribute w).2 (p_data attribute)
          = store_bytes (gatt_array w (p_data attribute)) 0 (write_req_p_val req)) as ->.
  { unfold gatt_array at 1. by rewrite Harrs, lookup_insert_eq. }
  split.
  { apply (slice_store_bytes (write_req_p_val req) (gatt_array w (p_data attribute)) 0).
    lia. }
  split; [apply length_store_bytes|].
  intros j Hj. apply store_bytes_lookup_outside. lia.
Qed.

Lemma gatt_write_frame_witness :
  length (app_gatt_db_ext_attr_tbl
            (gatt_callback sample_platform all_ok (GATT_ATTRIBUTE_REQUEST_EVT subscribe_request)
               boot_world).2) = 2%nat.
Proof.
  pose proof (gatt_write_frame sample_platform all_ok subscribe_request boot_world 1%nat
                {| handle := 0x0011; max_len := 2; cur_len := 2;
                   p_data := app_hids_report_client_char_config |}
                (or_introl eq_refl) eq_refl
                ltac:(repeat split; by vm_compute)) as Hframe.
  cbv zeta in Hframe. exact (proj1 Hframe).
Defined.

(** ** Connections and advertising *)

(** X6: advertising is restarted on an advertising-off report exactly when no
    connection is recorded.  After a connect event with a non-zero
    connection id the report changes nothing; after a disconnect event the
    report makes the stack start undirected advertising again and its answer
    is what the callback returns; a report of any other advertising state
    changes nothing. *)
Theorem advertising_restart_follows_connection (P : platform) (B : cipher_backend)
    (a a' : answers) (w : world) :
  (∀ id : Z, id ≠ 0 →
     let w1 := (gatt_callback P a (GATT_CONNECTION_STATUS_EVT true id) w).2 in
     connection_id w1 = id
     ∧ ble_callback P B a' (BTM_BLE_ADVERT_STATE_CHANGED_EVT BTM_BLE_ADVERT_OFF) w1
       = (Returned WICED_BT_SUCCESS, out_none, w1))
  ∧ (∀ id : Z,
       let w1 := (gatt_callback P a (GATT_CONNECTION_STATUS_EVT false id) w).2 in
       let res := ble_callback P B a' (BTM_BLE_ADVERT_STATE_CHANGED_EVT BTM_BLE_ADVERT_OFF) w1 in
       connection_id w1 = 0
       ∧ res.1.1 = Returned (ans_start_advertisements a' BTM_BLE_ADVERT_UNDIRECTED_HIGH)
       ∧ trace res.2
         = trace w ++ [ wiced_bt_start_advertisements BTM_BLE_ADVERT_UNDIRECTED_HIGH;
                        wiced_bt_start_advertisements BTM_BLE_ADVERT_UNDIRECTED_HIGH ])
  ∧ (∀ state : wiced_bt_ble_advert_mode_t, state ≠ BTM_BLE_ADVERT_OFF →
       ble_callback P B a' (BTM_BLE_ADVERT_STATE_CHANGED_EVT state) w
       = (Returned WICED_BT_SUCCESS, out_none, w)).
Proof.
  split; [|split].
  - intros id Hid. cbv zeta. unfold gatt_callback, ble_callback. world_simpl.
    split; [done|]. rewrite bool_decide_eq_true_2 by done.
    destruct (Z.eqb_spec id 0); done.
  - intros id. cbv zeta. unfold gatt_callback, ble_callback. world_simpl.
    destruct (wiced_ok (ans_start_advertisements a BTM_BLE_ADVERT_UNDIRECTED_HIGH));
      world_simpl; (split; [done|]); rewrite bool_decide_eq_true_2 by done;
      cbn [andb Z.eqb]; world_simpl;
      destruct (wiced_ok (ans_start_advertisements a' BTM_BLE_ADVERT_UNDIRECTED_HIGH));
      world_simpl; by rewrite <- app_assoc.
  - intros state Hstate. unfold ble_callback. by rewrite bool_decide_eq_false_2.
Qed.

(** ** What is kept in the store *)

Lemma cccd_bytes_round_trip (c : Z) :
  0 ≤ c < 2 ^ 16 → cccd_of_bytes (cccd_bytes c) = c.
Proof.
  intros Hc. change (2 ^ 16) with 65536 in Hc.
  unfold cccd_of_bytes, cccd_bytes, byte_at. cbn [lookup list_lookup default].
  assert (0 ≤ c / 256 < 256) as Hhigh
    by (split; [apply Z.div_pos; lia|apply Z.div_lt_upper_bound; lia]).
  rewrite (Z.mod_small (c / 256)) by lia.
  pose proof (Z.div_mod c 256 ltac:(lia)). unfold id. lia.
Qed.

Lemma bonding_info_bytes_round_trip (b : bonding_info_t) :
  length (bd_addr (device_link_keys b)) = BD_ADDR_LEN →
  bonding_info_of_bytes (bonding_info_bytes b) = Some b.
Proof.
  intros Haddr. destruct b as [[addr keys] flag].
  cbn [device_link_keys bd_addr key_data bonded] in *.
  unfold bonding_info_of_bytes, bonding_info_bytes.
  cbn [device_link_keys bd_addr key_data bonded].
  rewrite <- Haddr, drop_app_length, take_app_length, reverse_app, reverse_singleton.
  cbn [app]. rewrite reverse_involutive. by destruct flag.
Qed.

(** The bytes a write leaves at the start of an array that holds them. *)
Lemma byte_at_store_bytes (arr val : list Z) (k : nat) :
  (length val ≤ length arr)%nat → (k < length val)%nat →
  byte_at (store_bytes arr 0 val) k = byte_at val k.
Proof.
  intros Hfit Hk. unfold byte_at.
  pose proof (store_bytes_lookup_inside val arr 0 k) as Hin. cbn [Nat.add] in Hin.
  by rewrite Hin by lia.
Qed.

(** X7: a write of at least two bytes that the descriptor row, which fits
    its array, accepts is mirrored into the store.  [cccd] in RAM gets the
    little-endian value of the first two written bytes whatever the store
    answers; when the store accepts the write, the blob kept under "cccd"
    reads back as that value; when the store refuses it, the store keeps
    what it had; in both cases the peer gets the stack's write response. *)
Theorem cccd_write_is_persisted (P : platform) (a : answers)
    (req : wiced_bt_gatt_attribute_request_t) (w : world) (i : nat)
    (attribute : gatt_db_lookup_table_t) :
  opcode req = GATT_REQ_WRITE ∨ opcode req = GATT_CMD_WRITE →
  handle2attr w (write_req_handle req) = Some (i, attribute) →
  attribute_fits w attribute →
  write_req_handle req = HDLD_HIDS_REPORT_CLIENT_CHAR_CONFIG P →
  2 ≤ Z.of_nat (length (write_req_p_val req)) ≤ max_len attribute →
  let res := gatt_callback P a (GATT_ATTRIBUTE_REQUEST_EVT req) w in
  res.1 = ans_send_write_rsp a
  ∧ (if cy_ok (ans_kvstore_write a "cccd")
     then cccd_of_bytes <$> data_storage res.2 !! "cccd" = Some (cccd res.2)
     else data_storage res.2 = data_storage w)
  ∧ cccd res.2
    = to_uint16 (Z.lor (Z.shiftl (byte_at (write_req_p_val req) 1) 8)
                       (byte_at (write_req_p_val req) 0)).
Proof.
  intros Hop Hrow (_ & _ & Harr) Hh Hlen. cbv zeta.
  rewrite gatt_callback_write, Hrow by done.
  destruct (handle2attr_found w _ _ _ Hrow) as (_ & Hhandle).
  unfold gatt_write_attribute.
  destruct (Z.gtb_spec (Z.of_nat (length (write_req_p_val req))) (max_len attribute));
    [lia|].
  cbn [handle cur_len p_data set_cur_len]. rewrite Hhandle, Hh, Z.eqb_refl.
  destruct (Z.geb_spec (Z.of_nat (length (write_req_p_val req))) 2); [|lia].
  cbn [andb]. unfold do_kvstore_write.
  assert (∀ w0 : world,
            gatt_array w0 (p_data attribute) = gatt_array w (p_data attribute) →
            to_uint16
              (Z.lor (Z.shiftl (byte_at (memcpy (gatt_array w0 (p_data attribute)) 0
                                           (write_req_p_val req)
                                           (length (write_req_p_val req))) 1) 8)
                     (byte_at (memcpy (gatt_array w0 (p_data attribute)) 0
                                 (write_req_p_val req) (length (write_req_p_val req))) 0))
            = to_uint16 (Z.lor (Z.shiftl (byte_at (write_req_p_val req) 1) 8)
                               (byte_at (write_req_p_val req) 0))) as Hbytes.
  { intros w0 ->. unfold memcpy. rewrite firstn_all.
    rewrite !byte_at_store_bytes by lia. done. }
  destruct (cy_ok (ans_kvstore_write a "cccd")); cbn [negb]; world_simpl.
  - split; [done|]. rewrite lookup_insert_eq. cbn [fmap option_fmap option_map].
    split.
    + f_equal. apply cccd_bytes_round_trip. apply Z.mod_pos_bound. lia.
    + rewrite gatt_array_set_gatt_array. by apply Hbytes.
  - split; [done|]. split; [done|].
    rewrite gatt_array_set_gatt_array. by apply Hbytes.
Qed.

Lemma cccd_write_is_persisted_witness :
  cccd_of_bytes <$>
    data_storage (gatt_callback sample_platform all_ok
                    (GATT_ATTRIBUTE_REQUEST_EVT subscribe_request) boot_world).2 !! "cccd"
  = Some 1.
Proof.
  pose proof (cccd_write_is_persisted sample_platform all_ok subscribe_request boot_world 1%nat
                {| handle := 0x0011; max_len := 2; cur_len := 2;
                   p_data := app_hids_report_client_char_config |}
                (or_introl eq_refl) eq_refl ltac:(repeat split; by vm_compute) eq_refl
                (conj (Z.le_refl 2) (Z.le_refl 2))) as (_ & Hstore & _).
  exact Hstore.
Defined.

(** X8: pairing completion marks the record in RAM as bonded and keeps its
    keys, whatever the store answers.  The callback reports an error exactly
    when the store refuses the record; when the store accepts it, the blob
    kept under "bonding" reads back as the record in RAM; when it refuses,
    the store is unchanged, so RAM and store disagree. *)
Theorem pairing_complete_persists (P : platform) (B : cipher_backend) (a : answers) (w : world) :
  length (bd_addr (device_link_keys (bonding_info w))) = BD_ADDR_LEN →
  let res := ble_callback P B a BTM_PAIRING_COMPLETE_EVT w in
  bonding_info res.2
  = {| device_link_keys := device_link_keys (bonding_info w); bonded := true |}
  ∧ (res.1.1 = Returned WICED_BT_ERROR ↔ ans_kvstore_write a "bonding" ≠ CY_RSLT_SUCCESS)
  ∧ (res.1.1 = Returned WICED_BT_SUCCESS ↔ ans_kvstore_write a "bonding" = CY_RSLT_SUCCESS)
  ∧ (if cy_ok (ans_kvstore_write a "bonding")
     then data_storage res.2 !! "bonding" ≫= bonding_info_of_bytes = Some (bonding_info res.2)
     else data_storage res.2 = data_storage w).
Proof.
  intros Haddr. cbv zeta. unfold ble_callback, do_kvstore_write, cy_ok. world_simpl.
  case_bool_decide as Hok; cbn [negb]; world_simpl.
  - split; [done|]. split; [split; [done|congruence]|]. split; [done|].
    rewrite lookup_insert_eq. cbn [mbind option_bind].
    by apply bonding_info_bytes_round_trip.
  - split; [done|]. split; [done|]. split; [split; [done|congruence]|]. done.
Qed.

Lemma pairing_complete_persists_witness :
  data_storage scenario_B_paired !! "bonding" ≫= bonding_info_of_bytes
  = Some {| device_link_keys := scenario_B_keys; bonded := true |}.
Proof.
  pose proof (pairing_complete_persists sample_platform AES_CMAC.backend all_ok
                (ble_callback sample_platform AES_CMAC.backend all_ok
                   (BTM_PAIRED_DEVICE_LINK_KEYS_UPDATE_EVT scenario_B_keys) boot_world).2
                eq_refl) as (_ & _ & _ & Hstore).
  exact Hstore.
Defined.

(** ** Answers of the libraries *)

Lemma cy_ok_true (r : cy_rslt_t) : cy_ok r = true ↔ r = CY_RSLT_SUCCESS.
Proof. unfold cy_ok. apply bool_decide_eq_true. Qed.

Lemma wiced_ok_true (r : wiced_result_t) : wiced_ok r = true ↔ r = WICED_BT_SUCCESS.
Proof. unfold wiced_ok. apply bool_decide_eq_true. Qed.

Lemma gatt_ok_true (r : wiced_bt_gatt_status_t) : gatt_ok r = true ↔ r = WICED_BT_GATT_SUCCESS.
Proof. unfold gatt_ok. apply bool_decide_eq_true. Qed.

(** The calls a notification adds to the trace. *)
Lemma ble_gatt_send_hid_update_trace (P : platform) (w : world) :
  (if negb (Z.land (byte_at (gatt_array w app_hids_report_client_char_config) 0)
                   (GATT_CLIENT_CONFIG_NOTIFICATION P) =? 0)
   then trace (ble_gatt_send_hid_update P w)
        = trace w ++
          [ wiced_bt_gatt_server_send_notification (connection_id w) (HDLC_HIDS_REPORT_VALUE P)
              (app_hids_report_len P) (<[0%nat := 0x01]> (gatt_array w app_hids_report));
            vTaskDelay_ms 30;
            wiced_bt_gatt_server_send_notification (connection_id w) (HDLC_HIDS_REPORT_VALUE P)
              (app_hids_report_len P) (<[0%nat := 0x00]> (gatt_array w app_hids_report)) ]
   else ble_gatt_send_hid_update P w = w).
Proof.
  unfold ble_gatt_send_hid_update.
  destruct (negb _); [|reflexivity].
  unfold send_hid_report.
  repeat (rewrite ?gatt_array_called, ?gatt_array_set_gatt_array).
  rewrite list_insert_insert_eq.
  cbn [trace called set_gatt_array set_gatt_arrays connection_id cccd].
  rewrite <- !app_assoc. done.
Qed.

(** X9: the identity keys go through the store.  An update always replaces
    the copy in RAM and reports success exactly when the store accepts the
    blob; a request that follows an accepted update succeeds (when both reads
    succeed) with the same keys in RAM; a request on a store that holds no
    identity keys fails and leaves the copy in RAM alone.  The request case
    writes nothing back into the event data. *)
Theorem identity_keys_round_trip (P : platform) (B : cipher_backend) (a a' : answers)
    (keys : list Z) (w : world) :
  let r1 := ble_callback P B a (BTM_LOCAL_IDENTITY_KEYS_UPDATE_EVT keys) w in
  local_identity_keys r1.2 = keys
  ∧ (r1.1.1 = Returned WICED_BT_SUCCESS ↔ ans_kvstore_write a "identity_keys" = CY_RSLT_SUCCESS)
  ∧ (ans_kvstore_write a "identity_keys" = CY_RSLT_SUCCESS →
     ans_kvstore_read a' "identity_keys" true = CY_RSLT_SUCCESS →
     ans_kvstore_read a' "identity_keys" false = CY_RSLT_SUCCESS →
     let r2 := ble_callback P B a' BTM_LOCAL_IDENTITY_KEYS_REQUEST_EVT r1.2 in
     r2.1 = (Returned WICED_BT_SUCCESS, out_none) ∧ local_identity_keys r2.2 = keys)
  ∧ (data_storage w !! "identity_keys" = None →
     let r2 := ble_callback P B a' BTM_LOCAL_IDENTITY_KEYS_REQUEST_EVT w in
     r2.1 = (Returned WICED_BT_ERROR, out_none)
     ∧ local_identity_keys r2.2 = local_identity_keys w
     ∧ data_storage r2.2 = data_storage w).
Proof.
  cbv zeta. split; [|split; [|split]].
  - unfold ble_callback. world_simpl. by destruct (cy_ok _).
  - unfold ble_callback. world_simpl. rewrite <- cy_ok_true.
    destruct (cy_ok _); cbn [negb fst]; split; congruence.
  - intros Hw%cy_ok_true Hr1%cy_ok_true Hr2%cy_ok_true.
    unfold ble_callback. world_simpl. rewrite Hw, Hr1, Hr2. cbn [negb]. world_simpl.
    by rewrite !(lookup_insert_eq (data_storage w)).
  - intros Hnone. unfold ble_callback. world_simpl. rewrite Hnone.
    by destruct (cy_ok _).
Qed.

Lemma identity_keys_round_trip_witness :
  (ble_callback sample_platform AES_CMAC.backend all_ok BTM_LOCAL_IDENTITY_KEYS_REQUEST_EVT
     boot_world).1
  = (Returned WICED_BT_ERROR, out_none).
Proof.
  pose proof (identity_keys_round_trip sample_platform AES_CMAC.backend all_ok all_ok
                [] boot_world) as (_ & _ & _ & Hmissing).
  exact (proj1 (Hmissing eq_refl)).
Defined.

(** X10: when encryption is reported for the bonded peer (the first six
    address bytes agree), the low byte of [cccd] is written into the first
    byte of the live client configuration; for any other peer, or with no
    bond, nothing changes.  So after that event a click is notified exactly
    when the restored [cccd] has the notification bit. *)
Theorem encryption_status_reapplies_cccd (P : platform) (B : cipher_backend) (a : answers)
    (peer : list Z) (w : world) :
  let res := ble_callback P B a (BTM_ENCRYPTION_STATUS_EVT peer) w in
  let config := gatt_array w app_hids_report_client_char_config in
  res.1 = (Returned WICED_BT_SUCCESS, out_none)
  ∧ (if bonded (bonding_info w)
        && bool_decide (take BD_ADDR_LEN peer
                        = take BD_ADDR_LEN (bd_addr (device_link_keys (bonding_info w))))
     then
       res.2 = set_gatt_array app_hids_report_client_char_config
                 (<[0%nat := cccd w mod 256]> config) w
       ∧ ((0 < length config)%nat →
          0 ≤ GATT_CLIENT_CONFIG_NOTIFICATION P < 256 →
          (ble_gatt_send_hid_update P res.2 = res.2
           ↔ Z.land (cccd w) (GATT_CLIENT_CONFIG_NOTIFICATION P) = 0))
     else res.2 = w).
Proof.
  cbv zeta. unfold ble_callback.
  destruct (_ && _); [|done]. cbn [fst snd]. split; [done|]. split; [done|].
  intros Hlen Hmask.
  set (w' := set_gatt_array _ _ w).
  assert (Z.land (byte_at (gatt_array w' app_hids_report_client_char_config) 0)
                 (GATT_CLIENT_CONFIG_NOTIFICATION P)
          = Z.land (cccd w) (GATT_CLIENT_CONFIG_NOTIFICATION P)) as Hbit.
  { unfold w'. rewrite gatt_array_set_gatt_array. unfold byte_at.
    rewrite list_lookup_insert_eq by done. cbn [default from_option id].
    unfold to_uint8. change (2 ^ 8) with (2 ^ 8). rewrite <- Z.land_ones by lia.
    rewrite <- Z.land_assoc. f_equal.
    rewrite Z.land_comm, Z.land_ones by lia. apply Z.mod_small. lia. }
  pose proof (ble_gatt_send_hid_update_trace P w') as Htrace.
  unfold ble_gatt_send_hid_update in *. rewrite Hbit in *.
  destruct (Z.eqb_spec (Z.land (cccd w) (GATT_CLIENT_CONFIG_NOTIFICATION P)) 0) as [Hz|Hnz];
    cbn [negb] in *.
  - done.
  - split; [|done]. intros Heq. apply (f_equal (λ w0, length (trace w0))) in Heq.
    rewrite Htrace, length_app in Heq. cbn in Heq. lia.
Qed.

(** ** The enable case and the store *)

Lemma ble_enabled_accepted (P : platform) (a : answers) (status : wiced_result_t) (w : world) :
  enable_accepted a status →
  ble_enabled P a status w
  = ble_enabled_configure a (enabled_mac_address P a)
      (callback_mac_address_changed a (enabled_mac_address P a)
         (called (wiced_bt_set_local_bdaddr (enabled_mac_address P a))
            (called Cy_SysLib_GetUniqueId w))).2.
Proof.
  intros (-> & Haddr & Hpush). unfold ble_enabled. fold (enabled_mac_address P a).
  rewrite Haddr. change (wiced_ok WICED_BT_SUCCESS) with true. cbn [negb].
  destruct (callback_mac_address_changed a _ _) as [st w1] eqn:Hcb.
  assert (st = IFX_SUCCESS) as ->.
  { unfold callback_mac_address_changed, do_nbt_write_file in Hcb. congruence. }
  done.
Qed.

(** What the enable case reloads once the address is set. *)
Lemma ble_enabled_configure_restore (P : platform) (a : answers) (mac : list Z) (w : world) :
  let w' := (ble_enabled_configure a mac w).2 in
  data_storage w' = data_storage w
  ∧ match stored a "bonding" w ≫= bonding_info_of_bytes with
    | Some b =>
        bonding_info w' = b
        ∧ (if bonded b
           then resolution_list w' = resolution_list w ++ [device_link_keys b]
                ∧ cccd w' = from_option cccd_of_bytes (cccd w) (stored a "cccd" w)
           else resolution_list w' = resolution_list w ∧ cccd w' = cccd w)
    | None =>
        bonding_info w' = bonding_info w ∧ resolution_list w' = resolution_list w
        ∧ cccd w' = cccd w
    end.
Proof.
  cbv zeta. unfold ble_enabled_configure, stored. world_simpl.
  destruct (cy_ok (ans_kvstore_read a "bonding" false)); cbn [mbind option_bind].
  - destruct (data_storage w !! "bonding" ≫= bonding_info_of_bytes) as [b|] eqn:Hb;
      rewrite ?Hb; world_simpl.
    + destruct (bonded b) eqn:Hbonded; world_simpl.
      * destruct (cy_ok (ans_kvstore_read a "cccd" false)); world_simpl.
        -- destruct (data_storage w !! "cccd"); world_simpl;
             by repeat (case_match; world_simpl).
        -- by repeat (case_match; world_simpl).
      * by repeat (case_match; world_simpl).
    + by repeat (case_match; world_simpl).
  - by repeat (case_match; world_simpl).
Qed.

Lemma enable_accepted_dec (a : answers) (status : wiced_result_t) :
  enable_accepted a status ∨ ¬ enable_accepted a status.
Proof.
  unfold enable_accepted.
  destruct (decide (status = WICED_BT_SUCCESS)); [|tauto].
  destruct (decide (ans_set_local_bdaddr a = WICED_BT_SUCCESS)); [|tauto].
  destruct (ans_nbt_write_file a CONNECTION_HANDOVER_MESSAGE_MAC_OFFSET);
    [tauto|right; intros (_ & _ & [=])].
Qed.

(** An enable event that gets no further than the address. *)
Lemma ble_enabled_refused (P : platform) (a : answers) (status : wiced_result_t) (w : world) :
  ¬ enable_accepted a status →
  let res := ble_enabled P a status w in
  res.1 = Returned WICED_BT_ERROR
  ∧ end_state res.2 = end_state w
  ∧ cccd res.2 = cccd w
  ∧ ∃ l, trace res.2 = trace w ++ l
         ∧ ∀ c, c ∈ l →
                c = Cy_SysLib_GetUniqueId
                ∨ c = wiced_bt_set_local_bdaddr (enabled_mac_address P a)
                ∨ (∃ data, c = nbt_write_file CONNECTION_HANDOVER_MESSAGE_MAC_OFFSET data)
                ∨ c = ifx_logger_log IFX_LOG_FATAL "Could not write BLE device address to NBT".
Proof.
  intros Hno. cbv zeta. unfold ble_enabled. fold (enabled_mac_address P a).
  destruct (wiced_ok status) eqn:Hstatus; cbn [negb].
  2: { repeat split. exists []. rewrite app_nil_r. split; [done|]. intros c Hc. by inv Hc. }
  destruct (wiced_ok (ans_set_local_bdaddr a)) eqn:Haddr; cbn [negb].
  2: { world_simpl. repeat split. eexists. rewrite <- app_assoc. split; [done|].
       intros c. cbn [app]. rewrite !elem_of_cons, elem_of_nil. intuition eauto. }
  unfold callback_mac_address_changed, do_nbt_write_file.
  destruct (ans_nbt_write_file a CONNECTION_HANDOVER_MESSAGE_MAC_OFFSET) eqn:Hpush;
    cbn [ifx_error_check].
  { exfalso. apply Hno. by rewrite wiced_ok_true in Hstatus, Haddr. }
  world_simpl. repeat split. eexists. rewrite <- !app_assoc. split; [done|].
  intros c. cbn [app]. rewrite !elem_of_cons, elem_of_nil. intuition eauto.
Qed.

(** X11: an enable event that reports a failure, or during which the stack
    refuses the device address or the tag refuses the address push, ends
    with an error before the store is read: the bonding record, [cccd], the
    store, the resolution list and the advertising mode are as before, and
    the only calls made are the identifier read, the address command, the
    address push and the log entry. *)
Theorem enable_refused_before_restore (P : platform) (B : cipher_backend) (a : answers)
    (status : wiced_result_t) (w : world) :
  ¬ enable_accepted a status →
  let res := ble_callback P B a (BTM_ENABLED_EVT status) w in
  res.1 = (Returned WICED_BT_ERROR, out_none)
  ∧ end_state res.2 = end_state w
  ∧ cccd res.2 = cccd w
  ∧ ∃ l, trace res.2 = trace w ++ l
         ∧ ∀ c, c ∈ l →
                c = Cy_SysLib_GetUniqueId
                ∨ c = wiced_bt_set_local_bdaddr (enabled_mac_address P a)
                ∨ (∃ data, c = nbt_write_file CONNECTION_HANDOVER_MESSAGE_MAC_OFFSET data)
                ∨ c = ifx_logger_log IFX_LOG_FATAL "Could not write BLE device address to NBT".
Proof.
  intros Hno. cbv zeta. unfold ble_callback.
  destruct (ble_enabled_refused P a status w Hno) as (Hr & Hstate & Hcccd & Htrace).
  destruct (ble_enabled P a status w) as [r w1]. cbn [fst snd] in *. by subst r.
Qed.

Lemma enable_refused_before_restore_witness :
  end_state (ble_callback sample_platform AES_CMAC.backend all_ok
               (BTM_ENABLED_EVT WICED_BT_ERROR) scenario_B_paired).2
  = end_state scenario_B_paired.
Proof.
  refine (proj1 (proj2 (enable_refused_before_restore sample_platform AES_CMAC.backend all_ok
                          WICED_BT_ERROR scenario_B_paired _))).
  intros (Hstatus & _). discriminate Hstatus.
Defined.

(** X12: a bond survives a restart when the store can be read.  Let the
    store have accepted the record at pairing completion, and let an enable
    event get as far as the store (the stack reported success and accepted
    the address, the tag accepted the address push) on a state that has the
    same store, whatever it holds in RAM.  The event does not write the
    store.  When the read of "bonding" succeeds, it reloads the record as
    bonded with the same keys, installs the peer's keys in the resolution
    list, and takes [cccd] from the store when it holds one that can be
    read.  When that read is refused, the record, the resolution list and
    [cccd] stay as they were in RAM: the bond is not restored. *)
Theorem bond_survives_restart (P : platform) (B : cipher_backend) (a1 a2 : answers)
    (status : wiced_result_t) (w w0 : world) :
  length (bd_addr (device_link_keys (bonding_info w))) = BD_ADDR_LEN →
  ans_kvstore_write a1 "bonding" = CY_RSLT_SUCCESS →
  data_storage w0 = data_storage (ble_callback P B a1 BTM_PAIRING_COMPLETE_EVT w).2 →
  enable_accepted a2 status →
  let res := ble_callback P B a2 (BTM_ENABLED_EVT status) w0 in
  data_storage res.2 = data_storage w0
  ∧ if cy_ok (ans_kvstore_read a2 "bonding" false)
    then
      bonding_info res.2
      = {| device_link_keys := device_link_keys (bonding_info w); bonded := true |}
      ∧ resolution_list res.2 = resolution_list w0 ++ [device_link_keys (bonding_info w)]
      ∧ cccd res.2 = from_option cccd_of_bytes (cccd w0) (stored a2 "cccd" w0)
    else
      bonding_info res.2 = bonding_info w0
      ∧ resolution_list res.2 = resolution_list w0
      ∧ cccd res.2 = cccd w0.
Proof.
  intros Haddr Hwrite Hstore Hok. cbv zeta.
  unfold ble_callback. rewrite (ble_enabled_accepted P a2 status w0 Hok).
  match goal with |- context [ble_enabled_configure a2 ?m ?w1] =>
    pose proof (ble_enabled_configure_restore P a2 m w1) as Hrestore;
    destruct (ble_enabled_configure a2 m w1) as [r w'] end.
  cbv zeta in Hrestore. cbn [fst snd] in *.
  unfold stored, callback_mac_address_changed, do_nbt_write_file in *.
  world_simpl. destruct Hrestore as (Hdata & Hrestore). split; [done|].
  destruct (cy_ok (ans_kvstore_read a2 "bonding" false)); [|done].
  rewrite Hstore in Hrestore.
  unfold ble_callback in Hrestore. world_simpl. rewrite Hwrite in Hrestore.
  change (cy_ok CY_RSLT_SUCCESS) with true in Hrestore. cbn [negb] in Hrestore.
  world_simpl. rewrite (lookup_insert_eq (data_storage w)) in Hrestore.
  cbn [mbind option_bind] in Hrestore.
  rewrite bonding_info_bytes_round_trip in Hrestore by done.
  cbn [bonded device_link_keys] in Hrestore.
  destruct Hrestore as (Hinfo & Hlist & Hcccd).
  rewrite Hinfo, Hlist, Hcccd, Hstore.
  unfold ble_callback. world_simpl. rewrite Hwrite.
  change (cy_ok CY_RSLT_SUCCESS) with true. cbn [negb]. world_simpl.
  repeat split.
Qed.

Lemma bond_survives_restart_witness :
  bonding_info
    (ble_callback sample_platform AES_CMAC.backend all_ok (BTM_ENABLED_EVT WICED_BT_SUCCESS)
       (restarted scenario_B_paired)).2
  = {| device_link_keys := scenario_B_keys; bonded := true |}.
Proof.
  refine (proj1 (proj2 (bond_survives_restart sample_platform AES_CMAC.backend all_ok all_ok
                   WICED_BT_SUCCESS
                   (ble_callback sample_platform AES_CMAC.backend all_ok
                      (BTM_PAIRED_DEVICE_LINK_KEYS_UPDATE_EVT scenario_B_keys) boot_world).2
                   (restarted scenario_B_paired) _ _ _ _))).
  - reflexivity.
  - reflexivity.
  - reflexivity.
  - repeat split.
Defined.

(** How the enable case ends once the address is set, by what the stack
    answers. *)
Lemma ble_enabled_configure_result (a : answers) (mac : list Z) (w : world) :
  let res := ble_enabled_configure a mac w in
  let halts := negb (ans_create_local_sc_oob_data a) && negb (NDEBUG a) in
  ∃ l, trace res.2 = trace w ++ l
  ∧ if gatt_configured a
    then
      wiced_bt_smp_create_local_sc_oob_data mac ∈ l
      ∧ if halts
        then res.1 = Halted ∧ advertising res.2 = advertising w
             ∧ last l = Some CY_ASSERT_0
             ∧ wiced_bt_start_advertisements BTM_BLE_ADVERT_UNDIRECTED_HIGH ∉ l
        else res.1 = Returned (ans_start_advertisements a BTM_BLE_ADVERT_UNDIRECTED_HIGH)
             ∧ last l = Some (wiced_bt_start_advertisements BTM_BLE_ADVERT_UNDIRECTED_HIGH)
             ∧ advertising res.2
               = (if wiced_ok (ans_start_advertisements a BTM_BLE_ADVERT_UNDIRECTED_HIGH)
                  then BTM_BLE_ADVERT_UNDIRECTED_HIGH else advertising w)
    else
      res.1 = Returned WICED_BT_ERROR ∧ advertising res.2 = advertising w
      ∧ (∀ mac', wiced_bt_smp_create_local_sc_oob_data mac' ∉ l)
      ∧ wiced_bt_start_advertisements BTM_BLE_ADVERT_UNDIRECTED_HIGH ∉ l.
Proof.
  cbv zeta. unfold ble_enabled_configure, gatt_configured, do_kvstore_read. world_simpl.
  destruct (_ ≫= bonding_info_of_bytes) as [info|]; world_simpl;
    [destruct (bonded info); world_simpl;
     [destruct (if cy_ok (ans_kvstore_read a "cccd" false) then _ else _); world_simpl|]|].
  all: destruct (wiced_ok (ans_set_raw_advertisement_data a)); cbn [negb andb]; world_simpl.
  all: destruct (gatt_ok (ans_gatt_register a)); cbn [negb andb]; world_simpl.
  all: destruct (gatt_ok (ans_gatt_db_init a)); cbn [negb andb]; world_simpl.
  all: destruct (ans_create_local_sc_oob_data a); cbn [negb andb]; world_simpl.
  all: destruct (NDEBUG a); cbn [negb andb]; world_simpl.
  all: try match goal with
         | |- context [wiced_ok (ans_start_advertisements ?a0 ?m)] =>
             destruct (wiced_ok (ans_start_advertisements a0 m)); world_simpl
         end.
  all: rewrite <- ?app_assoc; eexists; (split; [reflexivity|]); cbn [app last].
  all: repeat split; unfold not; intros;
    repeat match goal with H : _ ∈ _ |- _ => rewrite ?elem_of_cons, ?elem_of_nil in H end;
    rewrite ?elem_of_cons, ?elem_of_nil; intuition congruence.
Qed.

(** X13: an enable event reports success only when every step was taken:
    the stack reported success and accepted the address, the tag accepted
    the address push, the advertisement data, the GATT registration and the
    attribute database were accepted, and the stack started advertising.
    Then the address field of the message holds the announced address in
    reverse, advertising is on, and starting it was the last call made. *)
Theorem enable_success_means_advertising (P : platform) (B : cipher_backend) (a : answers)
    (status : wiced_result_t) (w : world) :
  (6 ≤ length (cy_bt_device_address P))%nat →
  length (CONNECTION_HANDOVER_MESSAGE w) = length CONNECTION_HANDOVER_MESSAGE_init →
  let res := ble_callback P B a (BTM_ENABLED_EVT status) w in
  res.1.1 = Returned WICED_BT_SUCCESS →
  enable_accepted a status
  ∧ gatt_configured a = true
  ∧ ans_start_advertisements a BTM_BLE_ADVERT_UNDIRECTED_HIGH = WICED_BT_SUCCESS
  ∧ advertising res.2 = BTM_BLE_ADVERT_UNDIRECTED_HIGH
  ∧ slice (snapshot res.2) CONNECTION_HANDOVER_MESSAGE_MAC_OFFSET BD_ADDR_LEN
    = reverse (enabled_mac_address P a)
  ∧ last (trace res.2)
    = Some (wiced_bt_start_advertisements BTM_BLE_ADVERT_UNDIRECTED_HIGH).
Proof.
  intros Haddr Hmsg. cbv zeta. unfold ble_callback.
  destruct (enable_accepted_dec a status) as [Hok|Hno].
  2: { destruct (ble_enabled_refused P a status w Hno) as (Hr & _).
       destruct (ble_enabled P a status w) as [r w1]. cbn [fst snd] in *. by subst r. }
  rewrite (ble_enabled_accepted P a status w Hok).
  assert (length (enabled_mac_address P a) = BD_ADDR_LEN) as Hmac
    by (by apply length_ble_mac_address).
  match goal with |- context [ble_enabled_configure a ?m ?w1] =>
    pose proof (ble_enabled_configure_result a m w1) as (l & Htrace & Hres);
    pose proof (ble_enabled_configure_frame a m w1) as (Hkeep & _);
    pose proof (callback_mac_address_changed_message a m
                  (called (wiced_bt_set_local_bdaddr m) (called Cy_SysLib_GetUniqueId w))
                  Hmac) as Hfield;
    destruct (ble_enabled_configure a m w1) as [r w'] end.
  cbn [fst snd] in *. intros ->. split; [done|].
  destruct (gatt_configured a); [|by destruct Hres as [[=] _]].
  destruct Hres as (_ & Hres).
  destruct (negb (ans_create_local_sc_oob_data a) && negb (NDEBUG a));
    [by destruct Hres as [[=] _]|].
  destruct Hres as (Hr & Hlast & Hadv). injection Hr as Hr. rewrite <- Hr in Hadv.
  split; [done|]. split; [done|]. split; [done|]. split.
  - unfold snapshot. rewrite Hkeep, Hfield. by apply slice_reversed_mac.
  - by rewrite Htrace, last_app, Hlast.
Qed.

Lemma enable_success_means_advertising_witness :
  advertising scenario_A_enabled = BTM_BLE_ADVERT_UNDIRECTED_HIGH.
Proof.
  refine (proj1 (proj2 (proj2 (proj2
            (enable_success_means_advertising sample_platform AES_CMAC.backend all_ok
               WICED_BT_SUCCESS boot_world _ _ _))))).
  - apply le_n.
  - reflexivity.
  - reflexivity.
Defined.

(** X14: when the stack refuses to generate the OOB data after everything
    before it was accepted, a debug build stops in the assertion: the
    handler does not return and advertising is not started.  A build with
    [NDEBUG] ignores the refusal, starts advertising and returns the stack's
    answer to that. *)
Theorem enable_oob_generation_refused (P : platform) (B : cipher_backend) (a : answers)
    (status : wiced_result_t) (w : world) :
  enable_accepted a status →
  gatt_configured a = true →
  ans_create_local_sc_oob_data a = false →
  let res := ble_callback P B a (BTM_ENABLED_EVT status) w in
  wiced_bt_smp_create_local_sc_oob_data (enabled_mac_address P a) ∈ trace res.2
  ∧ if NDEBUG a
    then res.1.1 = Returned (ans_start_advertisements a BTM_BLE_ADVERT_UNDIRECTED_HIGH)
         ∧ last (trace res.2)
           = Some (wiced_bt_start_advertisements BTM_BLE_ADVERT_UNDIRECTED_HIGH)
    else res.1.1 = Halted
         ∧ advertising res.2 = advertising w
         ∧ last (trace res.2) = Some CY_ASSERT_0.
Proof.
  intros Hok Hconf Hoob. cbv zeta. unfold ble_callback.
  rewrite (ble_enabled_accepted P a status w Hok).
  match goal with |- context [ble_enabled_configure a ?m ?w1] =>
    pose proof (ble_enabled_configure_result a m w1) as (l & Htrace & Hres);
    destruct (ble_enabled_configure a m w1) as [r w'] end.
  cbn [fst snd] in *. rewrite Hconf, Hoob in Hres. cbn [negb andb] in Hres.
  destruct Hres as (Hin & Hres). rewrite Htrace. split; [set_solver|].
  destruct (NDEBUG a); cbn [negb] in Hres.
  - destruct Hres as (-> & Hlast & _). by rewrite last_app, Hlast.
  - destruct Hres as (-> & Hadv & Hlast & _). rewrite last_app, Hlast.
    unfold callback_mac_address_changed, do_nbt_write_file in Hadv. by world_simpl.
Qed.

Lemma enable_oob_generation_refused_witness :
  (ble_callback sample_platform AES_CMAC.backend oob_refused
     (BTM_ENABLED_EVT WICED_BT_SUCCESS) boot_world).1.1 = Halted.
Proof.
  refine (proj1 (proj2 (enable_oob_generation_refused sample_platform AES_CMAC.backend
                          oob_refused WICED_BT_SUCCESS boot_world _ _ _))).
  - repeat split.
  - reflexivity.
  - reflexivity.
Defined.

(** ** Forgetting the peer *)

(** X15: a long click forgets the peer.  When the stack stops advertising,
    the reset leaves the record in RAM unbonded, so that a request for the
    peer's keys fails whatever the other commands answered; if there was a
    bond, deleting the peer in the stack is the next call made, the key material in RAM is
    zeroed, and the cleared record replaces the stored one when the store
    accepts the write; a refused write only leaves the store as it was.
    When the stack refuses to stop advertising, nothing is reset. *)
Theorem reset_forgets_peer (P : platform) (B : cipher_backend) (a a' : answers) (w : world) :
  let w' := ble_clear_bonding_info a w in
  (ans_start_advertisements a BTM_BLE_ADVERT_OFF = WICED_BT_SUCCESS →
   bonded (bonding_info w') = false
   ∧ ble_callback P B a' BTM_PAIRED_DEVICE_LINK_KEYS_REQUEST_EVT w'
     = (Returned WICED_BT_ERROR, out_none, w')
   ∧ (bonded (bonding_info w) = true →
      device_link_keys (bonding_info w') = zero_link_keys (device_link_keys (bonding_info w))
      ∧ (∃ rest,
           trace w'
           = trace w
             ++ wiced_bt_start_advertisements BTM_BLE_ADVERT_OFF
                :: wiced_bt_dev_delete_bonded_device
                     (bd_addr (device_link_keys (bonding_info w)))
                :: rest)
      ∧ (if cy_ok (ans_kvstore_write a "bonding")
         then data_storage w' !! "bonding" = Some (bonding_info_bytes (bonding_info w'))
         else data_storage w' = data_storage w)))
  ∧ (ans_start_advertisements a BTM_BLE_ADVERT_OFF ≠ WICED_BT_SUCCESS →
     end_state w' = end_state w
     ∧ trace w'
       = trace w ++ [ wiced_bt_start_advertisements BTM_BLE_ADVERT_OFF;
                      ifx_logger_log IFX_LOG_ERROR "Could not stop Bluetooth advertisement" ]).
Proof.
  cbv zeta. split.
  - intros Hstop%wiced_ok_true.
    assert (bonded (bonding_info (ble_clear_bonding_info a w)) = false) as Hb.
    { unfold ble_clear_bonding_info. world_simpl. rewrite Hstop. cbn [negb]. world_simpl.
      destruct (wiced_ok (ans_start_advertisements a BTM_BLE_ADVERT_UNDIRECTED_HIGH));
        cbn [negb]; world_simpl;
        (destruct (wiced_ok (ans_resolution_list_clear a)); cbn [negb]; world_simpl);
        (destruct (bonded (bonding_info w)) eqn:Hbonded; world_simpl; [|done]);
        (destruct (cy_ok (ans_kvstore_write a "bonding")); cbn [negb]; world_simpl);
        by destruct (wiced_ok (ans_delete_bonded_device a)). }
    split; [done|]. split; [unfold ble_callback; by rewrite Hb|].
    intros Hbonded. unfold ble_clear_bonding_info. world_simpl.
    rewrite Hstop. cbn [negb]. world_simpl. rewrite Hbonded. world_simpl.
    destruct (wiced_ok (ans_start_advertisements a BTM_BLE_ADVERT_UNDIRECTED_HIGH));
      cbn [negb]; world_simpl;
      (destruct (wiced_ok (ans_resolution_list_clear a)); cbn [negb]; world_simpl);
      (destruct (cy_ok (ans_kvstore_write a "bonding")); cbn [negb]; world_simpl);
      (destruct (wiced_ok (ans_delete_bonded_device a)); cbn [negb]; world_simpl);
      rewrite ?(lookup_insert_eq (data_storage w));
      (split; [done|]); (split; [|done]); rewrite <- !app_assoc; by eexists.
  - intros Hstop. unfold ble_clear_bonding_info. world_simpl.
    assert (wiced_ok (ans_start_advertisements a BTM_BLE_ADVERT_OFF) = false) as ->.
    { apply not_true_is_false. by rewrite wiced_ok_true. }
    cbn [negb]. world_simpl. by rewrite <- app_assoc.
Qed.

Lemma reset_forgets_peer_witness :
  bonded (bonding_info scenario_B_paired) = true
  ∧ ble_callback sample_platform AES_CMAC.backend all_ok
      BTM_PAIRED_DEVICE_LINK_KEYS_REQUEST_EVT (ble_clear_bonding_info all_ok scenario_B_paired)
    = (Returned WICED_BT_ERROR, out_none, ble_clear_bonding_info all_ok scenario_B_paired).
Proof.
  split; [reflexivity|].
  exact (proj1 (proj2 (proj1 (reset_forgets_peer sample_platform AES_CMAC.backend all_ok all_ok
                                scenario_B_paired) eq_refl))).
Defined.

(** ** The button across a wrap of the tick counter *)

Lemma period_elapsed_iter (n : nat) (w : world) :
  0 ≤ elapsed_periods w < 2 ^ 32 →
  elapsed_periods (Nat.iter n period_elapsed w) = to_uint32 (elapsed_periods w + Z.of_nat n)
  ∧ press_start (Nat.iter n period_elapsed w) = press_start w.
Proof.
  intros Hw. induction n as [|n [IHe IHp]].
  - cbn [Nat.iter]. unfold to_uint32. rewrite Z.add_0_r, Z.mod_small by done. done.
  - rewrite Nat.iter_succ. set (wn := Nat.iter n period_elapsed w) in *.
    unfold period_elapsed. world_simpl. split; [|done].
    rewrite IHe. unfold to_uint32. rewrite Zplus_mod_idemp_l. f_equal. lia.
Qed.

(** X16: the tick counter may wrap while the button is held.  A press
    records the counter; after [n] periods, for any [n] below 2^32, the
    release computes a press duration of [n] periods whatever the counter
    was at the press.  While [n] periods are less than 2^32 ms, more than 50
    periods reset the bonding and anything shorter sends the click. *)
Theorem button_hold_across_wrap (P : platform) (a : answers) (n : nat) (w : world) :
  0 ≤ elapsed_periods w < 2 ^ 32 →
  Z.of_nat n < 2 ^ 32 →
  let held := Nat.iter n period_elapsed (btn_task P a true w) in
  to_uint32 (elapsed_periods held - press_start held) = Z.of_nat n
  ∧ (Z.of_nat n * PERIOD_LENGTH_MS < 2 ^ 32 →
     btn_task P a false held
     = if 50 <? Z.of_nat n
       then ble_clear_bonding_info a held
       else ble_gatt_send_hid_update P held).
Proof.
  intros Hw Hn. cbv zeta.
  destruct (period_elapsed_iter n (btn_task P a true w)) as [He Hp]; [done|].
  assert (to_uint32 (elapsed_periods (Nat.iter n period_elapsed (btn_task P a true w))
                     - press_start (Nat.iter n period_elapsed (btn_task P a true w)))
          = Z.of_nat n) as Hd.
  { rewrite He, Hp. unfold btn_task. world_simpl. unfold to_uint32.
    rewrite Zminus_mod_idemp_l.
    replace (elapsed_periods w + Z.of_nat n - elapsed_periods w) with (Z.of_nat n) by lia.
    apply Z.mod_small. lia. }
  split; [done|]. intros Hfit.
  unfold btn_task at 1, btn_released. rewrite Hd.
  unfold to_uint32. rewrite Z.mod_small by (unfold PERIOD_LENGTH_MS in *; lia).
  unfold PERIOD_LENGTH_MS.
  destruct (Z.gtb_spec (Z.of_nat n * 100) 5000), (Z.ltb_spec 50 (Z.of_nat n)); done || lia.
Qed.

Lemma button_hold_across_wrap_witness :
  btn_task sample_platform all_ok false
    (Nat.iter 60 period_elapsed
       (btn_task sample_platform all_ok true (set_elapsed_periods 4294967290 boot_world)))
  = ble_clear_bonding_info all_ok
      (Nat.iter 60 period_elapsed
         (btn_task sample_platform all_ok true (set_elapsed_periods 4294967290 boot_world))).
Proof.
  refine (proj2 (button_hold_across_wrap sample_platform all_ok 60
                   (set_elapsed_periods 4294967290 boot_world) _ _) _).
  - by vm_compute.
  - by vm_compute.
  - by vm_compute.
Defined.

(** ** The block device: the page loop *)

Lemma loop_turns_spec (length step : Z) :
  0 < step → 0 ≤ length →
  length ≤ Z.of_nat (loop_turns length step) * step
  ∧ (Z.of_nat (loop_turns length step) - 1) * step < length.
Proof.
  intros Hstep Hlen. unfold loop_turns.
  assert (0 ≤ (length + step - 1) / step) as Hq by (apply Z.div_pos; lia).
  rewrite Z2Nat.id by done.
  pose proof (Z.div_mod (length + step - 1) step ltac:(lia)) as Hdm.
  pose proof (Z.mod_pos_bound (length + step - 1) step Hstep) as Hm.
  nia.
Qed.

(** [m] turns whose driver calls all succeed. *)
Lemma storage_loop_prefix (op : Z → Z → storage_call) (answer : Z → cy_rslt_t)
    (addr length step : Z) (m : nat) :
  0 < step → length + step ≤ 2 ^ 32 →
  ∀ (fuel k : nat) (result : cy_rslt_t) (calls : list storage_call),
    (m = 0%nat ∨ (Z.of_nat (k + m) - 1) * step < length) →
    (∀ i : nat, (k ≤ i < k + m)%nat →
                answer (to_uint32 (addr + Z.of_nat i * step)) = CY_RSLT_SUCCESS) →
    storage_loop (m + fuel) op answer addr length step (Z.of_nat k * step) result calls
    = storage_loop fuel op answer addr length step (Z.of_nat (k + m) * step)
        (if m is O then result else CY_RSLT_SUCCESS)
        (calls ++ (loop_call op addr step <$> seq k m)).
Proof.
  intros Hstep Hfit. induction m as [|m IH]; intros fuel k result calls Hbelow Hok.
  - cbn [Nat.add seq fmap list_fmap]. by rewrite Nat.add_0_r, app_nil_r.
  - destruct Hbelow as [|Hbelow]; [done|].
    cbn [Nat.add storage_loop].
    assert (Z.of_nat k * step < length) as Hk by nia.
    destruct (Z.ltb_spec (Z.of_nat k * step) length); [|lia].
    rewrite Hok by lia. change (cy_ok CY_RSLT_SUCCESS) with true. cbn [negb].
    assert (to_uint32 (Z.of_nat k * step + step) = Z.of_nat (S k) * step) as ->.
    { unfold to_uint32. rewrite Z.mod_small by nia. lia. }
    rewrite IH.
    + replace (S k + m)%nat with (k + S m)%nat by lia.
      cbn [seq fmap list_fmap]. rewrite <- app_assoc. cbn [app].
      unfold loop_call at 2. by destruct m.
    + destruct m; [by left|right]. nia.
    + intros i Hi. apply Hok. lia.
Qed.

(** The loop ends after the first call the driver refuses, or after the
    last turn. *)
Lemma storage_loop_run (op : Z → Z → storage_call) (answer : Z → cy_rslt_t)
    (addr length step : Z) (fuel j : nat) :
  0 < step → 0 ≤ length → length + step ≤ 2 ^ 32 →
  (j ≤ loop_turns length step)%nat →
  (∀ i : nat, (i < j)%nat →
              answer (to_uint32 (addr + Z.of_nat i * step)) = CY_RSLT_SUCCESS) →
  ((j < loop_turns length step)%nat →
   answer (to_uint32 (addr + Z.of_nat j * step)) ≠ CY_RSLT_SUCCESS) →
  (j < fuel)%nat →
  storage_loop fuel op answer addr length step 0 CY_RSLT_SUCCESS []
  = Some (if decide (j = loop_turns length step) then CY_RSLT_SUCCESS
          else answer (to_uint32 (addr + Z.of_nat j * step)),
          loop_calls op addr step (S j `min` loop_turns length step)).
Proof.
  intros Hstep Hlen Hfit Hj Hok Hfail Hfuel.
  destruct (loop_turns_spec length step Hstep Hlen) as [Hend Hlast].
  replace fuel with (j + S (fuel - S j))%nat by lia.
  change 0 with (Z.of_nat 0 * step) at 1.
  rewrite (storage_loop_prefix op answer addr length step j Hstep Hfit).
  2: { destruct j; [by left|right]. nia. }
  2: { intros i Hi. apply Hok. lia. }
  cbn [app Nat.add storage_loop]. fold (loop_calls op addr step j).
  destruct (decide (j = loop_turns length step)) as [->|Hne].
  - destruct (Z.ltb_spec (Z.of_nat (loop_turns length step) * step) length); [lia|].
    rewrite Nat.min_r by lia. by destruct (loop_turns length step).
  - destruct (Z.ltb_spec (Z.of_nat j * step) length); [|nia].
    assert (cy_ok (answer (to_uint32 (addr + Z.of_nat j * step))) = false) as ->.
    { apply not_true_is_false. rewrite cy_ok_true. apply Hfail. lia. }
    cbn [negb]. rewrite Nat.min_l by lia.
    unfold loop_calls. rewrite seq_S, fmap_app. done.
Qed.

(** X17: [data_storage_program] programs page after page.  The step is the
    value of [data_storage_program_size]: the page size of the second flash
    block, or [CY_RSLT_TYPE_ERROR] itself when the flash has fewer than two
    blocks.  With a positive step and [length + step] within 32 bits, the
    loop ends: if the driver accepts the first [j] pages and refuses the
    next, exactly [j + 1] calls are made, at [addr], [addr + step], ..., each
    with the buffer offset of its page, and the refusal is returned; if it
    accepts all pages, every page below [length] is programmed once and the
    result is success.  Nothing is programmed when [length] is zero. *)
Theorem data_storage_program_pages (CY_RSLT_TYPE_ERROR : Z) (fa : flash_answers)
    (info : cyhal_flash_info_t) (addr length : Z) (fuel j : nat) :
  let step := data_storage_program_size CY_RSLT_TYPE_ERROR (Some info) addr in
  0 < step → 0 ≤ length → length + step ≤ 2 ^ 32 →
  (j ≤ loop_turns length step)%nat →
  (∀ i : nat, (i < j)%nat →
              ans_flash_program fa (to_uint32 (addr + Z.of_nat i * step)) = CY_RSLT_SUCCESS) →
  ((j < loop_turns length step)%nat →
   ans_flash_program fa (to_uint32 (addr + Z.of_nat j * step)) ≠ CY_RSLT_SUCCESS) →
  (j < fuel)%nat →
  data_storage_program CY_RSLT_TYPE_ERROR fuel fa (Some info) addr length
  = Some (if decide (j = loop_turns length step) then CY_RSLT_SUCCESS
          else ans_flash_program fa (to_uint32 (addr + Z.of_nat j * step)),
          loop_calls cyhal_flash_program addr step (S j `min` loop_turns length step)).
Proof.
  intros step Hstep Hlen Hfit Hj Hok Hfail Hfuel. unfold data_storage_program. fold step.
  destruct (Z.eqb_spec step 0); [lia|].
  by apply storage_loop_run.
Qed.

Lemma data_storage_program_pages_witness :
  data_storage_program 2 3 flash_page_refused (Some sample_flash) 0x14007000 2048
  = Some (CY_RSLT_ERROR 0x4020001,
          [cyhal_flash_program 0x14007000 0; cyhal_flash_program 0x14007200 512]).
Proof.
  refine (data_storage_program_pages 2 flash_page_refused sample_flash 0x14007000 2048 3 1
            _ _ _ _ _ _ _).
  - by vm_compute.
  - by vm_compute.
  - by vm_compute.
  - vm_compute. lia.
  - intros [|i] Hi; [reflexivity|lia].
  - intros _. discriminate.
  - lia.
Defined.

(** X18: [data_storage_erase] erases sector after sector in the same way,
    with the value of [data_storage_erase_size] as its step.  With a
    positive step and [length + step] within 32 bits, the loop ends: it
    stops at the first sector the driver refuses and returns that refusal,
    otherwise it erases every sector that starts below [length] once and
    succeeds. *)
Theorem data_storage_erase_sectors (CY_RSLT_TYPE_ERROR : Z) (fa : flash_answers)
    (info : cyhal_flash_info_t) (addr length : Z) (fuel j : nat) :
  let step := data_storage_erase_size CY_RSLT_TYPE_ERROR (Some info) addr in
  0 < step → 0 ≤ length → length + step ≤ 2 ^ 32 →
  (j ≤ loop_turns length step)%nat →
  (∀ i : nat, (i < j)%nat →
              ans_flash_erase fa (to_uint32 (addr + Z.of_nat i * step)) = CY_RSLT_SUCCESS) →
  ((j < loop_turns length step)%nat →
   ans_flash_erase fa (to_uint32 (addr + Z.of_nat j * step)) ≠ CY_RSLT_SUCCESS) →
  (j < fuel)%nat →
  data_storage_erase CY_RSLT_TYPE_ERROR fuel fa (Some info) addr length
  = Some (if decide (j = loop_turns length step) then CY_RSLT_SUCCESS
          else ans_flash_erase fa (to_uint32 (addr + Z.of_nat j * step)),
          loop_calls (λ address _, cyhal_flash_erase address) addr step
            (S j `min` loop_turns length step)).
Proof.
  intros step Hstep Hlen Hfit Hj Hok Hfail Hfuel. unfold data_storage_erase. fold step.
  destruct (Z.eqb_spec step 0); [lia|].
  by apply storage_loop_run.
Qed.

Lemma data_storage_erase_sectors_witness :
  data_storage_erase 2 4 flash_ok (Some sample_flash) 0x14006000 1025
  = Some (CY_RSLT_SUCCESS,
          [cyhal_flash_erase 0x14006000; cyhal_flash_erase 0x14006200;
           cyhal_flash_erase 0x14006400]).
Proof.
  refine (data_storage_erase_sectors 2 flash_ok sample_flash 0x14006000 1025 4 3
            _ _ _ _ _ _ _).
  - by vm_compute.
  - by vm_compute.
  - by vm_compute.
  - vm_compute. lia.
  - reflexivity.
  - vm_compute. lia.
  - lia.
Defined.

(** X19: where the key-value store is put.  The function checks neither
    the size of the second block nor the address arithmetic, so the
    statement is about a second flash block that holds at least sixteen
    pages, starts at a non-negative address and ends below 2^32, and about a
    [CY_RSLT_TYPE_ERROR] that is not 0.  Then, when the flash driver starts
    and reports at least two blocks, the store is initialised over the last
    sixteen pages of the second block: the region ends where the block ends
    and does not start before it, and what [mtb_kvstore_init] answers is
    what is returned.  When the driver does not start, or reports fewer than
    two blocks, the store is not initialised and the result is not
    success. *)
Theorem data_storage_initialize_region (CY_RSLT_TYPE_ERROR : Z) (fa : flash_answers)
    (info : cyhal_flash_info_t) :
  let block := flash_block_1 info in
  CY_RSLT_TYPE_ERROR ≠ 0 →
  0 ≤ flash_start_address block →
  0 ≤ page_size block * 16 ≤ flash_size block →
  flash_start_address block + flash_size block < 2 ^ 32 →
  let res := data_storage_initialize CY_RSLT_TYPE_ERROR fa info in
  if cy_ok (ans_flash_init fa) && (2 <=? block_count info)
  then
    res.1 = ans_kvstore_init fa
    ∧ ∃ start_address rest,
        res.2 = cyhal_flash_init :: mtb_kvstore_init start_address (page_size block * 16)
                                 :: rest
        ∧ start_address + page_size block * 16
          = flash_start_address block + flash_size block
        ∧ flash_start_address block ≤ start_address
        ∧ (rest = [] ↔ ans_kvstore_init fa = CY_RSLT_SUCCESS)
  else
    res.1 ≠ CY_RSLT_SUCCESS
    ∧ ∀ start_address length, mtb_kvstore_init start_address length ∉ res.2.
Proof.
  intros block Hcode Hstart Hpages Hend. cbv zeta. unfold data_storage_initialize.
  fold block.
  destruct (cy_ok (ans_flash_init fa)) eqn:Hinit; cbn [negb andb fst snd].
  2: { split.
       - intros Hr%cy_ok_true. congruence.
       - intros s l. rewrite !elem_of_cons, elem_of_nil. intuition congruence. }
  destruct (Z.ltb_spec (block_count info) 2), (Z.leb_spec 2 (block_count info)); try lia.
  - cbn [fst snd]. split.
    + unfold cy_rslt_of. by destruct (Z.eqb_spec CY_RSLT_TYPE_ERROR 0).
    + intros s l. rewrite !elem_of_cons, elem_of_nil. intuition congruence.
  - assert (to_uint32 (page_size block * 16) = page_size block * 16) as Hlen.
    { unfold to_uint32. apply Z.mod_small. lia. }
    rewrite Hlen.
    assert (to_uint32 (flash_start_address block + flash_size block - page_size block * 16)
            = flash_start_address block + flash_size block - page_size block * 16) as Haddr.
    { unfold to_uint32. apply Z.mod_small. lia. }
    rewrite Haddr.
    destruct (cy_ok (ans_kvstore_init fa)) eqn:Hkv; cbn [negb fst snd].
    + apply cy_ok_true in Hkv. split; [done|]. eexists _, []. repeat split; (done || lia).
    + split; [done|]. eexists _, [_]. repeat split; try (done || lia).
      intros Hkv'%cy_ok_true. congruence.
Qed.

Lemma data_storage_initialize_region_witness :
  (data_storage_initialize 2 flash_ok sample_flash).1 = CY_RSLT_SUCCESS.
Proof.
  refine (proj1 (data_storage_initialize_region 2 flash_ok sample_flash _ _ _ _)).
  - discriminate.
  - by vm_compute.
  - by vm_compute.
  - by vm_compute.
Defined.

(** ** Start-up *)

(** X20: configuring the tag.  The policies are sent first.  The message
    skeleton is written only after the tag accepted the policies and the
    re-selection of its application, in one write of the whole message at
    offset 0, and the answer to that write is what is returned.  When the
    re-selection is refused, nothing is written and what is returned is the
    status of the accepted configuration, which is not an error. *)
Theorem nbt_configure_writes_skeleton (NBT_SET_CONFIGURATION_ILLEGAL_ARGUMENT : Z)
    (sa : startup_answers) (message : list Z) :
  let res := nbt_configure_ble_connection_handover NBT_SET_CONFIGURATION_ILLEGAL_ARGUMENT
               sa false message in
  head res.2 = Some (nbt_configure faps 7)
  ∧ (∀ (offset : Z) (data : list Z),
       nbt_write_ndef_file offset data ∈ res.2
       ↔ offset = 0 ∧ data = message
         ∧ ifx_error_check (ans_nbt_configure sa) = false
         ∧ ifx_error_check (ans_nbt_select_nbt_application sa) = false)
  ∧ (nbt_write_ndef_file 0 message ∈ res.2 → res.1 = ans_nbt_write_ndef_file sa)
  ∧ (ifx_error_check (ans_nbt_configure sa) = false →
     ifx_error_check (ans_nbt_select_nbt_application sa) = true →
     ifx_error_check res.1 = false ∧ last res.2
     = Some (startup_log IFX_LOG_FATAL "Could not re-select NBT application.")).
Proof.
  cbv zeta. unfold nbt_configure_ble_connection_handover.
  destruct (ifx_error_check (ans_nbt_configure sa)) eqn:Hconf;
    [|destruct (ifx_error_check (ans_nbt_select_nbt_application sa)) eqn:Hsel];
    cbn [fst snd app head last].
  all: split; [reflexivity|].
  all: split; [intros offset data; rewrite !elem_of_cons, elem_of_nil;
               split; [intros H|intros (-> & -> & ? & ?)]; intuition congruence|].
  all: split; [rewrite !elem_of_cons, elem_of_nil; intuition congruence|].
  all: by intros.
Qed.

Lemma nbt_configure_writes_skeleton_witness :
  ifx_error_check (nbt_configure_ble_connection_handover 0x3001 select_refused false
                     CONNECTION_HANDOVER_MESSAGE_init).1 = false.
Proof.
  exact (proj1 (proj2 (proj2 (proj2 (nbt_configure_writes_skeleton 0x3001 select_refused
                                       CONNECTION_HANDOVER_MESSAGE_init)))
                  eq_refl eq_refl)).
Defined.

(** The first occurrence of a call splits a list of calls in one way. *)
Lemma first_occurrence_splits {A : Type} (l1 l pre post : list A) (x : A) :
  l1 ++ l = pre ++ x :: post → x ∉ l1 → ∃ rest, pre = l1 ++ rest ∧ l = rest ++ x :: post.
Proof.
  revert pre. induction l1 as [|c l1 IH]; intros pre Heq Hx.
  - by exists pre.
  - destruct pre as [|p pre]; simplify_eq/=.
    + exfalso. apply Hx. left.
    + destruct (IH pre) as (rest & -> & ->); [done|set_solver|]. by exists rest.
Qed.

Lemma storage_calls_are_wrapped (c : startup_call) (l : list storage_call) :
  c ∈ storage <$> l → ∃ s, c = storage s.
Proof. intros (s & -> & _)%list_elem_of_fmap. by exists s. Qed.

(** The calls of [startup_task] by the answers it gets: [tag] are the calls
    made while the tag is configured, [flash] those of the flash set-up. *)
Lemma startup_task_calls (CY_RSLT_TYPE_ERROR NBT_SET_CONFIGURATION_ILLEGAL_ARGUMENT : Z)
    (sa : startup_answers) (message : list Z) :
  let calls := startup_task CY_RSLT_TYPE_ERROR NBT_SET_CONFIGURATION_ILLEGAL_ARGUMENT
                 sa message in
  let tag := (nbt_configure_ble_connection_handover NBT_SET_CONFIGURATION_ILLEGAL_ARGUMENT
                sa false message).2 in
  let flash := storage <$> (data_storage_initialize CY_RSLT_TYPE_ERROR (ans_flash sa)
                              (ans_flash_info sa)).2 in
  if startup_ready CY_RSLT_TYPE_ERROR NBT_SET_CONFIGURATION_ILLEGAL_ARGUMENT sa message
  then
    calls = (ifx_protocol_activate :: tag ++ xTimerStart :: flash)
            ++ wiced_bt_stack_init
               :: (if wiced_ok (ans_stack_init sa) then [vTaskDelete]
                   else startup_log IFX_LOG_FATAL "Could not start BLE GATT server"
                        :: startup_cleanup)
  else
    ∃ pre m, calls = pre ++ startup_log IFX_LOG_FATAL m :: startup_cleanup
             ∧ (∀ c, c ∈ pre → c = ifx_protocol_activate ∨ c ∈ tag ∨ c = xTimerStart
                               ∨ c ∈ flash).
Proof.
  cbv zeta. unfold startup_task, startup_ready.
  destruct (ifx_error_check (ans_protocol_activate sa)); cbn [negb andb].
  { eexists [ifx_protocol_activate], _. split; [reflexivity|].
    intros c. rewrite list_elem_of_singleton. tauto. }
  destruct (nbt_configure_ble_connection_handover _ sa false message) as [status tag].
  cbn [fst snd].
  destruct (ifx_error_check status); cbn [negb andb].
  { eexists (ifx_protocol_activate :: tag), _. split; [by rewrite <- app_assoc|].
    intros c. rewrite elem_of_cons. tauto. }
  destruct (ans_xTimerStart sa); cbn [negb andb].
  2: { eexists (ifx_protocol_activate :: tag ++ [xTimerStart]), _.
       split; [cbn [app]; by rewrite <- !app_assoc|].
       intros c. rewrite elem_of_cons, elem_of_app, list_elem_of_singleton. tauto. }
  destruct (data_storage_initialize _ _ _) as [result flash]. cbn [fst snd].
  destruct (cy_ok result); cbn [negb andb].
  2: { eexists (ifx_protocol_activate :: tag ++ xTimerStart :: (storage <$> flash)), _.
       split; [cbn [app]; by rewrite <- !app_assoc|].
       intros c. rewrite elem_of_cons, elem_of_app, elem_of_cons. tauto. }
  destruct (wiced_ok (ans_stack_init sa)); cbn [negb app]; by rewrite <- !app_assoc.
Qed.

Lemma tag_calls (NBT_SET_CONFIGURATION_ILLEGAL_ARGUMENT : Z) (sa : startup_answers)
    (message : list Z) (c : startup_call) :
  c ∈ (nbt_configure_ble_connection_handover NBT_SET_CONFIGURATION_ILLEGAL_ARGUMENT
         sa false message).2 →
  c ≠ wiced_bt_stack_init ∧ c ≠ nbt_destroy ∧ c ≠ xTimerStart ∧ c ≠ ifx_protocol_activate.
Proof.
  unfold nbt_configure_ble_connection_handover.
  repeat case_match; cbn [snd app]; rewrite !elem_of_cons, elem_of_nil;
    intuition congruence.
Qed.

(** X21: the stack is started last.  [wiced_bt_stack_init] is called exactly
    when the channel to the tag was opened, the configuration of the tag did
    not report an error, the timer started and the store was set up; all the
    calls of those steps precede it, and after it the task only deletes
    itself, or logs and cleans up when the stack did not start. *)
Theorem startup_task_starts_stack_last
    (CY_RSLT_TYPE_ERROR NBT_SET_CONFIGURATION_ILLEGAL_ARGUMENT : Z)
    (sa : startup_answers) (message : list Z) :
  let calls := startup_task CY_RSLT_TYPE_ERROR NBT_SET_CONFIGURATION_ILLEGAL_ARGUMENT
                 sa message in
  (wiced_bt_stack_init ∈ calls
   ↔ startup_ready CY_RSLT_TYPE_ERROR NBT_SET_CONFIGURATION_ILLEGAL_ARGUMENT sa message
     = true)
  ∧ ∀ pre post, calls = pre ++ wiced_bt_stack_init :: post →
      ifx_protocol_activate ∈ pre
      ∧ xTimerStart ∈ pre
      ∧ (∀ c, c ∈ (nbt_configure_ble_connection_handover
                     NBT_SET_CONFIGURATION_ILLEGAL_ARGUMENT sa false message).2 → c ∈ pre)
      ∧ (∀ s, s ∈ (data_storage_initialize CY_RSLT_TYPE_ERROR (ans_flash sa)
                     (ans_flash_info sa)).2 → storage s ∈ pre)
      ∧ post = (if wiced_ok (ans_stack_init sa) then [vTaskDelete]
                else startup_log IFX_LOG_FATAL "Could not start BLE GATT server"
                     :: startup_cleanup).
Proof.
  cbv zeta.
  pose proof (startup_task_calls CY_RSLT_TYPE_ERROR NBT_SET_CONFIGURATION_ILLEGAL_ARGUMENT
                sa message) as Hcalls.
  pose proof (tag_calls NBT_SET_CONFIGURATION_ILLEGAL_ARGUMENT sa message) as Htag.
  cbv zeta in Hcalls.
  set (tag := (nbt_configure_ble_connection_handover _ sa false message).2) in *.
  set (flash := (data_storage_initialize _ _ _).2) in *.
  assert (wiced_bt_stack_init ∉ ifx_protocol_activate :: tag ++ xTimerStart :: (storage <$> flash))
    as Hnot.
  { rewrite elem_of_cons, elem_of_app, elem_of_cons.
    intros [|[Hin|[|(s & ?)%storage_calls_are_wrapped]]]; try done.
    by destruct (Htag _ Hin) as (? & _). }
  destruct (startup_ready _ _ sa message).
  - rewrite Hcalls. split.
    { split; [done|]. intros _. apply elem_of_app. right. apply elem_of_cons. by left. }
    intros pre post Heq.
    assert (pre = ifx_protocol_activate :: tag ++ xTimerStart :: (storage <$> flash)
            ∧ post = (if wiced_ok (ans_stack_init sa) then [vTaskDelete]
                      else startup_log IFX_LOG_FATAL "Could not start BLE GATT server"
                           :: startup_cleanup)) as [-> ->].
    { apply first_occurrence_splits in Heq as (rest & -> & Hrest); [|done].
      destruct rest as [|c rest]; cbn [app] in Hrest.
      - injection Hrest as <-. by rewrite app_nil_r.
      - exfalso. injection Hrest as <- Hrest.
        assert (wiced_bt_stack_init ∈ rest ++ wiced_bt_stack_init :: post) as Hin
          by (rewrite elem_of_app, elem_of_cons; auto).
        rewrite <- Hrest in Hin. unfold startup_cleanup in Hin.
        destruct (wiced_ok (ans_stack_init sa));
          rewrite !elem_of_cons, elem_of_nil in Hin; intuition congruence. }
    split; [apply elem_of_cons; by left|].
    split; [rewrite elem_of_cons, elem_of_app, elem_of_cons; auto|].
    split; [intros c Hc; rewrite elem_of_cons, elem_of_app; auto|].
    split; [|done].
    intros s Hs. rewrite elem_of_cons, elem_of_app, elem_of_cons. right. right. right.
    by apply list_elem_of_fmap_2.
  - destruct Hcalls as (pre & m & -> & Hpre).
    assert (wiced_bt_stack_init ∉ pre ++ startup_log IFX_LOG_FATAL m :: startup_cleanup)
      as Hout.
    { rewrite elem_of_app, elem_of_cons. unfold startup_cleanup.
      rewrite !elem_of_cons, elem_of_nil.
      intros [Hin|Hin]; [|intuition congruence].
      destruct (Hpre _ Hin) as [|[Hin'|[|(s & ?)%storage_calls_are_wrapped]]];
        try done.
      by destruct (Htag _ Hin') as (? & _). }
    split; [split; [done|discriminate]|].
    intros pre' post Heq. exfalso. apply Hout. rewrite Heq.
    rewrite elem_of_app, elem_of_cons. auto.
Qed.

(** X22: how the start-up task ends.  Its last call always deletes the
    task.  The I2C device, the protocol and the tag object are released
    exactly when the start-up did not complete, that is unless every step
    and the start of the stack succeeded, and then the release directly
    follows a fatal log entry. *)
Theorem startup_task_cleanup (CY_RSLT_TYPE_ERROR NBT_SET_CONFIGURATION_ILLEGAL_ARGUMENT : Z)
    (sa : startup_answers) (message : list Z) :
  let calls := startup_task CY_RSLT_TYPE_ERROR NBT_SET_CONFIGURATION_ILLEGAL_ARGUMENT
                 sa message in
  last calls = Some vTaskDelete
  ∧ (nbt_destroy ∈ calls
     ↔ ¬ (startup_ready CY_RSLT_TYPE_ERROR NBT_SET_CONFIGURATION_ILLEGAL_ARGUMENT sa message
          = true
          ∧ ans_stack_init sa = WICED_BT_SUCCESS))
  ∧ (nbt_destroy ∈ calls →
     ∃ pre m, calls = pre ++ [ startup_log IFX_LOG_FATAL m; cyhal_i2c_free;
                               ifx_protocol_destroy; nbt_destroy; vTaskDelete ]).
Proof.
  cbv zeta.
  pose proof (startup_task_calls CY_RSLT_TYPE_ERROR NBT_SET_CONFIGURATION_ILLEGAL_ARGUMENT
                sa message) as Hcalls.
  pose proof (tag_calls NBT_SET_CONFIGURATION_ILLEGAL_ARGUMENT sa message) as Htag.
  cbv zeta in Hcalls. unfold startup_cleanup in Hcalls.
  set (tag := (nbt_configure_ble_connection_handover _ sa false message).2) in *.
  set (flash := (data_storage_initialize _ _ _).2) in *.
  assert (nbt_destroy ∉ ifx_protocol_activate :: tag ++ xTimerStart :: (storage <$> flash))
    as Hnot.
  { rewrite elem_of_cons, elem_of_app, elem_of_cons.
    intros [|[Hin|[|(s & ?)%storage_calls_are_wrapped]]]; try done.
    by destruct (Htag _ Hin) as (_ & ? & _). }
  destruct (startup_ready _ _ sa message).
  - rewrite Hcalls. rewrite last_app. rewrite elem_of_app.
    destruct (wiced_ok (ans_stack_init sa)) eqn:Hstack; cbn [last startup_cleanup].
    + apply wiced_ok_true in Hstack. split; [done|].
      assert (nbt_destroy ∉ [wiced_bt_stack_init; vTaskDelete]) as Hend.
      { rewrite !elem_of_cons, elem_of_nil. intuition congruence. }
      split; [split; [tauto|]|tauto]. intros Hno. exfalso. by apply Hno.
    + split; [done|].
      assert (ans_stack_init sa ≠ WICED_BT_SUCCESS) as Hne.
      { rewrite <- wiced_ok_true. by rewrite Hstack. }
      split.
      * split; [tauto|]. intros _. right. rewrite !elem_of_cons. intuition.
      * intros _. eexists (_ ++ [wiced_bt_stack_init]), _.
        rewrite <- app_assoc. reflexivity.
  - destruct Hcalls as (pre & m & -> & Hpre). rewrite last_app. cbn [last startup_cleanup].
    split; [done|]. split.
    + split; [intros _ [[=] _]|]. intros _. apply elem_of_app. right.
      rewrite !elem_of_cons. intuition.
    + intros _. by exists pre, m.
Qed.

(** ** What the callbacks leave alone *)

Lemma untouched_refl (w : world) : untouched_by_ble_callback w w.
Proof. repeat split. exists []. by rewrite app_nil_r. Qed.

Lemma ble_enabled_configure_untouched (a : answers) (mac : list Z) (w : world) :
  untouched_by_ble_callback w (ble_enabled_configure a mac w).2.
Proof.
  unfold untouched_by_ble_callback, ble_enabled_configure, do_kvstore_read, gatt_array.
  world_simpl.
  destruct (_ ≫= bonding_info_of_bytes) as [info|]; world_simpl;
    [destruct (bonded info); world_simpl;
     [destruct (if cy_ok (ans_kvstore_read a "cccd" false) then _ else _); world_simpl|]|].
  all: destruct (wiced_ok (ans_set_raw_advertisement_data a)); cbn [negb andb]; world_simpl.
  all: try (destruct (gatt_ok (ans_gatt_register a)); cbn [negb andb]; world_simpl).
  all: try (destruct (gatt_ok (ans_gatt_db_init a)); cbn [negb andb]; world_simpl).
  all: try (destruct (ans_create_local_sc_oob_data a); cbn [negb andb]; world_simpl).
  all: try (destruct (NDEBUG a); cbn [negb andb]; world_simpl).
  all: try match goal with
         | |- context [wiced_ok (ans_start_advertisements ?a0 ?m)] =>
             destruct (wiced_ok (ans_start_advertisements a0 m)); world_simpl
         end.
  all: rewrite <- ?app_assoc; repeat split; by eexists.
Qed.

Ltac frame_solve :=
  unfold untouched_by_ble_callback; world_simpl; rewrite <- ?app_assoc; repeat split;
  first [done | discriminate | by eexists | by exists []; rewrite app_nil_r].

Lemma untouched_trans (w1 w2 w3 : world) :
  untouched_by_ble_callback w1 w2 → untouched_by_ble_callback w2 w3 →
  untouched_by_ble_callback w1 w3.
Proof.
  intros (He & Hp & Hc & Ht & Hg & l & Hl) (He' & Hp' & Hc' & Ht' & Hg' & l' & Hl').
  repeat split; try congruence.
  - intros p Hp0. rewrite Hg', Hg; done.
  - exists (l ++ l'). by rewrite Hl', Hl, app_assoc.
Qed.

Lemma ble_enabled_untouched (P : platform) (a : answers) (status : wiced_result_t) (w : world) :
  untouched_by_ble_callback w (ble_enabled P a status w).2
  ∧ data_storage (ble_enabled P a status w).2 = data_storage w.
Proof.
  unfold ble_enabled. fold (enabled_mac_address P a).
  destruct (wiced_ok status); cbn [negb snd]; [|split; [apply untouched_refl|done]].
  destruct (wiced_ok (ans_set_local_bdaddr a)); cbn [negb snd].
  2: { split; [|done]. unfold untouched_by_ble_callback. world_simpl.
       rewrite <- ?app_assoc. repeat split. by eexists. }
  unfold callback_mac_address_changed, do_nbt_write_file.
  destruct (ifx_error_check _); cbn [snd].
  { split; [|done]. unfold untouched_by_ble_callback. world_simpl.
    rewrite <- ?app_assoc. repeat split. by eexists. }
  match goal with |- context [ble_enabled_configure a ?m ?w1] =>
    pose proof (ble_enabled_configure_untouched a m w1) as Hframe;
    pose proof (ble_enabled_configure_restore P a m w1) as (Hstore & _);
    destruct (ble_enabled_configure a m w1) as [r w'] end.
  cbn [snd] in *. split; [|done].
  eapply untouched_trans; [|exact Hframe].
  unfold untouched_by_ble_callback. world_simpl. rewrite <- ?app_assoc.
  repeat split. by eexists.
Qed.

Lemma ble_oob_data_untouched (B : cipher_backend) (a : answers)
    (oob : wiced_bt_smp_sc_local_oob_t) (w : world) :
  untouched_by_ble_callback w (ble_oob_data B a oob w).2
  ∧ data_storage (ble_oob_data B a oob w).2 = data_storage w.
Proof.
  unfold ble_oob_data, callback_sc_random_value_changed,
    callback_sc_confirmation_value_changed, do_nbt_write_file, untouched_by_ble_callback.
  destruct (ifx_error_check (ans_nbt_write_file a CONNECTION_HANDOVER_MESSAGE_RANDOM_OFFSET));
    [|destruct (oob_cmac_prepare B _ _) as [c|];
      [destruct (mbedtls_cipher_cmac_finish B c) as [tag|];
       [destruct (ifx_error_check
                    (ans_nbt_write_file a CONNECTION_HANDOVER_MESSAGE_CONFIRMATION_OFFSET))|]|]].
  all: world_simpl; rewrite <- ?app_assoc; repeat split; by eexists.
Qed.

(** X23: what the management callback never does.  Whatever the event and
    whatever the libraries answer, [ble_callback] leaves the tick counter,
    the recorded press, the connection id, the attribute table and every
    attribute array but the client configuration as they were, and only adds
    to the record of calls.  The store is written by no event but pairing
    completion and the identity key update, and the handover message is
    rewritten by no event but the enable event and the OOB data event. *)
Theorem ble_callback_frame (P : platform) (B : cipher_backend) (a : answers)
    (event : wiced_bt_management_evt_t) (w : world) :
  let w' := (ble_callback P B a event w).2 in
  untouched_by_ble_callback w w'
  ∧ (writes_store event = false → data_storage w' = data_storage w)
  ∧ (writes_message event = false →
     CONNECTION_HANDOVER_MESSAGE w' = CONNECTION_HANDOVER_MESSAGE w).
Proof.
  cbv zeta. destruct event; unfold ble_callback; cbn [writes_store writes_message].
  - pose proof (ble_enabled_untouched P a status w) as [Hframe Hstore].
    destruct (ble_enabled P a status w) as [r w']. cbn [snd] in *.
    split; [done|split; [done|by intros]].
  - split; [apply untouched_refl|done].
  - unfold do_kvstore_write.
    destruct (cy_ok (ans_kvstore_write a "bonding")); cbn [negb]; frame_solve.
  - destruct (_ && _); [|split; [apply untouched_refl|done]].
    unfold do_start_advertisements.
    destruct (wiced_ok _); frame_solve.
  - frame_solve.
  - destruct (negb _); frame_solve.
  - unfold do_kvstore_write.
    destruct (cy_ok (ans_kvstore_write a "identity_keys")); cbn [negb]; frame_solve.
  - unfold do_kvstore_read. world_simpl.
    destruct (if cy_ok (ans_kvstore_read a "identity_keys" true) then _ else _);
      [destruct (if cy_ok (ans_kvstore_read a "identity_keys" false) then _ else _)|];
      frame_solve.
  - destruct (_ && _); [|split; [apply untouched_refl|done]].
    cbn [snd]. split; [|done]. repeat split.
    + intros p Hp. by apply gatt_array_set_gatt_array_ne.
    + exists []. by rewrite app_nil_r.
  - pose proof (ble_oob_data_untouched B a p_smp_sc_local_oob_data w) as [Hframe Hstore].
    destruct (ble_oob_data B a p_smp_sc_local_oob_data w) as [r w']. cbn [snd] in *.
    split; [done|split; [done|by intros]].
  - frame_solve.
  - split; [apply untouched_refl|done].
Qed.

Ltac gatt_frame_solve :=
  unfold untouched_by_gatt_callback; world_simpl; rewrite <- ?app_assoc; repeat split;
  first [done | by eexists | by exists []; rewrite app_nil_r
         | by intros; rewrite lookup_insert_ne].

(** X24: what the GATT callback never does.  Whatever the event and whatever
    the libraries answer, [gatt_callback] leaves the bonding record, the
    handover message, the identity keys, the resolution list, the tick
    counter and the recorded press as they were, writes nothing to the store
    except under "cccd", and only adds to the record of calls.  The
    connection id is assigned by connection status events only: a connect
    records the id and leaves advertising alone, a disconnect resets the id
    to 0; attribute requests and all other events change neither the
    connection id nor the advertising mode. *)
Theorem gatt_callback_frame (P : platform) (a : answers) (event : wiced_bt_gatt_evt_t)
    (w : world) :
  let w' := (gatt_callback P a event w).2 in
  untouched_by_gatt_callback w w'
  ∧ match event with
    | GATT_CONNECTION_STATUS_EVT true id =>
        connection_id w' = id ∧ advertising w' = advertising w
    | GATT_CONNECTION_STATUS_EVT false _ => connection_id w' = 0
    | _ => connection_id w' = connection_id w ∧ advertising w' = advertising w
    end.
Proof.
  cbv zeta. destruct event as [connected id|req|code]; unfold gatt_callback.
  - destruct connected; [|unfold do_start_advertisements; destruct (wiced_ok _)];
      gatt_frame_solve.
  - destruct (opcode req); cbn [snd]; try gatt_frame_solve.
    + destruct (handle2attr w (read_req_handle req)) as [[i attribute]|]; [|gatt_frame_solve].
      unfold gatt_read_attribute. destruct (_ >=? _); gatt_frame_solve.
    + destruct (handle2attr w (read_req_handle req)) as [[i attribute]|]; [|gatt_frame_solve].
      unfold gatt_read_attribute. destruct (_ >=? _); gatt_frame_solve.
    + destruct (handle2attr w (write_req_handle req)) as [[i attribute]|]; [|gatt_frame_solve].
      unfold gatt_write_attribute, do_kvstore_write.
      destruct (_ >? _); [gatt_frame_solve|].
      destruct (_ && _); [destruct (cy_ok _)|]; cbn [negb]; gatt_frame_solve.
    + destruct (handle2attr w (write_req_handle req)) as [[i attribute]|]; [|gatt_frame_solve].
      unfold gatt_write_attribute, do_kvstore_write.
      destruct (_ >? _); [gatt_frame_solve|].
      destruct (_ && _); [destruct (cy_ok _)|]; cbn [negb]; gatt_frame_solve.
  - gatt_frame_solve.
Qed.

(** ** The read-by-type request *)




